(** * End-to-end ASR building blocks ([src/module.py]): a shallow embedding

    The module defines four [torch.nn] components: [VGGExtractor], [RNNLayer],
    [ScaleDotAttention] and [LocationAwareAttention].  Each Python function is
    rendered as a function in an exception monad; free names are resolved in
    the module's global dictionary at call time, as the interpreter does.
    Tensors are values made of a shape and row-major data; the numeric kernels
    of the tensor library (convolutions, recurrences, softmax, ...) stay
    abstract, their effect on shapes is written out. *)

From Stdlib Require Import ZArith Ascii String List Lia.
From stdpp Require Import gmap strings list.

Open Scope Z_scope.

(** ** Exceptions and results *)

Module Py.

Inductive exn : Type :=
| NameError (name : string)
| UnboundLocalError (name : string)
| AttributeError (owner attr : string)
| ValueError (msg : string)
| TypeError (msg : string)
| IndexError (msg : string)
| RuntimeError (msg : string)
| ZeroDivisionError
| OverflowError.

Inductive result (T : Type) : Type :=
| Return (x : T)
| Raise (e : exn).

Arguments Return {T} x.
Arguments Raise {T} e.

#[export] Instance result_ret : MRet result := @Return.

#[export] Instance result_bind : MBind result :=
  λ T U k m, match m with Return x => k x | Raise e => Raise e end.

Definition raises {T : Type} (r : result T) : Prop := ∃ e, r = Raise e.

Definition returns {T : Type} (r : result T) : Prop := ∃ x, r = Return x.

(** Computations that also update an object of type [S] (an instance whose
    attributes are assigned).  An exception leaves the assignments made so
    far in place. *)
Definition stateful (S T : Type) : Type := S → S * result T.

Definition st_ret {S T : Type} (x : T) : stateful S T := λ s, (s, Return x).

Definition st_bind {S T U : Type} (m : stateful S T) (k : T → stateful S U)
  : stateful S U :=
  λ s, match m s with
       | (s', Return x) => k x s'
       | (s', Raise e) => (s', Raise e)
       end.

Definition st_lift {S T : Type} (r : result T) : stateful S T := λ s, (s, r).

Definition st_get {S : Type} : stateful S S := λ s, (s, Return s).

Definition st_put {S : Type} (s' : S) : stateful S unit := λ _, (s', Return tt).

End Py.

Export Py.

Notation "x ⇠ m ;; k" := (st_bind m (λ x, k))
  (at level 100, m at next level, right associativity,
   format "x  ⇠  m ;;  '/' k").

(** ** Tensors

    A tensor is its shape and its elements in row-major order.  Strides and
    memory layout are outside the model: [.contiguous()] is the identity and
    [.to(device)] returns its argument. *)

Module Torch.

Record tensor (A : Type) : Type := Tensor { shape : list nat; data : list A }.

Arguments Tensor {A} shape data.
Arguments shape {A} t.
Arguments data {A} t.

Definition numel (sh : list nat) : nat := foldr Nat.mul 1%nat sh.

Definition wf {A : Type} (t : tensor A) : Prop :=
  length (data t) = numel (shape t).

(** All multi-indices of a shape, in row-major order, and the position of a
    multi-index in that order. *)
Fixpoint indices (sh : list nat) : list (list nat) :=
  match sh with
  | [] => [[]]
  | n :: sh' => i ← seq 0 n; (cons i) <$> indices sh'
  end.

Fixpoint offset (sh idx : list nat) : nat :=
  match sh, idx with
  | _ :: sh', i :: idx' => (i * numel sh' + offset sh' idx')%nat
  | _, _ => 0%nat
  end.

Definition in_range (sh idx : list nat) : Prop := Forall2 lt idx sh.

#[export] Instance in_range_dec (sh idx : list nat) : Decision (in_range sh idx).
Proof. unfold in_range. apply _. Defined.

Definition get {A : Type} (t : tensor A) (idx : list nat) : option A :=
  if bool_decide (in_range (shape t) idx)
  then data t !! offset (shape t) idx
  else None.

(** [gather sh' f t] is the tensor of shape [sh'] whose element at [idx] is
    the element of [t] at [f idx]. *)
Definition gather {A : Type} (sh' : list nat) (f : list nat → list nat)
    (t : tensor A) : tensor A :=
  Tensor sh' (omap (λ idx, data t !! offset (shape t) (f idx)) (indices sh')).

(** [t.shape[d]] *)
Definition size {A : Type} (t : tensor A) (d : nat) : result Z :=
  match shape t !! d with
  | Some n => Return (Z.of_nat n)
  | None => Raise (IndexError "tuple index out of range")
  end.

(** [t.view(args...)]: one argument may be [-1] and is then inferred. *)
Definition view_shape (n : nat) (args : list Z) : result (list nat) :=
  if bool_decide (Exists (λ a, a < -1) args)
  then Raise (RuntimeError "invalid shape dimension")
  else
    let known := foldr Z.mul 1 (filter (λ a, a ≠ -1) args) in
    match length (filter (λ a, a = -1) args) with
    | O =>
        if bool_decide (known = Z.of_nat n)
        then Return (Z.to_nat <$> args)
        else Raise (RuntimeError "shape is invalid for input size")
    | S O =>
        if bool_decide (known ≠ 0 ∧ Z.of_nat n mod known = 0)
        then Return ((λ a, if bool_decide (a = -1)
                           then Z.to_nat (Z.of_nat n / known)
                           else Z.to_nat a) <$> args)
        else Raise (RuntimeError "shape is invalid for input size")
    | _ => Raise (RuntimeError "only one dimension can be inferred")
    end.

Definition view {A : Type} (t : tensor A) (args : list Z) : result (tensor A) :=
  sh' ← view_shape (numel (shape t)) args;
  Return (Tensor sh' (data t)).

Definition swap_at {T : Type} (d0 d1 : nat) (l : list T) : list T :=
  match l !! d0, l !! d1 with
  | Some a, Some b => <[d0 := b]> (<[d1 := a]> l)
  | _, _ => l
  end.

(** [t.transpose(d0, d1)] *)
Definition transpose {A : Type} (t : tensor A) (d0 d1 : nat) : result (tensor A) :=
  if bool_decide (d0 < length (shape t) ∧ d1 < length (shape t))%nat
  then Return (gather (swap_at d0 d1 (shape t)) (swap_at d0 d1) t)
  else Raise (IndexError "Dimension out of range").

(** The end of a slice [:stop] over an axis of length [n], as Python
    normalises it: a negative [stop] counts from the end and the result is
    clamped to the axis. *)
Definition slice_stop (n : nat) (stop : Z) : nat :=
  Z.to_nat (Z.min (Z.max (if stop <? 0 then stop + Z.of_nat n else stop) 0)
                  (Z.of_nat n)).

(** [t[:, :stop, :]] *)
Definition slice1_stop {A : Type} (t : tensor A) (stop : Z) : result (tensor A) :=
  match shape t with
  | b :: n :: (_ :: _) as rest =>
      Return (gather (b :: slice_stop n stop :: rest) id t)
  | _ => Raise (IndexError "too many indices for tensor")
  end.

(** [t[:, ::step, :]] *)
Definition slice1_step {A : Type} (t : tensor A) (step : Z) : result (tensor A) :=
  match shape t with
  | b :: n :: (_ :: _) as rest =>
      if step <=? 0
      then Raise (ValueError "step must be greater than zero")
      else
        let s := Z.to_nat step in
        Return (gather (b :: ((n + s - 1) / s)%nat :: rest)
                       (λ idx, match idx with
                               | i :: j :: r => i :: (j * s)%nat :: r
                               | _ => idx
                               end) t)
  | _ => Raise (IndexError "too many indices for tensor")
  end.

(** [t.unsqueeze(d)] *)
Definition unsqueeze {A : Type} (t : tensor A) (d : nat) : result (tensor A) :=
  if bool_decide (d ≤ length (shape t))%nat
  then Return (Tensor (take d (shape t) ++ 1%nat :: drop d (shape t)) (data t))
  else Raise (IndexError "Dimension out of range").

(** [t.squeeze(d)] *)
Definition squeeze {A : Type} (t : tensor A) (d : nat) : result (tensor A) :=
  match shape t !! d with
  | Some 1%nat => Return (Tensor (take d (shape t) ++ drop (S d) (shape t)) (data t))
  | Some _ => Return t
  | None => Raise (IndexError "Dimension out of range")
  end.

(** [t.repeat(reps...)] *)
Definition repeat_ {A : Type} (t : tensor A) (reps : list Z) : result (tensor A) :=
  if bool_decide (length reps < length (shape t))%nat
  then Raise (RuntimeError "number of repeat dims can not be smaller than number of tensor dims")
  else if bool_decide (Exists (λ r, r < 0) reps)
  then Raise (RuntimeError "repeats must be non-negative")
  else
    let lead := (length reps - length (shape t))%nat in
    let sh := replicate lead 1%nat ++ shape t in
    Return (gather (zip_with Nat.mul sh (Z.to_nat <$> reps))
                   (λ idx, drop lead (zip_with Nat.modulo idx sh)) t).

(** [torch.zeros(sizes)] *)
Definition zeros {A : Type} (zero : A) (sizes : list Z) : result (tensor A) :=
  if bool_decide (Exists (λ n, n < 0) sizes)
  then Raise (RuntimeError "negative dimension")
  else let sh := Z.to_nat <$> sizes in
       Return (Tensor sh (replicate (numel sh) zero)).

(** [t[i, :, :stop] = c] on a tensor of three axes *)
Definition fill_row_prefix {A : Type} (t : tensor A) (i stop : Z) (c : A)
    : result (tensor A) :=
  match shape t with
  | [b; _; n] =>
      if bool_decide (- Z.of_nat b ≤ i < Z.of_nat b)
      then
        let i' := Z.to_nat (if i <? 0 then i + Z.of_nat b else i) in
        let k := slice_stop n stop in
        Return (Tensor (shape t)
                  (zip_with (λ idx x, match idx with
                                      | [i0; _; j] =>
                                          if bool_decide (i0 = i' ∧ j < k)%nat
                                          then c else x
                                      | _ => x
                                      end)
                            (indices (shape t)) (data t)))
      else Raise (IndexError "index out of bounds for dimension 0")
  | _ => Raise (IndexError "too many indices for tensor")
  end.

(** Broadcasting: shapes are aligned on the right; paired axes must agree
    or one of them must be 1. *)
Fixpoint broadcast_rev (r1 r2 : list nat) : option (list nat) :=
  match r1, r2 with
  | [], r | r, [] => Some r
  | a :: r1', b :: r2' =>
      r ← broadcast_rev r1' r2';
      if bool_decide (a = b) then Some (a :: r)
      else if bool_decide (a = 1%nat) then Some (b :: r)
      else if bool_decide (b = 1%nat) then Some (a :: r)
      else None
  end.

Definition broadcast_shapes (s1 s2 : list nat) : option (list nat) :=
  reverse <$> broadcast_rev (reverse s1) (reverse s2).

(** The index of the operand of shape [sh] read at index [idx] of the
    broadcast result. *)
Definition broadcast_index (sh idx : list nat) : list nat :=
  zip_with (λ n i, if bool_decide (n = 1%nat) then 0%nat else i)
           sh (drop (length idx - length sh) idx).

Definition expand {A : Type} (sh' : list nat) (t : tensor A) : tensor A :=
  gather sh' (broadcast_index (shape t)) t.

(** Elementwise binary operation with broadcasting, as [a + b]. *)
Definition pointwise2 {A : Type} (op : A → A → A) (a b : tensor A)
    : result (tensor A) :=
  match broadcast_shapes (shape a) (shape b) with
  | Some sh => Return (Tensor sh (zip_with op (data (expand sh a)) (data (expand sh b))))
  | None => Raise (RuntimeError "The size of tensor a must match the size of tensor b")
  end.

Definition pointwise {A : Type} (op : A → A) (t : tensor A) : tensor A :=
  Tensor (shape t) (op <$> data t).

(** [t.masked_fill(mask, v)]: [mask] must broadcast to the shape of [t]. *)
Definition masked_fill {A : Type} (t : tensor A) (mask : tensor bool) (v : A)
    : result (tensor A) :=
  if bool_decide (broadcast_shapes (shape t) (shape mask) = Some (shape t))
  then Return (Tensor (shape t)
                 (zip_with (λ (m : bool) x, if m then v else x)
                           (data (expand (shape t) mask)) (data t)))
  else Raise (RuntimeError "The size of tensor a must match the size of tensor b").

(** Integer tensors of one axis (the length vectors): [lens // k]. *)
Definition floordiv (lens : list Z) (k : Z) : result (list Z) :=
  if k =? 0 then Raise ZeroDivisionError else Return ((λ n, n / k) <$> lens).

(** *** Layers of [torch.nn]

    A layer object is described by its constructor arguments; the
    parameters it holds are part of the abstract kernel. *)

Inductive layer (A : Type) : Type :=
| Conv2d (in_channels out_channels kernel_size stride padding : Z)
| ReLU
| MaxPool2d (kernel_size stride : Z)
| Conv1d (in_channels out_channels kernel_size padding : Z)
| Linear (in_features out_features : Z) (bias : bool)
| Softmax (dim : nat)
| LayerNorm (normalized_shape : Z)
| Dropout (p : A).

Arguments Conv2d {A}.
Arguments ReLU {A}.
Arguments MaxPool2d {A}.
Arguments Conv1d {A}.
Arguments Linear {A}.
Arguments Softmax {A}.
Arguments LayerNorm {A}.
Arguments Dropout {A}.

(** The arithmetic of the library on elements of type [A]. *)
Class Numerics (A : Type) : Type := {
  fzero : A;                          (* 0.0 *)
  fneg_inf : A;                       (* -inf *)
  frecip : Z → A;                     (* 1.0 / n, for an integer n ≠ 0 *)
  ftensor_recip : Z → A;              (* 1.0 / t for an integer tensor t of no axis; inf at 0 *)
  fadd : A → A → A;
  fdiv : A → A → A;
  ftanh : A → A;
  fpositive : A → bool;               (* x > 0 *)
  fprobability : A → bool;            (* not (x < 0 or x > 1) *)
  fdot : list A → list A → A;         (* sum of the products *)
  softmax1 : list A → list A;         (* softmax of a vector *)
  kernel : layer A → tensor A → list nat → A  (* the element a layer computes at an index of its output *)
}.

Section Ops.

Context {A : Type} `{Numerics A}.

(** [torch.bmm(a, b)] *)
Definition bmm (a b : tensor A) : result (tensor A) :=
  match shape a, shape b with
  | [ba; n; m], [bb; m'; p] =>
      if bool_decide (ba = bb ∧ m = m')
      then
        Return (Tensor [ba; n; p]
          ((λ idx, match idx with
                   | [i; r; c] =>
                       fdot (omap (λ k, get a [i; r; k]) (seq 0 m))
                            (omap (λ k, get b [i; k; c]) (seq 0 m))
                   | _ => fzero
                   end) <$> indices [ba; n; p]))
      else Raise (RuntimeError "batch1 and batch2 have incompatible sizes")
  | _, _ => Raise (RuntimeError "batch1 and batch2 must be 3D tensors")
  end.

(** Softmax along axis [d]: the elements that differ in axis [d] only are
    normalised together. *)
Definition softmax (d : nat) (t : tensor A) : result (tensor A) :=
  match shape t !! d with
  | Some n =>
      Return (Tensor (shape t)
        (omap (λ idx,
                 j ← idx !! d;
                 softmax1 (omap (λ k, data t !! offset (shape t) (<[d := k]> idx))
                                (seq 0 n)) !! j)
              (indices (shape t))))
  | None => Raise (IndexError "Dimension out of range")
  end.

Definition compute (l : layer A) (x : tensor A) (sh : list nat) : tensor A :=
  Tensor sh (kernel l x <$> indices sh).

(** Calling a layer on a tensor. *)
Definition apply (l : layer A) (x : tensor A) : result (tensor A) :=
  match l with
  | Conv2d cin cout k s p =>
      match shape x with
      | [n; c; h; w] =>
          if bool_decide (Z.of_nat c = cin ∧ 0 ≤ cout ∧ 0 < s ∧ 0 ≤ p ∧ 0 < k
                          ∧ k ≤ Z.of_nat h + 2 * p ∧ k ≤ Z.of_nat w + 2 * p)
          then Return (compute l x [n; Z.to_nat cout;
                                    Z.to_nat ((Z.of_nat h + 2 * p - k) / s + 1);
                                    Z.to_nat ((Z.of_nat w + 2 * p - k) / s + 1)])
          else Raise (RuntimeError "conv2d: input does not fit the layer")
      | _ => Raise (RuntimeError "conv2d: expected an input of 4 axes")
      end
  | ReLU => Return (compute l x (shape x))
  | MaxPool2d k s =>
      match shape x with
      | [n; c; h; w] =>
          if bool_decide (0 < s ∧ 0 < k ∧ k ≤ Z.of_nat h ∧ k ≤ Z.of_nat w)
          then Return (compute l x [n; c;
                                    Z.to_nat ((Z.of_nat h - k) / s + 1);
                                    Z.to_nat ((Z.of_nat w - k) / s + 1)])
          else Raise (RuntimeError "max_pool2d: output size is too small")
      | _ => Raise (RuntimeError "max_pool2d: expected an input of 4 axes")
      end
  | Conv1d cin cout k p =>
      match shape x with
      | [n; c; w] =>
          if bool_decide (Z.of_nat c = cin ∧ 0 ≤ cout ∧ 0 ≤ p ∧ 0 < k
                          ∧ k ≤ Z.of_nat w + 2 * p)
          then Return (compute l x [n; Z.to_nat cout;
                                    Z.to_nat (Z.of_nat w + 2 * p - k + 1)])
          else Raise (RuntimeError "conv1d: input does not fit the layer")
      | _ => Raise (RuntimeError "conv1d: expected an input of 3 axes")
      end
  | Linear fin fout _ =>
      match last (shape x) with
      | Some n =>
          if bool_decide (Z.of_nat n = fin ∧ 0 ≤ fout)
          then Return (compute l x (take (length (shape x) - 1) (shape x)
                                    ++ [Z.to_nat fout]))
          else Raise (RuntimeError "linear: shapes cannot be multiplied")
      | None => Raise (RuntimeError "linear: input has no axis")
      end
  | Softmax d => softmax d x
  | LayerNorm n =>
      match last (shape x) with
      | Some m =>
          if bool_decide (Z.of_nat m = n)
          then Return (compute l x (shape x))
          else Raise (RuntimeError "layer_norm: wrong normalized_shape")
      | None => Raise (RuntimeError "layer_norm: input has no axis")
      end
  | Dropout _ => Return (compute l x (shape x))
  end.

(** [nn.Sequential(l1, ..., ln)(x)] *)
Fixpoint sequential (ls : list (layer A)) (x : tensor A) : result (tensor A) :=
  match ls with
  | [] => Return x
  | l :: ls' => y ← apply l x; sequential ls' y
  end.

End Ops.

End Torch.

Export Torch.

(** ** Python numbers

    Integers are unbounded ([Z]).  The quotient [a / b] of two integers is the
    binary64 float nearest to the exact quotient (ties to even); a float is
    kept as an integer significand and a power of two. *)

Module PyNum.

Record float : Type := Float { significand : Z; exponent : Z }.

(** Nearest integer to [n / d], for [0 ≤ n] and [0 < d], ties to even. *)
Definition round_half_even (n d : Z) : Z :=
  let q := n / d in
  match 2 * (n mod d) ?= d with
  | Lt => q
  | Gt => q + 1
  | Eq => if Z.even q then q else q + 1
  end.

(** For [0 < x] and [0 < y], the exponent [e] of the last place of the
    53-bit significand of [x / y]: [2^52 ≤ (x / y) / 2^e < 2^53], and not
    below the subnormal exponent. *)
Definition ulp_exponent (x y : Z) : Z :=
  let k := Z.log2 x - Z.log2 y in
  let e := if x * 2 ^ Z.max 0 (- k) <? y * 2 ^ Z.max 0 k then k - 53 else k - 52 in
  Z.max e (-1074).

(** [a / b] on integers *)
Definition truediv (a b : Z) : result float :=
  if b =? 0 then Raise ZeroDivisionError
  else
    let x := Z.abs a in
    let y := Z.abs b in
    if x =? 0 then Return (Float 0 0)
    else
      let e := ulp_exponent x y in
      let m := if 0 <=? e
               then round_half_even x (y * 2 ^ e)
               else round_half_even (x * 2 ^ (- e)) y in
      if 1024 <=? Z.log2 m + e
      then Raise OverflowError
      else Return (Float (Z.sgn a * Z.sgn b * m) e).

(** [int(x)] on a float: truncation towards zero *)
Definition int (x : float) : Z :=
  if 0 <=? exponent x
  then significand x * 2 ^ exponent x
  else Z.quot (significand x) (2 ^ (- exponent x)).

(** [int(a / b)] *)
Definition int_truediv (a b : Z) : result Z :=
  x ← truediv a b; Return (int x).

End PyNum.

(** ** Values, global names and the execution of the module *)

Module Globals.

#[warnings="-register-all"] Inductive value (A : Type) : Type :=
| VNone
| VBool (b : bool)
| VInt (n : Z)
| VStr (s : string)
| VList (l : list (value A))
| VTuple (l : list (value A))
| VTensor (t : tensor A)
| VLongs (l : list Z)                        (* an integer tensor of one axis *)
| VLong (n : Z)                              (* an integer tensor of no axis *)
| VModule (name : string) (names : gset string) (* an imported module and the names it defines *)
| VAttr (owner attr : string)                (* an attribute of an imported module *)
| VClass (name : string).                    (* a class made by a class statement *)

Arguments VNone {A}.
Arguments VBool {A}.
Arguments VInt {A}.
Arguments VStr {A}.
Arguments VList {A}.
Arguments VTuple {A}.
Arguments VTensor {A}.
Arguments VLongs {A}.
Arguments VLong {A}.
Arguments VModule {A}.
Arguments VAttr {A}.
Arguments VClass {A}.

Definition type_name {A : Type} (v : value A) : string :=
  match v with
  | VNone => "NoneType"
  | VBool _ => "bool"
  | VInt _ => "int"
  | VStr _ => "str"
  | VList _ => "list"
  | VTuple _ => "tuple"
  | VTensor _ => "Tensor"
  | VLongs _ => "Tensor"
  | VLong _ => "Tensor"
  | VModule _ _ => "module"
  | VAttr _ _ => "object"
  | VClass _ => "type"
  end.

Section Names.

Context {A : Type}.

(** A free name of a function body is looked up in the globals of the module
    when the body runs.  The built-in names the source uses ([super], [int],
    [getattr], [enumerate], [ValueError]) are taken as not shadowed. *)
Definition lookup_name (G : gmap string (value A)) (x : string) : result (value A) :=
  match G !! x with
  | Some v => Return v
  | None => Raise (NameError x)
  end.

(** [m.attr] on the value bound to an imported module *)
Definition getattr_module (m : value A) (attr : string) : result (value A) :=
  match m with
  | VModule name names =>
      if bool_decide (attr ∈ names)
      then Return (VAttr name attr)
      else Raise (AttributeError name attr)
  | _ => Raise (AttributeError (type_name m) attr)
  end.

(** [var.attr] where [var] is a global name, as in [torch.bmm] or [nn.Conv2d] *)
Definition global_attr (G : gmap string (value A)) (var attr : string)
    : result (value A) :=
  m ← lookup_name G var; getattr_module m attr.

(** Top-level statements transform the globals or raise. *)
Definition stmt : Type := gmap string (value A) → result (gmap string (value A)).

(** [import name as asname] *)
Definition import_as (name : string) (names : gset string) (asname : string) : stmt :=
  λ G, Return (<[asname := VModule name names]> G).

(** [class name(base_var.base_attr): ...]: the base is evaluated first; the
    body only binds methods. *)
Definition class_def (name base_var base_attr : string) : stmt :=
  λ G, _ ← global_attr G base_var base_attr;
       Return (<[name := VClass name]> G).

(** Statements run in order; the first exception ends the execution and
    leaves the names bound so far. *)
Fixpoint exec (body : list stmt) (G : gmap string (value A))
    : gmap string (value A) * option exn :=
  match body with
  | [] => (G, None)
  | s :: body' =>
      match s G with
      | Return G' => exec body' G'
      | Raise e => (G, Some e)
      end
  end.

(** The names the imported libraries define. *)
Record libraries : Type := Libraries {
  torch_names : gset string;
  numpy_names : gset string;
  torch_nn_names : gset string
}.

Definition module_body (lib : libraries) : list stmt :=
  [ import_as "torch" (torch_names lib) "torch";
    import_as "numpy" (numpy_names lib) "np";
    import_as "torch.nn" (torch_nn_names lib) "nn";
    class_def "VGGExtractor" "nn" "Module";
    class_def "RNNLayer" "nn" "Module";
    class_def "ScaleDotAttention" "nn" "module";
    class_def "LocationAwareAttention" "nn" "module" ].

Definition exec_module (lib : libraries) : gmap string (value A) * option exn :=
  exec (module_body lib) ∅.

(** The part of the libraries' names that the source refers to. *)
Definition installed : libraries :=
  Libraries
    {[ "zeros"; "bmm"; "tanh"; "nn" ]}
    {[ "inf" ]}
    {[ "Module"; "Sequential"; "Conv2d"; "ReLU"; "MaxPool2d"; "LayerNorm";
       "Dropout"; "Softmax"; "Conv1d"; "Linear"; "RNN"; "LSTM"; "GRU";
       "modules"; "functional"; "utils" ]}.

(** The globals in which the functions of the module run. *)
Definition module_globals : gmap string (value A) := (exec_module installed).1.

(** [name(...)]: the class is looked up, then its constructor runs. *)
Definition instantiate {T : Type} (G : gmap string (value A)) (name : string)
    (init : result T) : result T :=
  c ← lookup_name G name;
  match c with
  | VClass _ => init
  | _ => Raise (TypeError "object is not callable")
  end.

End Names.

End Globals.

Export Globals.

(** ** Attribute and string operations on values *)

Module Dyn.

Section Dyn.

Context {A : Type}.

(** [v.shape] *)
Definition shape_of (v : value A) : result (list nat) :=
  match v with
  | VTensor t => Return (shape t)
  | VLongs l => Return [length l]
  | VLong _ => Return []
  | _ => Raise (AttributeError (type_name v) "shape")
  end.

(** [v.shape[-1]] *)
Definition last_dim (v : value A) : result Z :=
  sh ← shape_of v;
  match last sh with
  | Some n => Return (Z.of_nat n)
  | None => Raise (IndexError "tuple index out of range")
  end.

(** [s + v] for a string [s] *)
Definition str_add (s : string) (v : value A) : result string :=
  match v with
  | VStr s' => Return (s +:+ s')
  | _ => Raise (TypeError "can only concatenate str to str")
  end.

Definition upper_ascii (c : ascii) : ascii :=
  let n := nat_of_ascii c in
  if (97 <=? n)%nat && (n <=? 122)%nat then ascii_of_nat (n - 32) else c.

Fixpoint upper (s : string) : string :=
  match s with
  | EmptyString => EmptyString
  | String c s' => String (upper_ascii c) (upper s')
  end.

(** [v.upper()] *)
Definition str_upper (v : value A) : result string :=
  match v with
  | VStr s => Return (upper s)
  | _ => Raise (AttributeError (type_name v) "upper")
  end.

(** A value used where the library expects an integer (a size, an index or
    the end of a slice): an integer tensor of no axis is accepted as well. *)
Definition as_int (v : value A) : result Z :=
  match v with
  | VInt n => Return n
  | VBool b => Return (if b then 1 else 0)
  | VLong n => Return n
  | _ => Raise (TypeError "an integer is required")
  end.

(** [nn.name(...)]: the class is looked up in [nn]; the layer is then the one
    described by the arguments. *)
Definition nn_layer (G : gmap string (value A)) (name : string)
    (l : layer A) : result (layer A) :=
  _ ← global_attr G "nn" name; Return l.

End Dyn.

End Dyn.

Export Dyn.

(** ** [class VGGExtractor] *)

Module VGGExtractor.

Section VGGExtractor.

Context {A : Type} `{Numerics A}.

Record instance : Type := Instance {
  in_channel : Z;
  freq_dim : Z;
  out_dim : Z;
  extractor : list (layer A)
}.

(** [check_dim(self, input_dim)].  The first statement rebinds [input_dim]
    to [example_input.shape[-1]]; [example_input] and, in the last branch,
    [d] are free names. *)
Definition check_dim (G : gmap string (value A)) (input_dim : Z)
    : result (Z * Z * Z) :=
  example_input ← lookup_name G "example_input";
  input_dim ← last_dim example_input;
  if bool_decide (input_dim mod 13 = 0) then
    c ← PyNum.int_truediv input_dim 13;
    Return (c, 13, (13 / 4) * 128)
  else if bool_decide (input_dim mod 40 = 0) then
    c ← PyNum.int_truediv input_dim 40;
    Return (c, 40, (40 / 4) * 128)
  else
    d ← lookup_name G "d";
    msg ← str_add "Acoustic feature dimension for VGG should be 13/26/39(MFCC) or 40/80/120(Fbank) but got " d;
    Raise (ValueError msg).

(** The layers that [__init__] gives to [nn.Sequential]. *)
Definition extractor_layers (in_channel : Z) : list (layer A) :=
  [ Conv2d in_channel 64 3 1 1; ReLU;
    Conv2d 64 64 3 1 1; ReLU;
    MaxPool2d 2 2;
    Conv2d 64 128 3 1 1; ReLU;
    Conv2d 128 128 3 1 1; ReLU;
    MaxPool2d 2 2 ].

(** [__init__(self, input_dim)] *)
Definition __init__ (G : gmap string (value A)) (input_dim : Z) : result instance :=
  _ ← lookup_name G "VGGExtractor";
  '(in_channel, freq_dim, out_dim) ← check_dim G input_dim;
  _ ← global_attr G "nn" "Sequential";
  l0 ← nn_layer G "Conv2d" (Conv2d in_channel 64 3 1 1);
  l1 ← nn_layer G "ReLU" ReLU;
  l2 ← nn_layer G "Conv2d" (Conv2d 64 64 3 1 1);
  l3 ← nn_layer G "ReLU" ReLU;
  l4 ← nn_layer G "MaxPool2d" (MaxPool2d 2 2);
  l5 ← nn_layer G "Conv2d" (Conv2d 64 128 3 1 1);
  l6 ← nn_layer G "ReLU" ReLU;
  l7 ← nn_layer G "Conv2d" (Conv2d 128 128 3 1 1);
  l8 ← nn_layer G "ReLU" ReLU;
  l9 ← nn_layer G "MaxPool2d" (MaxPool2d 2 2);
  Return (Instance in_channel freq_dim out_dim [l0; l1; l2; l3; l4; l5; l6; l7; l8; l9]).

(** [VGGExtractor(input_dim)] *)
Definition new (G : gmap string (value A)) (input_dim : Z) : result instance :=
  instantiate G "VGGExtractor" (__init__ G input_dim).

(** Lines 43-44 of [view_input]: crop the sequence so that its length
    becomes a multiple of 4. *)
Definition crop (feature : tensor A) : result (tensor A) :=
  t ← size feature 1;
  if bool_decide (t mod 4 ≠ 0)
  then slice1_stop feature (- (t mod 4))
  else Return feature.

(** [view_input(self, feature, feat_len)] *)
Definition view_input (self : instance) (feature : tensor A) (feat_len : list Z)
    : result (tensor A * list Z) :=
  feat_len ← floordiv feat_len 4;
  feature ← crop feature;
  match shape feature with
  | [bs; ts; ds] =>
      feature ← view feature [Z.of_nat bs; Z.of_nat ts; in_channel self; freq_dim self];
      feature ← transpose feature 1 2;
      Return (feature, feat_len)
  | _ => Raise (ValueError "wrong number of values to unpack")
  end.

(** [forward(self, feature, feat_len)] *)
Definition forward (self : instance) (feature : tensor A) (feat_len : list Z)
    : result (tensor A * list Z) :=
  '(feature, feat_len) ← view_input self feature feat_len;
  feature ← sequential (extractor self) feature;
  feature ← transpose feature 1 2;
  d0 ← size feature 0;
  d1 ← size feature 1;
  feature ← view feature [d0; d1; out_dim self];
  Return (feature, feat_len).

End VGGExtractor.

Arguments instance A : clear implicits.

End VGGExtractor.

(** ** [class RNNLayer] *)

Module RNNLayer.

(** A recurrent layer [nn.RNN], [nn.LSTM] or [nn.GRU] built with
    [num_layers=1, batch_first=True]. *)
Record recurrent : Type := Recurrent {
  cell : string;
  input_size : Z;
  hidden_size : Z;
  bidirectional : bool
}.

Section RNNLayer.

Context {A : Type} `{Numerics A}.

Record instance : Type := Instance {
  out_dim : Z;
  dropout : A;
  layer_norm : bool;
  sample_rate : Z;
  sample_style : string;
  layer : recurrent;
  ln : option (Torch.layer A);     (* assigned only if [layer_norm] *)
  dp : option (Torch.layer A)      (* assigned only if [dropout > 0] *)
}.

(** Lines 69-70 of [__init__]. *)
Definition rnn_out_dim (dim : Z) (bidirection : bool) : Z :=
  if bidirection then 2 * dim else dim.

Definition exposed_dim (dim : Z) (bidirection : bool) (sample_rate : Z)
    (sample_style : string) : Z :=
  if bool_decide (1 < sample_rate) && bool_decide (sample_style = "concat")
  then sample_rate * rnn_out_dim dim bidirection
  else rnn_out_dim dim bidirection.

(** [getattr(nn, name)(in_dim, dim, bidirectional=..., num_layers=1,
    batch_first=True)].  The constructors of the recurrent layers check
    their sizes: the hidden size and the input size must be positive
    integers. *)
Definition make_recurrent (ctor in_dim : value A) (dim : Z) (bidirection : bool)
    : result recurrent :=
  match ctor with
  | VAttr "torch.nn" name =>
      if bool_decide (name ∈ ["RNN"; "LSTM"; "GRU"])
      then
        if bool_decide (dim ≤ 0)
        then Raise (ValueError "hidden_size must be greater than zero")
        else
          n ← match in_dim with
              | VInt n => Return n
              | VBool b => Return (if b then 1 else 0)
              | _ => Raise (TypeError "input_size should be of type int")
              end;
          if bool_decide (n ≤ 0)
          then Raise (ValueError "input_size must be greater than zero")
          else Return (Recurrent name n dim bidirection)
      else Raise (TypeError "unexpected keyword argument 'bidirectional'")
  | _ => Raise (TypeError "object is not callable")
  end.

(** [nn.Dropout(p=dropout)]: the constructor rejects a [p] below 0 or above
    1 (the message ends with the number). *)
Definition make_dropout (G : gmap string (value A)) (p : A)
    : result (Torch.layer A) :=
  _ ← global_attr G "nn" "Dropout";
  if fprobability p
  then Return (Dropout p)
  else Raise (ValueError "dropout probability has to be between 0 and 1, but got ").

(** [__init__(self, input_dim, module, dim, bidirection, dropout,
    layer_norm, sample_rate, sample_style)]; [rnn_cell] and [in_dim] are
    free names.  [nn.LayerNorm] is reached only after the recurrent
    constructor has accepted [dim], hence with a positive width. *)
Definition __init__ (G : gmap string (value A)) (input_dim : Z) (module : string)
    (dim : Z) (bidirection : bool) (dropout : A) (layer_norm : bool)
    (sample_rate : Z) (sample_style : string) : result instance :=
  _ ← lookup_name G "RNNLayer";
  let rnn_out_dim := rnn_out_dim dim bidirection in
  let out_dim := exposed_dim dim bidirection sample_rate sample_style in
  if bool_decide (sample_style ∉ ["drop"; "concat"])
  then Raise (ValueError ("Unsupported Sample Style: " +:+ sample_style))
  else
    nn ← lookup_name G "nn";
    rnn_cell ← lookup_name G "rnn_cell";
    name ← str_upper rnn_cell;
    ctor ← getattr_module nn name;
    in_dim ← lookup_name G "in_dim";
    layer ← make_recurrent ctor in_dim dim bidirection;
    ln ← (if layer_norm
          then l ← nn_layer G "LayerNorm" (LayerNorm rnn_out_dim); Return (Some l)
          else Return None);
    dp ← (if fpositive dropout
          then l ← make_dropout G dropout; Return (Some l)
          else Return None);
    Return (Instance out_dim dropout layer_norm sample_rate sample_style layer ln dp).

(** [RNNLayer(input_dim, module, dim, ...)] *)
Definition new (G : gmap string (value A)) (input_dim : Z) (module : string)
    (dim : Z) (bidirection : bool) (dropout : A) (layer_norm : bool)
    (sample_rate : Z) (sample_style : string) : result instance :=
  instantiate G "RNNLayer"
    (__init__ G input_dim module dim bidirection dropout layer_norm
              sample_rate sample_style).

(** What calling a value bound to a free name does, and what the recurrent
    layer computes on a packed sequence, are left to the caller's
    environment. *)
Variable call : value A → list (value A) → result (value A).
Variable run_layer : recurrent → value A → value A → result (value A).

(** Lines 92-94 of [forward]: [pack_padded_sequence], [state] and
    [pad_packed_sequence] are free names. *)
Definition recurrent_pass (G : gmap string (value A)) (self : instance)
    (input_x : tensor A) (x_len : list Z) : result (tensor A * list Z) :=
  pack ← lookup_name G "pack_padded_sequence";
  input_x ← call pack [VTensor input_x; VLongs x_len];
  state ← lookup_name G "state";
  r ← run_layer (layer self) input_x state;
  match r with
  | VTuple [output; _] =>
      unpack ← lookup_name G "pad_packed_sequence";
      r ← call unpack [output];
      match r with
      | VTuple [VTensor output; VLongs x_len] => Return (output, x_len)
      | _ => Raise (ValueError "wrong number of values to unpack")
      end
  | _ => Raise (ValueError "wrong number of values to unpack")
  end.

(** Lines 97-100 of [forward]. *)
Definition normalizations (self : instance) (output : tensor A) : result (tensor A) :=
  output ← (if layer_norm self
            then match ln self with
                 | Some l => apply l output
                 | None => Raise (AttributeError "RNNLayer" "ln")
                 end
            else Return output);
  if fpositive (dropout self)
  then match dp self with
       | Some l => apply l output
       | None => Raise (AttributeError "RNNLayer" "dp")
       end
  else Return output.

(** Lines 103-116 of [forward]: the downsampling of the output of the
    recurrence. *)
Definition downsampling (self : instance) (output : tensor A) (x_len : list Z)
    : result (tensor A * list Z) :=
  if bool_decide (1 < sample_rate self) then
    match shape output with
    | [batch_size; timestep; feature_dim] =>
        x_len ← floordiv x_len (sample_rate self);
        if bool_decide (sample_style self = "drop") then
          output ← slice1_step output (sample_rate self);
          Return (output, x_len)
        else
          output ← (if bool_decide (Z.of_nat timestep mod sample_rate self ≠ 0)
                    then slice1_stop output (- (Z.of_nat timestep mod sample_rate self))
                    else Return output);
          t ← PyNum.int_truediv (Z.of_nat timestep) (sample_rate self);
          output ← view output [Z.of_nat batch_size; t;
                                Z.of_nat feature_dim * sample_rate self];
          Return (output, x_len)
    | _ => Raise (ValueError "wrong number of values to unpack")
    end
  else Return (output, x_len).

(** [forward(self, input_x, x_len)] *)
Definition forward (G : gmap string (value A)) (self : instance)
    (input_x : tensor A) (x_len : list Z) : result (tensor A * list Z) :=
  '(output, x_len) ← recurrent_pass G self input_x x_len;
  output ← normalizations self output;
  downsampling self output x_len.

End RNNLayer.

Arguments instance A : clear implicits.

End RNNLayer.

(** A local name read before any assignment to it in the function body. *)
Definition read_local {T : Type} (name : string) (binding : option T) : result T :=
  match binding with
  | Some x => Return x
  | None => Raise (UnboundLocalError name)
  end.

(** [self.attr] for an attribute that may not have been assigned. *)
Definition read_attr {T : Type} (class attr : string) (binding : option T) : result T :=
  match binding with
  | Some x => Return x
  | None => Raise (AttributeError class attr)
  end.

(** ** [class ScaleDotAttention] *)

Module ScaleDotAttention.

Section ScaleDotAttention.

Context {A : Type} `{Numerics A}.

Record instance : Type := Instance {
  temperature : A;
  softmax : layer A;
  num_head : option Z       (* assigned by no method; [None]: the attribute is absent *)
}.

(** [__init__(self, temperature)] *)
Definition __init__ (G : gmap string (value A)) (temperature : A) : result instance :=
  softmax ← nn_layer G "Softmax" (Softmax 1);
  Return (Instance temperature softmax None).

(** [ScaleDotAttention(temperature)] *)
Definition new (G : gmap string (value A)) (temperature : A) : result instance :=
  instantiate G "ScaleDotAttention" (__init__ G temperature).

(** Lines 127-133 of [forward]: the attention weights. *)
Definition weights (G : gmap string (value A)) (self : instance)
    (q k : tensor A) (mask : option (tensor bool)) : result (tensor A) :=
  _ ← global_attr G "torch" "bmm";
  kt ← transpose k 1 2;
  attn ← bmm q kt;
  let attn := pointwise (λ x, fdiv x (temperature self)) attn in
  attn ← match mask with
         | Some m => _ ← global_attr G "np" "inf"; masked_fill attn m fneg_inf
         | None => Return attn
         end;
  apply (softmax self) attn.

(** [forward(self, q, k, v, mask=None)]; [bs] is a free name. *)
Definition forward (G : gmap string (value A)) (self : instance)
    (q k v : tensor A) (mask : option (tensor bool))
    : result (tensor A * tensor A) :=
  attn ← weights G self q k mask;
  _ ← global_attr G "torch" "bmm";
  output ← bmm attn v;
  bs ← lookup_name G "bs";
  num_head ← read_attr "ScaleDotAttention" "num_head" (num_head self);
  bs ← as_int bs;
  attn ← view attn [bs; num_head; -1];
  Return (output, attn).

End ScaleDotAttention.

Arguments instance A : clear implicits.

End ScaleDotAttention.

(** ** [class LocationAwareAttention] *)

Module LocationAwareAttention.

Section LocationAwareAttention.

Context {A : Type} `{Numerics A}.

Record instance : Type := Instance {
  temperature : A;
  num_head : Z;
  softmax : layer A;
  prev_att : option (tensor A);   (* [None] is Python's [None] *)
  loc_conv : layer A;
  loc_proj : layer A;
  gen_energy : layer A;
  k_attr : option (tensor A)      (* [self.k]: assigned by no method; [None]: absent *)
}.

(** [self.prev_att = p] *)
Definition set_prev_att (p : option (tensor A)) (self : instance) : instance :=
  {| temperature := temperature self;
     num_head := num_head self;
     softmax := softmax self;
     prev_att := p;
     loc_conv := loc_conv self;
     loc_proj := loc_proj self;
     gen_energy := gen_energy self;
     k_attr := k_attr self |}.

(** [__init__(self, kernel_size, kernel_num, dim, num_head, temperature)] *)
Definition __init__ (G : gmap string (value A)) (kernel_size kernel_num dim num_head : Z)
    (temperature : A) : result instance :=
  softmax ← nn_layer G "Softmax" (Softmax 1);
  loc_conv ← nn_layer G "Conv1d"
               (Conv1d num_head kernel_num (2 * kernel_size + 1) kernel_size);
  loc_proj ← nn_layer G "Linear" (Linear kernel_num dim false);
  gen_energy ← nn_layer G "Linear" (Linear dim 1 true);
  Return (Instance temperature num_head softmax None loc_conv loc_proj gen_energy None).

(** [LocationAwareAttention(kernel_size, kernel_num, dim, num_head, temperature)] *)
Definition new (G : gmap string (value A)) (kernel_size kernel_num dim num_head : Z)
    (temperature : A) : result instance :=
  instantiate G "LocationAwareAttention"
    (__init__ G kernel_size kernel_num dim num_head temperature).

(** [reset_mem(self)] *)
Definition reset_mem : stateful instance unit :=
  λ self, (set_prev_att None self, Return tt).

(** The values an iteration over [v] yields; the items of an integer tensor
    of one axis are integer tensors of no axis. *)
Definition iterate (v : value A) : result (list (value A)) :=
  match v with
  | VList l | VTuple l => Return l
  | VLongs l => Return (VLong <$> l)
  | VTensor t =>
      match shape t with
      | [] => Raise (TypeError "iteration over a 0-d tensor")
      | n :: sh =>
          Return ((λ i, VTensor (Tensor sh (take (numel sh) (drop (i * numel sh) (data t)))))
                    <$> seq 0 n)
      end
  | VStr s => Return ((λ c, VStr (String c EmptyString)) <$> list_ascii_of_string s)
  | _ => Raise (TypeError "object is not iterable")
  end.

(** Line 161, for one pair of [enumerate(enc_len)]:
    [self.prev_att[idx,:,:sl] = 1.0/sl].  For a Python integer [sl] the
    quotient is a Python float and [sl = 0] raises [ZeroDivisionError]; for
    an integer tensor of no axis the quotient is a tensor and nothing is
    raised. *)
Definition init_row (idx : nat) (sl : value A) : stateful instance unit :=
  n ⇠ st_lift (as_int sl);;
  c ⇠ st_lift (match sl with
               | VLong _ => Return (ftensor_recip n)
               | _ => if n =? 0 then Raise ZeroDivisionError else Return (frecip n)
               end);;
  self ⇠ st_get;;
  p ⇠ st_lift (match prev_att self with
               | Some p => fill_row_prefix p (Z.of_nat idx) n c
               | None => Raise (TypeError "'NoneType' object does not support item assignment")
               end);;
  st_put (set_prev_att (Some p) self).

Fixpoint init_rows (idx : nat) (items : list (value A)) : stateful instance unit :=
  match items with
  | [] => st_ret tt
  | sl :: items' => _ ⇠ init_row idx sl;; init_rows (S idx) items'
  end.

(** Lines 159-161 of [forward]: [bs] and [enc_len] are free names. *)
Definition init_prev_att (G : gmap string (value A)) (ts : Z) : stateful instance unit :=
  _ ⇠ st_lift (global_attr G "torch" "zeros");;
  bs ⇠ st_lift (lookup_name G "bs");;
  self ⇠ st_get;;
  z ⇠ st_lift (bs ← as_int bs; zeros fzero [bs; num_head self; ts]);;
  _ ⇠ st_put (set_prev_att (Some z) self);;
  enc_len ⇠ st_lift (lookup_name G "enc_len");;
  items ⇠ st_lift (iterate enc_len);;
  init_rows 0 items.

(** [forward(self, q, k, v, mask=None)]; [dim] is a free name, [self.k] is
    read although no method assigns it, and the local name [attn] is read
    on line 173 before its first assignment. *)
Definition forward (G : gmap string (value A)) (q k v : tensor A)
    (mask : option (tensor bool)) : stateful instance (tensor A * tensor A) :=
  ts ⇠ st_lift (size k 1);;
  self ⇠ st_get;;
  _ ⇠ match prev_att self with
      | None => init_prev_att G ts
      | Some _ => st_ret tt
      end;;
  self ⇠ st_get;;
  loc_context ⇠ st_lift (
      _ ← global_attr G "torch" "tanh";
      p ← match prev_att self with
          | Some p => Return p
          | None => Raise (TypeError "conv1d received None")
          end;
      c ← apply (loc_conv self) p;
      c ← transpose c 1 2;
      c ← apply (loc_proj self) c;
      Return (pointwise ftanh c));;
  loc_context ⇠ st_lift (
      u ← unsqueeze loc_context 1;
      r ← repeat_ u [1; num_head self; 1; 1];
      dim ← lookup_name G "dim";
      dim ← as_int dim;
      view r [-1; ts; dim]);;
  q ⇠ st_lift (unsqueeze q 1);;
  energy ⇠ st_lift (
      _ ← global_attr G "torch" "tanh";
      k' ← read_attr "LocationAwareAttention" "k" (k_attr self);
      s ← pointwise2 fadd k' q;
      s ← pointwise2 fadd s loc_context;
      e ← apply (gen_energy self) (pointwise ftanh s);
      squeeze e 2);;
  let energy := pointwise (λ x, fdiv x (temperature self)) energy in
  energy ⇠ st_lift (match mask with
                    | Some m => _ ← global_attr G "np" "inf";
                                masked_fill energy m fneg_inf
                    | None => Return energy
                    end);;
  attn ⇠ st_lift (read_local "attn" None);;
  attn ⇠ st_lift (apply (softmax self) attn);;
  output ⇠ st_lift (_ ← global_attr G "torch" "bmm"; bmm attn v);;
  attn ⇠ st_lift (bs ← lookup_name G "bs";
                  bs ← as_int bs;
                  view attn [bs; num_head self; -1]);;
  self ⇠ st_get;;
  _ ⇠ st_put (set_prev_att (Some attn) self);;
  st_ret (output, attn).

End LocationAwareAttention.

Arguments instance A : clear implicits.

End LocationAwareAttention.

(** ** A stand-in arithmetic

    The statements below hold for every arithmetic.  To run the definitions
    on concrete tensors, elements are taken to be integers; kernels of layers
    produce zeros, so that only shapes and the movement of data are
    observed. *)

Module StandIn.

#[export] Instance numerics : Numerics Z := {|
  fzero := 0;
  fneg_inf := -1;
  frecip := λ n, 1 / n;
  ftensor_recip := λ n, if n =? 0 then 2 ^ 128 else 1 / n;
  fadd := Z.add;
  fdiv := Z.div;
  ftanh := id;
  fpositive := λ x, bool_decide (0 < x);
  fprobability := λ x, bool_decide (0 ≤ x ≤ 1);
  fdot := λ a b, foldr Z.add 0 (zip_with Z.mul a b);
  softmax1 := id;
  kernel := λ _ _ _, 0
|}.

(** The integers [0, 1, ..., n-1] laid out in the given shape. *)
Definition iota (sh : list nat) : tensor Z :=
  Tensor sh (Z.of_nat <$> seq 0 (numel sh)).

End StandIn.

Import StandIn.

(** * Properties *)

(** ** Indices and elements of tensors *)

Section TensorFacts.

Context {A : Type}.

Lemma length_indices (sh : list nat) : length (indices sh) = numel sh.
Proof.
  induction sh as [|n sh IH]; [done|].
  cbn [indices numel foldr]. fold (numel sh).
  assert (∀ l : list nat,
    length (i ← l; (cons i) <$> indices sh) = (length l * numel sh)%nat) as Hb.
  { induction l as [|x l IHl]; [done|].
    rewrite bind_cons, length_app, length_fmap, IH, IHl. simpl. lia. }
  rewrite Hb, length_seq. done.
Qed.

Lemma lookup_bind_blocks {T U : Type} (f : T → list U) (m : nat) (l : list T)
    (i j : nat) :
  (∀ x, length (f x) = m) → (j < m)%nat →
  (l ≫= f) !! (i * m + j)%nat = l !! i ≫= (λ x, f x !! j).
Proof.
  intros Hlen Hj. revert i. induction l as [|x l IH]; intros i.
  - by destruct i.
  - rewrite bind_cons. destruct i as [|i].
    + simpl. rewrite lookup_app_l; [done|]. rewrite Hlen. lia.
    + rewrite lookup_app_r; rewrite Hlen; [|lia].
      replace (S i * m + j - m)%nat with (i * m + j)%nat by lia.
      apply IH.
Qed.

Lemma offset_lt (sh idx : list nat) :
  in_range sh idx → (offset sh idx < numel sh)%nat.
Proof.
  unfold in_range. intros Hr. induction Hr as [|i n idx sh Hi Hr IH].
  - simpl. lia.
  - cbn [offset numel foldr]. fold (numel sh). nia.
Qed.

Lemma indices_lookup (sh idx : list nat) :
  in_range sh idx → indices sh !! offset sh idx = Some idx.
Proof.
  unfold in_range. intros Hr. induction Hr as [|i n idx sh Hi Hr IH].
  - done.
  - cbn [offset indices].
    rewrite (lookup_bind_blocks _ (numel sh)).
    + rewrite lookup_seq_lt by done. simpl.
      rewrite list_lookup_fmap, IH. done.
    + intros x. rewrite length_fmap. apply length_indices.
    + by apply offset_lt.
Qed.

Lemma lookup_omap_total {T U : Type} (g : T → option U) (l : list T) (i : nat) :
  (∀ x, x ∈ l → is_Some (g x)) → omap g l !! i = l !! i ≫= g.
Proof.
  revert i. induction l as [|x l IH]; intros i Hg; [done|].
  destruct (Hg x) as [y Hy]; [left|].
  cbn [omap list_omap]. rewrite Hy.
  destruct i as [|i]; simpl; [done|].
  apply IH. intros z Hz. apply Hg. by right.
Qed.

Lemma elem_of_indices (sh idx : list nat) :
  idx ∈ indices sh → in_range sh idx.
Proof.
  revert idx. induction sh as [|n sh IH]; intros idx.
  - simpl. intros ->%list_elem_of_singleton. constructor.
  - cbn [indices]. intros (i & (idx' & -> & Hidx')%list_elem_of_fmap & Hi%elem_of_seq)%list_elem_of_bind.
    constructor; [lia|]. by apply IH.
Qed.

(** The element of a gathered tensor. *)
Lemma gather_get (sh' : list nat) (f : list nat → list nat) (t : tensor A)
    (idx : list nat) :
  wf t →
  (∀ i, in_range sh' i → in_range (shape t) (f i)) →
  in_range sh' idx →
  get (gather sh' f t) idx = get t (f idx).
Proof.
  intros Hwf Hf Hidx. unfold get, gather. cbn [shape data].
  rewrite !bool_decide_eq_true_2 by auto.
  rewrite lookup_omap_total.
  - rewrite indices_lookup by done. done.
  - intros i Hi%elem_of_indices. apply lookup_lt_is_Some.
    rewrite Hwf. apply offset_lt. auto.
Qed.

Lemma gather_wf (sh' : list nat) (f : list nat → list nat) (t : tensor A) :
  wf t →
  (∀ i, in_range sh' i → in_range (shape t) (f i)) →
  wf (gather sh' f t).
Proof.
  intros Hwf Hf. unfold wf, gather. cbn [shape data].
  rewrite <- length_indices.
  assert (∀ l : list (list nat), (∀ i, i ∈ l → in_range sh' i) →
    length (omap (λ idx, data t !! offset (shape t) (f idx)) l) = length l) as Hl.
  { induction l as [|x l IH]; intros Hin; [done|].
    cbn [omap list_omap].
    destruct (lookup_lt_is_Some_2 (data t) (offset (shape t) (f x))) as [y Hy].
    { rewrite Hwf. apply offset_lt, Hf, Hin. left. }
    rewrite Hy. simpl. f_equal. apply IH. intros i Hi. apply Hin. by right. }
  apply Hl. intros i. apply elem_of_indices.
Qed.

End TensorFacts.

(** ** Integer quotients through floats *)

Section NumFacts.

Lemma round_half_even_exact (n d : Z) :
  0 < d → PyNum.round_half_even (n * d) d = n.
Proof.
  intros Hd. unfold PyNum.round_half_even.
  rewrite Z.mod_mul, Z.div_mul by lia.
  change (2 * 0) with 0.
  destruct (Z.compare_spec 0 d); [lia|done|lia].
Qed.

Lemma ulp_exponent_exact (q b : Z) :
  0 < b → 0 < q < 2 ^ 53 → -1074 ≤ PyNum.ulp_exponent (q * b) b ≤ 0.
Proof.
  intros Hb Hq. unfold PyNum.ulp_exponent.
  set (k := Z.log2 (q * b) - Z.log2 b).
  assert (k ≤ 53) as Hk.
  { pose proof (Z.log2_mul_above q b ltac:(lia) ltac:(lia)).
    assert (Z.log2 q < 53) by (apply Z.log2_lt_pow2; lia).
    unfold k. lia. }
  clearbody k.
  destruct (Z.ltb_spec (q * b * 2 ^ Z.max 0 (- k)) (b * 2 ^ Z.max 0 k)) as [Hc|Hc].
  - clear Hc. lia.
  - destruct (decide (k = 53)) as [->|]; [|clear Hc; lia].
    exfalso. rewrite (Z.max_l 0 (- (53))), (Z.max_r 0 53) in Hc by lia.
    rewrite Z.pow_0_r, Z.mul_1_r in Hc.
    generalize dependent (2 ^ 53). intros P HP Hc.
    assert (q * b < P * b) by (apply Z.mul_lt_mono_pos_r; lia). lia.
Qed.

(** For an exact quotient below [2^53], [int(a / b)] is that quotient. *)
Lemma int_truediv_exact (q b : Z) :
  0 < b → 0 ≤ q < 2 ^ 53 → PyNum.int_truediv (q * b) b = Return q.
Proof.
  intros Hb Hq. unfold PyNum.int_truediv, PyNum.truediv.
  destruct (Z.eqb_spec b 0); [lia|].
  rewrite (Z.abs_eq (q * b)), (Z.abs_eq b) by nia.
  destruct (Z.eqb_spec (q * b) 0) as [H0|H0].
  { assert (q = 0) as -> by nia. done. }
  assert (0 < q) as Hq0 by nia.
  pose proof (ulp_exponent_exact q b Hb ltac:(lia)) as He.
  set (e := PyNum.ulp_exponent (q * b) b) in *.
  assert (Z.sgn (q * b) = 1) as -> by (apply Z.sgn_pos; nia).
  assert (Z.sgn b = 1) as -> by (apply Z.sgn_pos; lia).
  destruct (Z.leb_spec 0 e) as [Hle|Hlt].
  - assert (e = 0) as -> by lia.
    change (2 ^ 0) with 1. rewrite Z.mul_1_r, round_half_even_exact by done.
    assert (Z.log2 q < 53) by (apply Z.log2_lt_pow2; lia).
    destruct (Z.leb_spec 1024 (Z.log2 q + 0)); [lia|].
    cbn. unfold PyNum.int. cbn. f_equal. lia.
  - replace (q * b * 2 ^ (- e)) with (q * 2 ^ (- e) * b) by lia.
    rewrite round_half_even_exact by done.
    assert (Z.log2 q < 53) by (apply Z.log2_lt_pow2; lia).
    rewrite Z.log2_mul_pow2 by lia.
    destruct (Z.leb_spec 1024 (- e + Z.log2 q + e)); [lia|].
    cbn. unfold PyNum.int. cbn [PyNum.exponent PyNum.significand].
    destruct (Z.leb_spec 0 e); [lia|].
    f_equal. replace (1 * 1 * (q * 2 ^ (- e))) with (q * 2 ^ (- e)) by lia.
    apply Z.quot_mul. apply Z.pow_nonzero; lia.
Qed.

End NumFacts.

(** ** Shapes through views, transpositions and layers *)

Section ShapeFacts.

Context {A : Type} `{Numerics A}.

Lemma view_shape_nonneg (n : nat) (args : list Z) :
  Forall (λ a, 0 ≤ a) args →
  foldr Z.mul 1 args = Z.of_nat n →
  view_shape n args = Return (Z.to_nat <$> args).
Proof.
  intros Hpos Hprod. unfold view_shape.
  rewrite bool_decide_eq_false_2.
  2:{ rewrite Exists_exists. intros (a & Ha & Hlt).
      rewrite Forall_forall in Hpos. specialize (Hpos a Ha). lia. }
  assert (filter (λ a, a ≠ -1) args = args) as ->.
  { clear Hprod. induction Hpos as [|a l Ha Hl IH]; [done|].
    rewrite filter_cons_True by lia. f_equal. apply IH. }
  assert (filter (λ a, a = -1) args = []) as ->.
  { clear Hprod. induction Hpos as [|a l Ha Hl IH]; [done|].
    rewrite filter_cons_False by lia. apply IH. }
  simpl. by rewrite bool_decide_eq_true_2.
Qed.

Lemma view_nonneg (t : tensor A) (args : list Z) :
  Forall (λ a, 0 ≤ a) args →
  foldr Z.mul 1 args = Z.of_nat (numel (shape t)) →
  view t args = Return (Tensor (Z.to_nat <$> args) (data t)).
Proof.
  intros Hpos Hprod. unfold view. by rewrite view_shape_nonneg.
Qed.

Lemma transpose_12 (t : tensor A) (a b c d : nat) :
  shape t = [a; b; c; d] →
  transpose t 1 2 = Return (gather [a; c; b; d] (swap_at 1 2) t).
Proof.
  intros Hsh. unfold transpose. rewrite Hsh. cbn [length].
  rewrite bool_decide_eq_true_2 by lia. done.
Qed.

Lemma apply_conv2d_same (cin cout : Z) (x : tensor A) (n c h w : nat) :
  shape x = [n; c; h; w] → Z.of_nat c = cin → 0 ≤ cout →
  (1 ≤ h)%nat → (1 ≤ w)%nat →
  ∃ y, apply (Conv2d cin cout 3 1 1) x = Return y
       ∧ shape y = [n; Z.to_nat cout; h; w].
Proof.
  intros Hsh Hc Hout Hh Hw. unfold apply. rewrite Hsh.
  rewrite bool_decide_eq_true_2 by lia.
  eexists. split; [done|]. unfold compute. cbn [shape].
  rewrite !Z.div_1_r. repeat f_equal; lia.
Qed.

Lemma apply_relu (x : tensor A) :
  ∃ y, apply ReLU x = Return y ∧ shape y = shape x.
Proof. eexists. split; done. Qed.

Lemma apply_maxpool2 (x : tensor A) (n c h w : nat) :
  shape x = [n; c; h; w] → (2 ≤ h)%nat → (2 ≤ w)%nat →
  ∃ y, apply (MaxPool2d 2 2) x = Return y
       ∧ shape y = [n; c; (h / 2)%nat; (w / 2)%nat].
Proof.
  intros Hsh Hh Hw. unfold apply. rewrite Hsh.
  rewrite bool_decide_eq_true_2 by lia.
  eexists. split; [done|]. unfold compute. cbn [shape].
  assert (∀ k : nat, (2 ≤ k)%nat →
    Z.to_nat ((Z.of_nat k - 2) / 2 + 1) = (k / 2)%nat) as Hdiv.
  { intros k Hk. replace (Z.of_nat k - 2) with (Z.of_nat k + (-1) * 2) by lia.
    rewrite Z.div_add by lia.
    replace (Z.of_nat k / 2 + -1 + 1) with (Z.of_nat k / 2) by lia.
    change 2 with (Z.of_nat 2). rewrite <- Nat2Z.inj_div. apply Nat2Z.id. }
  by rewrite !Hdiv.
Qed.

(** The extractor divides both the time and the frequency axes by 4. *)
Lemma extractor_shape (x : tensor A) (n c h w : nat) :
  shape x = [n; c; h; w] → (4 ≤ h)%nat → (4 ≤ w)%nat →
  ∃ y, sequential (VGGExtractor.extractor_layers (Z.of_nat c)) x = Return y
       ∧ shape y = [n; 128%nat; (h / 2 / 2)%nat; (w / 2 / 2)%nat].
Proof.
  intros Hsh Hh Hw. unfold VGGExtractor.extractor_layers.
  assert (2 ≤ h / 2)%nat as Hh2
    by (apply (Nat.div_le_lower_bound h 2 2); lia).
  assert (2 ≤ w / 2)%nat as Hw2
    by (apply (Nat.div_le_lower_bound w 2 2); lia).
  destruct (apply_conv2d_same (Z.of_nat c) 64 x n c h w) as (y0 & E0 & S0);
    [done|done|lia|lia|lia|].
  destruct (apply_relu y0) as (y1 & E1 & S1). rewrite S0 in S1.
  destruct (apply_conv2d_same 64 64 y1 n 64 h w) as (y2 & E2 & S2);
    [done|done|lia|lia|lia|].
  destruct (apply_relu y2) as (y3 & E3 & S3). rewrite S2 in S3.
  destruct (apply_maxpool2 y3 n 64 h w) as (y4 & E4 & S4); [done|lia|lia|].
  destruct (apply_conv2d_same 64 128 y4 n 64 (h / 2) (w / 2)) as (y5 & E5 & S5);
    [done|done|lia|lia|lia|].
  destruct (apply_relu y5) as (y6 & E6 & S6). rewrite S5 in S6.
  destruct (apply_conv2d_same 128 128 y6 n 128 (h / 2) (w / 2)) as (y7 & E7 & S7);
    [done|done|lia|lia|lia|].
  destruct (apply_relu y7) as (y8 & E8 & S8). rewrite S7 in S8.
  destruct (apply_maxpool2 y8 n 128 (h / 2) (w / 2)) as (y9 & E9 & S9);
    [done|lia|lia|].
  exists y9. split; [|done].
  cbn [sequential]. rewrite E0. cbn [mbind result_bind].
  rewrite E1. cbn [mbind result_bind]. rewrite E2. cbn [mbind result_bind].
  rewrite E3. cbn [mbind result_bind]. rewrite E4. cbn [mbind result_bind].
  rewrite E5. cbn [mbind result_bind]. rewrite E6. cbn [mbind result_bind].
  rewrite E7. cbn [mbind result_bind]. rewrite E8. cbn [mbind result_bind].
  rewrite E9. done.
Qed.

Lemma compute_wf (l : layer A) (x : tensor A) (sh : list nat) :
  wf (compute l x sh).
Proof.
  unfold wf, compute. cbn [shape data]. by rewrite length_fmap, length_indices.
Qed.

(** A layer other than [Softmax] returns a tensor with as many elements as
    its shape says. *)
Lemma apply_wf (l : layer A) (x y : tensor A) :
  (∀ d, l ≠ Softmax d) → apply l x = Return y → wf y.
Proof.
  intros Hl Hy. destruct l; cbn [apply] in Hy;
    repeat match type of Hy with
           | match ?e with _ => _ end = Return _ => destruct e; try discriminate Hy
           | (if ?b then _ else _) = Return _ => destruct b; try discriminate Hy
           end;
    try (injection Hy as <-; apply compute_wf).
  by destruct (Hl dim).
Qed.

Lemma sequential_wf (ls : list (layer A)) :
  Forall (λ l, ∀ d, l ≠ Softmax d) ls →
  ∀ x y, wf x → sequential ls x = Return y → wf y.
Proof.
  induction 1 as [|l ls Hl Hls IH]; intros x y Hx Hy; cbn [sequential] in Hy.
  - by injection Hy as <-.
  - destruct (apply l x) as [x1|e] eqn:E; [|discriminate Hy].
    cbn [mbind result_bind] in Hy. apply (IH x1); [|done].
    by apply (apply_wf l x).
Qed.

End ShapeFacts.

(** ** The globals of the module *)

Section GlobalsFacts.

Context {A : Type}.

(** The execution of the module stops at the third class statement, with
    five names bound. *)
Lemma exec_module_installed :
  exec_module (A:=A) installed
  = (<["RNNLayer" := VClass "RNNLayer"]>
       (<["VGGExtractor" := VClass "VGGExtractor"]>
          (<["nn" := VModule "torch.nn" (torch_nn_names installed)]>
             (<["np" := VModule "numpy" (numpy_names installed)]>
                (<["torch" := VModule "torch" (torch_names installed)]> ∅)))),
     Some (AttributeError "torch.nn" "module")).
Proof. reflexivity. Qed.

Lemma module_globals_names :
  dom (module_globals (A:=A))
  = {[ "torch"; "np"; "nn"; "VGGExtractor"; "RNNLayer" ]}.
Proof.
  unfold module_globals. rewrite exec_module_installed. cbn [fst].
  rewrite !dom_insert_L, dom_empty_L. set_solver.
Qed.

Lemma lookup_unbound (x : string) :
  x ≠ "torch" → x ≠ "np" → x ≠ "nn" → x ≠ "VGGExtractor" → x ≠ "RNNLayer" →
  lookup_name (module_globals (A:=A)) x = Raise (NameError x).
Proof.
  intros. unfold module_globals. rewrite exec_module_installed. cbn [fst].
  unfold lookup_name. rewrite !lookup_insert_ne by done.
  by rewrite lookup_empty.
Qed.

Lemma lookup_name_insert_ne (G : gmap string (value A)) (x y : string) (v : value A) :
  x ≠ y → lookup_name (<[x := v]> G) y = lookup_name G y.
Proof. intros Hne. unfold lookup_name. by rewrite lookup_insert_ne. Qed.

Lemma lookup_name_insert_eq (G : gmap string (value A)) (x : string) (v : value A) :
  lookup_name (<[x := v]> G) x = Return v.
Proof. unfold lookup_name. by rewrite lookup_insert_eq. Qed.

Lemma global_attr_insert_ne (G : gmap string (value A)) (x var attr : string)
    (v : value A) :
  x ≠ var → global_attr (<[x := v]> G) var attr = global_attr G var attr.
Proof. intros Hne. unfold global_attr. by rewrite lookup_name_insert_ne. Qed.

End GlobalsFacts.

(** ** [VGGExtractor] *)

Section VGGExtractorFacts.

Context {A : Type} `{Numerics A}.

Lemma in_range3 (n0 n1 n2 i0 i1 i2 : nat) :
  in_range [n0; n1; n2] [i0; i1; i2] ↔ (i0 < n0 ∧ i1 < n1 ∧ i2 < n2)%nat.
Proof.
  unfold in_range. rewrite !Forall2_cons, Forall2_nil. tauto.
Qed.

Lemma in_range3_inv (n0 n1 n2 : nat) (idx : list nat) :
  in_range [n0; n1; n2] idx →
  ∃ i0 i1 i2, idx = [i0; i1; i2] ∧ (i0 < n0 ∧ i1 < n1 ∧ i2 < n2)%nat.
Proof.
  unfold in_range. intros Hr.
  apply Forall2_cons_inv_r in Hr as (i0 & l0 & H0 & Hr & ->).
  apply Forall2_cons_inv_r in Hr as (i1 & l1 & H1 & Hr & ->).
  apply Forall2_cons_inv_r in Hr as (i2 & l2 & H2 & Hr & ->).
  apply Forall2_nil_inv_r in Hr as ->. eauto 10.
Qed.

Lemma in_range4 (n0 n1 n2 n3 i0 i1 i2 i3 : nat) :
  in_range [n0; n1; n2; n3] [i0; i1; i2; i3]
  ↔ (i0 < n0 ∧ i1 < n1 ∧ i2 < n2 ∧ i3 < n3)%nat.
Proof.
  unfold in_range. rewrite !Forall2_cons, Forall2_nil. tauto.
Qed.

Lemma in_range4_inv (n0 n1 n2 n3 : nat) (idx : list nat) :
  in_range [n0; n1; n2; n3] idx →
  ∃ i0 i1 i2 i3, idx = [i0; i1; i2; i3]
                 ∧ (i0 < n0 ∧ i1 < n1 ∧ i2 < n2 ∧ i3 < n3)%nat.
Proof.
  unfold in_range. intros Hr.
  apply Forall2_cons_inv_r in Hr as (i0 & l0 & H0 & Hr & ->).
  apply Forall2_cons_inv_r in Hr as (i1 & l1 & H1 & Hr & ->).
  apply Forall2_cons_inv_r in Hr as (i2 & l2 & H2 & Hr & ->).
  apply Forall2_cons_inv_r in Hr as (i3 & l3 & H3 & Hr & ->).
  apply Forall2_nil_inv_r in Hr as ->. eauto 12.
Qed.

(** Keeping the first [k] steps of the time axis keeps their elements. *)
Lemma slice_prefix_get (t : tensor A) (bs ts ds k b i d : nat) :
  wf t → shape t = [bs; ts; ds] → (k ≤ ts)%nat →
  (b < bs)%nat → (i < k)%nat → (d < ds)%nat →
  get (gather [bs; k; ds] id t) [b; i; d] = get t [b; i; d].
Proof.
  intros Hwf Hsh Hk Hb Hi Hd.
  apply (gather_get [bs; k; ds] id t [b; i; d] Hwf).
  - intros idx (i0 & i1 & i2 & -> & ?)%in_range3_inv.
    rewrite Hsh. apply in_range3. unfold id. lia.
  - apply in_range3. lia.
Qed.

Lemma slice_prefix_wf (t : tensor A) (bs ts ds k : nat) :
  wf t → shape t = [bs; ts; ds] → (k ≤ ts)%nat →
  wf (gather [bs; k; ds] id t).
Proof.
  intros Hwf Hsh Hk. apply gather_wf; [done|].
  intros idx (i0 & i1 & i2 & -> & ?)%in_range3_inv.
  rewrite Hsh. apply in_range3. unfold id. lia.
Qed.

Lemma slice_stop_remainder (ts : nat) (r : Z) :
  0 ≤ r ≤ Z.of_nat ts → r ≠ 0 →
  slice_stop ts (- r) = Z.to_nat (Z.of_nat ts - r).
Proof.
  intros Hr Hr0. unfold slice_stop.
  destruct (Z.ltb_spec (- r) 0); lia.
Qed.

(** The cropping of [view_input]: the time axis becomes the largest
    multiple of 4 that fits, by dropping frames at the end. *)
Lemma crop_spec (feature : tensor A) (bs ts ds : nat) :
  shape feature = [bs; ts; ds] → wf feature →
  ∃ cropped,
    VGGExtractor.crop feature = Return cropped
    ∧ shape cropped = [bs; (4 * (ts / 4))%nat; ds]
    ∧ wf cropped
    ∧ (∀ b t d, (b < bs)%nat → (t < 4 * (ts / 4))%nat → (d < ds)%nat →
         get cropped [b; t; d] = get feature [b; t; d])
    ∧ ((ts mod 4 = 0)%nat → cropped = feature).
Proof.
  intros Hsh Hwf. unfold VGGExtractor.crop, size. rewrite Hsh.
  cbn [lookup list_lookup mbind result_bind].
  pose proof (Nat.div_mod_eq ts 4) as Hdm.
  pose proof (Nat.mod_upper_bound ts 4 ltac:(lia)) as Hmod.
  assert (Z.of_nat ts mod 4 = Z.of_nat (ts mod 4)) as HZ
    by (change 4 with (Z.of_nat 4); by rewrite Nat2Z.inj_mod).
  case_bool_decide as Hrem.
  - unfold slice1_stop. rewrite Hsh.
    rewrite slice_stop_remainder by lia.
    assert (Z.to_nat (Z.of_nat ts - Z.of_nat ts mod 4) = (4 * (ts / 4))%nat)
      as -> by lia.
    eexists. split; [done|]. split; [done|].
    split; [apply (slice_prefix_wf _ bs ts ds); [done|done|lia]|].
    split.
    + intros b t d Hb Ht Hd.
      apply (slice_prefix_get feature bs ts ds); [done|done|lia|done|done|done].
    + lia.
  - assert ((4 * (ts / 4))%nat = ts) as -> by lia.
    exists feature. split; [done|]. split; [done|]. split; [done|].
    split; done.
Qed.

(** [view_input]: the lengths are divided by 4, the cropped sequence is
    split into channels and the channel axis is moved next to the batch. *)
Lemma view_input_spec (self : VGGExtractor.instance A) (feature : tensor A)
    (feat_len : list Z) (bs ts ds : nat) :
  0 ≤ VGGExtractor.in_channel self →
  0 ≤ VGGExtractor.freq_dim self →
  shape feature = [bs; ts; ds] →
  Z.of_nat ds = VGGExtractor.in_channel self * VGGExtractor.freq_dim self →
  wf feature →
  ∃ cropped x,
    VGGExtractor.crop feature = Return cropped
    ∧ shape cropped = [bs; (4 * (ts / 4))%nat; ds]
    ∧ (∀ b t d, (b < bs)%nat → (t < 4 * (ts / 4))%nat → (d < ds)%nat →
         get cropped [b; t; d] = get feature [b; t; d])
    ∧ ((ts mod 4 = 0)%nat → cropped = feature)
    ∧ VGGExtractor.view_input self feature feat_len
      = Return (x, (λ n, n / 4) <$> feat_len)
    ∧ shape x = [bs; Z.to_nat (VGGExtractor.in_channel self);
                 (4 * (ts / 4))%nat; Z.to_nat (VGGExtractor.freq_dim self)].
Proof.
  intros Hic Hfd Hsh Hds Hwf.
  destruct (crop_spec feature bs ts ds Hsh Hwf)
    as (cropped & Hcrop & Hcsh & Hcwf & Hget & Hsame).
  set (ic := VGGExtractor.in_channel self) in *.
  set (fd := VGGExtractor.freq_dim self) in *.
  set (ts' := (4 * (ts / 4))%nat) in *.
  exists cropped,
    (gather [bs; Z.to_nat ic; ts'; Z.to_nat fd] (swap_at 1 2)
            (Tensor [bs; ts'; Z.to_nat ic; Z.to_nat fd] (data cropped))).
  split; [done|]. split; [done|]. split; [done|]. split; [done|].
  split; [|done].
  unfold VGGExtractor.view_input, floordiv.
  cbn [Z.eqb mbind result_bind]. rewrite Hcrop. cbn [mbind result_bind].
  rewrite Hcsh. fold ic fd.
  rewrite view_nonneg.
  - cbn [fmap list_fmap mbind result_bind]. rewrite !Nat2Z.id.
    rewrite (transpose_12 _ bs ts' (Z.to_nat ic) (Z.to_nat fd)) by done.
    done.
  - repeat (apply Forall_cons; split; [lia|]). apply Forall_nil_2.
  - rewrite Hcsh. cbn [foldr numel]. lia.
Qed.

(** C3.  On an instance whose fields follow the rule of [check_dim] and
    features of at least 4 frames, [forward] divides every entry of the
    length vector by 4 (integer division) and works on the time axis cut
    down to the largest multiple of 4: [view_input] keeps exactly the
    leading [4 * (ts / 4)] frames, unchanged and split into channels,
    nothing is added, and all frames are kept when 4 divides [ts]; the
    output is what the extractor computes on these frames, with [ts / 4]
    time steps and the channels and frequencies side by side.  With
    [ts = 17]: 16 frames are kept, the output has 4 time steps and the
    length 17 becomes 4. *)
Theorem VGGExtractor_forward_time_div4
    (self : VGGExtractor.instance A) (feature : tensor A) (feat_len : list Z)
    (bs ts ic fd : nat) :
  VGGExtractor.extractor self
    = VGGExtractor.extractor_layers (VGGExtractor.in_channel self) →
  VGGExtractor.in_channel self = Z.of_nat ic →
  (0 < ic)%nat →
  VGGExtractor.freq_dim self = Z.of_nat fd →
  (4 ≤ fd)%nat →
  VGGExtractor.out_dim self = (VGGExtractor.freq_dim self / 4) * 128 →
  shape feature = [bs; ts; (ic * fd)%nat] →
  wf feature →
  (4 ≤ ts)%nat →
  ∃ x y out,
    VGGExtractor.view_input self feature feat_len
    = Return (x, (λ n, n / 4) <$> feat_len)
    ∧ shape x = [bs; ic; (4 * (ts / 4))%nat; fd]
    ∧ wf x
    ∧ (∀ b c t f, (b < bs)%nat → (c < ic)%nat → (t < 4 * (ts / 4))%nat →
         (f < fd)%nat →
         get x [b; c; t; f] = get feature [b; t; (c * fd + f)%nat])
    ∧ ((ts mod 4 = 0)%nat → shape x = [bs; ic; ts; fd])
    ∧ sequential (VGGExtractor.extractor self) x = Return y
    ∧ shape y = [bs; 128%nat; (ts / 4)%nat; (fd / 4)%nat]
    ∧ wf y
    ∧ VGGExtractor.forward self feature feat_len
      = Return (out, (λ n, n / 4) <$> feat_len)
    ∧ shape out = [bs; (ts / 4)%nat; Z.to_nat (VGGExtractor.out_dim self)]
    ∧ wf out
    ∧ (∀ b t c f, (b < bs)%nat → (t < ts / 4)%nat → (c < 128)%nat →
         (f < fd / 4)%nat →
         get out [b; t; (c * (fd / 4) + f)%nat] = get y [b; c; t; f]).
Proof.
  intros Hext Hic Hic0 Hfd Hfd4 Hod Hsh Hwf Hts.
  destruct (crop_spec feature bs ts (ic * fd) Hsh Hwf)
    as (cropped & Hcrop & Hcsh & Hcwf & Hget & Hsame).
  set (ts' := (4 * (ts / 4))%nat) in *.
  assert (4 ≤ ts')%nat as Hts'.
  { unfold ts'. pose proof (Nat.div_le_lower_bound ts 4 1 ltac:(lia) ltac:(lia)). lia. }
  set (v := Tensor [bs; ts'; ic; fd] (data cropped)).
  assert (wf v) as Hv.
  { unfold wf, v. cbn [shape data]. rewrite Hcwf, Hcsh. cbn [numel foldr]. lia. }
  assert (∀ i, in_range [bs; ic; ts'; fd] i → in_range (shape v) (swap_at 1 2 i))
    as Hswap.
  { intros i (i0 & i1 & i2 & i3 & -> & ?)%in_range4_inv.
    change (in_range [bs; ts'; ic; fd] [i0; i2; i1; i3]).
    apply in_range4. lia. }
  set (x := gather [bs; ic; ts'; fd] (swap_at 1 2) v).
  assert (shape x = [bs; ic; ts'; fd]) as Hxsh by done.
  assert (wf x) as Hxwf by (by apply gather_wf).
  assert (VGGExtractor.view_input self feature feat_len
          = Return (x, (λ n, n / 4) <$> feat_len)) as Hview.
  { unfold VGGExtractor.view_input, floordiv.
    cbn [Z.eqb mbind result_bind]. rewrite Hcrop. cbn [mbind result_bind].
    rewrite Hcsh, Hic, Hfd. rewrite view_nonneg.
    + cbn [fmap list_fmap mbind result_bind]. rewrite !Nat2Z.id. fold v.
      by rewrite (transpose_12 v bs ts' ic fd).
    + repeat (apply Forall_cons; split; [lia|]). apply Forall_nil_2.
    + rewrite Hcsh. cbn [foldr numel]. lia. }
  destruct (extractor_shape x bs ic ts' fd Hxsh Hts' Hfd4) as (y & Hy & Hysh).
  assert (ts' / 2 / 2 = ts / 4)%nat as Hquarter.
  { rewrite Nat.Div0.div_div. change (2 * 2)%nat with 4%nat.
    unfold ts'. rewrite Nat.mul_comm. by rewrite Nat.div_mul. }
  assert (fd / 2 / 2 = fd / 4)%nat as Hq
    by (rewrite Nat.Div0.div_div; done).
  rewrite Hquarter, Hq in Hysh.
  set (n := (ts / 4)%nat) in *. set (q := (fd / 4)%nat) in *.
  assert (wf y) as Hywf.
  { apply (sequential_wf (VGGExtractor.extractor_layers (Z.of_nat ic)) ltac:(
             unfold VGGExtractor.extractor_layers;
             repeat (apply Forall_cons; split; [done|]); apply Forall_nil_2) x y Hxwf Hy). }
  assert (∀ i, in_range [bs; n; 128%nat; q] i → in_range (shape y) (swap_at 1 2 i))
    as Hswap'.
  { intros i (i0 & i1 & i2 & i3 & -> & ?)%in_range4_inv. rewrite Hysh.
    change (in_range [bs; 128%nat; n; q] [i0; i2; i1; i3]).
    apply in_range4. lia. }
  set (y' := gather [bs; n; 128%nat; q] (swap_at 1 2) y).
  assert (shape y' = [bs; n; 128%nat; q]) as Hy'sh by done.
  assert (wf y') as Hy'wf by (by apply gather_wf).
  assert (VGGExtractor.out_dim self = 128 * Z.of_nat q) as Hodz.
  { rewrite Hod, Hfd. unfold q. rewrite Nat2Z.inj_div. simpl Z.of_nat. lia. }
  assert (Z.to_nat (VGGExtractor.out_dim self) = (128 * q)%nat) as Hodn by lia.
  exists x, y, (Tensor [bs; n; Z.to_nat (VGGExtractor.out_dim self)] (data y')).
  split; [done|]. split; [done|]. split; [done|]. split.
  { intros b c t f Hb Hc Ht Hf.
    unfold x. rewrite gather_get; [|done|done|by apply in_range4].
    rewrite <- Hget by (try done; nia).
    unfold get, v. cbn [shape data swap_at lookup list_lookup insert list_insert].
    rewrite Hcsh.
    rewrite !bool_decide_eq_true_2
      by (apply in_range4 || apply in_range3; repeat split; try done; nia).
    f_equal. cbn [offset numel foldr]. lia. }
  split.
  { intros Hmod. rewrite Hxsh. unfold ts'.
    pose proof (Nat.div_mod_eq ts 4). do 2 f_equal. f_equal. lia. }
  split; [by rewrite Hext, Hic|]. split; [done|]. split; [done|]. split.
  { unfold VGGExtractor.forward. rewrite Hview. cbn [mbind result_bind].
    rewrite Hext, Hic, Hy. cbn [mbind result_bind].
    rewrite (transpose_12 _ bs 128%nat n q) by done.
    fold y'. cbn [mbind result_bind].
    unfold size. rewrite Hy'sh.
    cbn [lookup list_lookup mbind result_bind].
    rewrite view_nonneg.
    - cbn [fmap list_fmap mbind result_bind shape data]. by rewrite !Nat2Z.id.
    - repeat (apply Forall_cons; split; [lia|]). apply Forall_nil_2.
    - rewrite Hy'sh. cbn [foldr numel]. lia. }
  split; [done|]. split.
  { unfold wf. cbn [shape data]. rewrite Hy'wf, Hy'sh, Hodn. cbn [numel foldr]. lia. }
  intros b t c f Hb Ht Hc Hf.
  transitivity (get y' [b; t; c; f]).
  - unfold get. cbn [shape data]. rewrite Hy'sh, Hodn.
    rewrite !bool_decide_eq_true_2
      by (apply in_range4 || apply in_range3; repeat split; try done; nia).
    f_equal. cbn [offset numel foldr]. lia.
  - unfold y'. rewrite gather_get; [done|done|done|by apply in_range4].
Qed.

End VGGExtractorFacts.

Lemma VGGExtractor_forward_time_div4_witness :
  let self := VGGExtractor.Instance 3 13 384 (VGGExtractor.extractor_layers 3) in
  let feature := StandIn.iota [1; 17; 39]%nat in
  ∃ x y out,
    VGGExtractor.view_input self feature [17]
    = Return (x, (λ n, n / 4) <$> [17])
    ∧ shape x = [1; 3; 4 * (17 / 4); 13]%nat
    ∧ wf x
    ∧ (∀ b c t f, (b < 1)%nat → (c < 3)%nat → (t < 4 * (17 / 4))%nat →
         (f < 13)%nat →
         get x [b; c; t; f] = get feature [b; t; (c * 13 + f)%nat])
    ∧ ((17 mod 4 = 0)%nat → shape x = [1; 3; 17; 13]%nat)
    ∧ sequential (VGGExtractor.extractor self) x = Return y
    ∧ shape y = [1; 128; 17 / 4; 13 / 4]%nat
    ∧ wf y
    ∧ VGGExtractor.forward self feature [17]
      = Return (out, (λ n, n / 4) <$> [17])
    ∧ shape out = [1%nat; (17 / 4)%nat; Z.to_nat (VGGExtractor.out_dim self)]
    ∧ wf out
    ∧ (∀ b t c f, (b < 1)%nat → (t < 17 / 4)%nat → (c < 128)%nat →
         (f < 13 / 4)%nat →
         get out [b; t; (c * (13 / 4) + f)%nat] = get y [b; c; t; f]).
Proof.
  intros self feature.
  apply (VGGExtractor_forward_time_div4 self feature [17] 1 17 3 13).
  - reflexivity.
  - reflexivity.
  - lia.
  - reflexivity.
  - lia.
  - reflexivity.
  - reflexivity.
  - reflexivity.
  - lia.
Defined.

(** The claim of C3 fails on the code for fewer than 4 frames: the cut
    leaves no frame, the first convolution rejects the empty time axis, and
    [forward] raises instead of returning lengths divided by 4. *)
Lemma VGGExtractor_forward_raises_on_three_frames :
  let self := VGGExtractor.Instance 3 13 384 (VGGExtractor.extractor_layers 3) in
  let feature := StandIn.iota [1; 3; 39]%nat in
  (∃ x, VGGExtractor.view_input self feature [3] = Return (x, [0])
        ∧ shape x = [1; 3; 0; 13]%nat)
  ∧ VGGExtractor.forward self feature [3]
    = Raise (RuntimeError "conv2d: input does not fit the layer").
Proof.
  split.
  - eexists. split; [vm_compute; reflexivity|reflexivity].
  - vm_compute. reflexivity.
Qed.

Section VGGExtractorDims.

Context {A : Type} `{Numerics A}.

Lemma nn_attr_module_globals (name : string) :
  name ∈ torch_nn_names installed →
  global_attr (module_globals (A:=A)) "nn" name = Return (VAttr "torch.nn" name).
Proof.
  intros Hin. unfold global_attr, module_globals.
  rewrite exec_module_installed. cbn [fst].
  unfold lookup_name. rewrite lookup_insert_ne, lookup_insert_ne by done.
  rewrite lookup_insert_eq. cbn [mbind result_bind getattr_module].
  by rewrite bool_decide_eq_true_2.
Qed.

Lemma nn_layer_module_globals (x : string) (v : value A) (name : string) (l : layer A) :
  x ≠ "nn" → name ∈ torch_nn_names installed →
  nn_layer (<[x := v]> module_globals) name l = Return l.
Proof.
  intros Hx Hin. unfold nn_layer.
  rewrite global_attr_insert_ne by done.
  by rewrite nn_attr_module_globals.
Qed.

Lemma class_bound_VGGExtractor (x : string) (v : value A) :
  x ≠ "VGGExtractor" →
  lookup_name (<[x := v]> module_globals) "VGGExtractor"
  = Return (VClass "VGGExtractor").
Proof.
  intros Hx. rewrite lookup_name_insert_ne by done.
  unfold module_globals. rewrite exec_module_installed. cbn [fst].
  unfold lookup_name. rewrite lookup_insert_ne by done.
  by rewrite lookup_insert_eq.
Qed.

(** What [check_dim] does once [example_input] is bound to a tensor whose
    last axis has length [m]: its argument plays no part. *)
Lemma check_dim_example_input (t : tensor A) (arg : Z) (m : nat) :
  last (shape t) = Some m →
  let G := <["example_input" := VTensor t]> module_globals in
  VGGExtractor.check_dim G arg
  = if bool_decide (Z.of_nat m mod 13 = 0) then
      c ← PyNum.int_truediv (Z.of_nat m) 13; Return (c, 13, 384)
    else if bool_decide (Z.of_nat m mod 40 = 0) then
      c ← PyNum.int_truediv (Z.of_nat m) 40; Return (c, 40, 1280)
    else Raise (NameError "d").
Proof.
  intros Hlast G. subst G. unfold VGGExtractor.check_dim.
  rewrite lookup_name_insert_eq.
  cbn [mbind result_bind]. unfold last_dim, shape_of.
  cbn [mbind result_bind]. rewrite Hlast. cbn [mbind result_bind].
  repeat case_bool_decide; done.
Qed.

Lemma new_from_check_dim (x : string) (v : value A) (arg c f o : Z) :
  x ≠ "nn" → x ≠ "VGGExtractor" →
  VGGExtractor.check_dim (<[x := v]> module_globals) arg = Return (c, f, o) →
  VGGExtractor.new (<[x := v]> module_globals) arg
  = Return (VGGExtractor.Instance c f o (VGGExtractor.extractor_layers c)).
Proof.
  intros Hnn Hcls Hcheck.
  unfold VGGExtractor.new, instantiate, VGGExtractor.__init__.
  rewrite class_bound_VGGExtractor by done. cbn [mbind result_bind].
  rewrite Hcheck. cbn [mbind result_bind].
  rewrite global_attr_insert_ne, nn_attr_module_globals by (done || set_solver).
  cbn [mbind result_bind].
  rewrite !nn_layer_module_globals by (done || set_solver).
  done.
Qed.

(** C1, as the code has it.  When the feature dimension that [check_dim]
    examines is the [feature_dim] the constructor is called with, is
    divisible by 13 and its quotient by 13 is below [2^53], the constructor
    derives [feature_dim / 13] channels, a frequency dimension of 13 and the
    output dimension [(13 div 4) * 128 = 384]. *)
Theorem VGGExtractor_mfcc_dims (t : tensor A) (m : nat) :
  last (shape t) = Some m →
  Z.of_nat m mod 13 = 0 →
  Z.of_nat m / 13 < 2 ^ 53 →
  let G := <["example_input" := VTensor t]> module_globals in
  VGGExtractor.check_dim G (Z.of_nat m) = Return (Z.of_nat m / 13, 13, (13 / 4) * 128)
  ∧ (13 / 4) * 128 = 384
  ∧ VGGExtractor.new G (Z.of_nat m)
    = Return (VGGExtractor.Instance (Z.of_nat m / 13) 13 384
                (VGGExtractor.extractor_layers (Z.of_nat m / 13))).
Proof.
  intros Hlast Hmod Hbound G.
  assert (VGGExtractor.check_dim G (Z.of_nat m) = Return (Z.of_nat m / 13, 13, 384))
    as Hcheck.
  { unfold G. rewrite (check_dim_example_input t _ m Hlast).
    rewrite bool_decide_eq_true_2 by done.
    assert (Z.of_nat m = Z.of_nat m / 13 * 13) as Hq.
    { rewrite Z.mul_comm. apply Z.div_exact; [lia|done]. }
    rewrite Hq at 1. rewrite int_truediv_exact.
    - done.
    - lia.
    - split; [apply Z.div_pos; lia|done]. }
  split; [exact Hcheck|]. split; [reflexivity|].
  unfold G. by apply new_from_check_dim.
Qed.

(** In the globals of the module, [example_input] is unbound: the
    constructor raises whatever its argument. *)
Lemma new_in_module_globals (input_dim : Z) :
  VGGExtractor.new (A:=A) module_globals input_dim
  = Raise (NameError "example_input").
Proof.
  unfold VGGExtractor.new, instantiate, VGGExtractor.__init__.
  assert (lookup_name (module_globals (A:=A)) "VGGExtractor"
          = Return (VClass "VGGExtractor")) as ->.
  { unfold module_globals. rewrite exec_module_installed. cbn [fst].
    unfold lookup_name. rewrite lookup_insert_ne by done.
    by rewrite lookup_insert_eq. }
  cbn [mbind result_bind]. unfold VGGExtractor.check_dim.
  rewrite lookup_unbound by done. reflexivity.
Qed.

(** With a tensor of 50 features bound to [example_input], the last branch
    of [check_dim] is taken and stops at the free name [d]. *)
Lemma new_with_50_features (data : list A) (input_dim : Z) :
  VGGExtractor.new
    (<["example_input" := VTensor (Tensor [1; 17; 50]%nat data)]> module_globals)
    input_dim
  = Raise (NameError "d").
Proof.
  unfold VGGExtractor.new, instantiate, VGGExtractor.__init__.
  rewrite class_bound_VGGExtractor by done. cbn [mbind result_bind].
  pose proof (check_dim_example_input (Tensor [1; 17; 50]%nat data)
                input_dim 50%nat eq_refl) as E.
  cbv zeta in E. rewrite E. reflexivity.
Qed.

(** C6, evaluated on the code.  In the globals of the module the
    constructor raises [NameError] for every argument, 50 included, because
    [example_input] is unbound; with [example_input] bound to a tensor of 50
    features the last branch raises [NameError] for [d] before any
    [ValueError] is built. *)
Theorem VGGExtractor_bad_dim_NameError :
  (∀ input_dim : Z,
     VGGExtractor.new (A:=A) module_globals input_dim
     = Raise (NameError "example_input"))
  ∧ (∀ (data : list A) (input_dim : Z),
       VGGExtractor.new
         (<["example_input" := VTensor (Tensor [1; 17; 50]%nat data)]> module_globals)
         input_dim
       = Raise (NameError "d")).
Proof.
  split; [exact new_in_module_globals | exact new_with_50_features].
Qed.

(** A quotient read through a float: for a dimension [N] divisible by 13 the
    channel count is [int(N / 13)]. *)
Lemma check_dim_through_float (N arg : Z) :
  0 ≤ N → N mod 13 = 0 →
  VGGExtractor.check_dim
    (<["example_input" := VTensor (Tensor [Z.to_nat N] ([] : list A))]> module_globals)
    arg
  = (c ← PyNum.int_truediv N 13; Return (c, 13, 384)).
Proof.
  intros HN Hmod.
  pose proof (check_dim_example_input (Tensor [Z.to_nat N] ([] : list A))
                arg (Z.to_nat N) eq_refl) as E.
  cbv zeta in E. rewrite E.
  rewrite Z2Nat.id by done.
  by rewrite bool_decide_eq_true_2.
Qed.

End VGGExtractorDims.

Lemma VGGExtractor_mfcc_dims_witness :
  let G := <["example_input" := VTensor (StandIn.iota [1; 17; 39]%nat)]> module_globals in
  VGGExtractor.check_dim G (Z.of_nat 39) = Return (Z.of_nat 39 / 13, 13, (13 / 4) * 128)
  ∧ (13 / 4) * 128 = 384
  ∧ VGGExtractor.new G (Z.of_nat 39)
    = Return (VGGExtractor.Instance (Z.of_nat 39 / 13) 13 384
                (VGGExtractor.extractor_layers (Z.of_nat 39 / 13))).
Proof.
  apply (VGGExtractor_mfcc_dims (StandIn.iota [1; 17; 39]%nat) 39).
  - reflexivity.
  - reflexivity.
  - reflexivity.
Defined.

(** The claim of C1 fails on the code at [feature_dim = 39]: in the globals
    of the module the constructor raises; with the 39 features visible to
    [check_dim] the output dimension is 384, not 416.  It also fails for a
    quotient that no float holds exactly: [13 * (2^53 + 1)] gives [2^53]
    channels. *)
Lemma mfcc_output_dim_is_not_416 :
  VGGExtractor.new (A:=Z) module_globals 39 = Raise (NameError "example_input")
  ∧ (∃ inst,
       VGGExtractor.new
         (<["example_input" := VTensor (StandIn.iota [1; 17; 39]%nat)]> module_globals) 39
       = Return inst
       ∧ VGGExtractor.in_channel inst = 3
       ∧ VGGExtractor.freq_dim inst = 13
       ∧ VGGExtractor.out_dim inst = 384
       ∧ VGGExtractor.out_dim inst ≠ 416)
  ∧ VGGExtractor.check_dim
      (<["example_input" := VTensor (Tensor [Z.to_nat (13 * (2 ^ 53 + 1))] ([] : list Z))]>
         module_globals)
      (13 * (2 ^ 53 + 1))
    = Return (2 ^ 53, 13, 384)
  ∧ 2 ^ 53 ≠ 13 * (2 ^ 53 + 1) / 13.
Proof.
  split; [exact (new_in_module_globals 39)|].
  split.
  { exists (VGGExtractor.Instance 3 13 384 (VGGExtractor.extractor_layers 3)).
    split; [vm_compute; reflexivity|]. cbn. repeat split; lia. }
  split.
  - rewrite (check_dim_through_float (13 * (2 ^ 53 + 1)) (13 * (2 ^ 53 + 1)))
      by (vm_compute; congruence).
    vm_compute. reflexivity.
  - vm_compute. discriminate.
Qed.

(** ** [RNNLayer] *)

Section RNNLayerFacts.

Context {A : Type} `{Numerics A}.

Lemma class_bound_RNNLayer :
  lookup_name (module_globals (A:=A)) "RNNLayer" = Return (VClass "RNNLayer").
Proof.
  unfold module_globals. rewrite exec_module_installed. cbn [fst].
  unfold lookup_name. by rewrite lookup_insert_eq.
Qed.

Lemma nn_bound :
  lookup_name (module_globals (A:=A)) "nn"
  = Return (VModule "torch.nn" (torch_nn_names installed)).
Proof.
  unfold module_globals. rewrite exec_module_installed. cbn [fst].
  unfold lookup_name. rewrite !lookup_insert_ne by done.
  by rewrite lookup_insert_eq.
Qed.

(** Every call of the constructor raises: an unsupported style stops at the
    [ValueError], a supported one at the free name [rnn_cell]. *)
Lemma RNNLayer_new_raises (input_dim : Z) (module : string) (dim : Z)
    (bidirection : bool) (dropout : A) (layer_norm : bool) (sample_rate : Z)
    (sample_style : string) :
  RNNLayer.new module_globals input_dim module dim bidirection dropout
               layer_norm sample_rate sample_style
  = if bool_decide (sample_style ∉ ["drop"; "concat"])
    then Raise (ValueError ("Unsupported Sample Style: " +:+ sample_style))
    else Raise (NameError "rnn_cell").
Proof.
  unfold RNNLayer.new, instantiate, RNNLayer.__init__.
  rewrite class_bound_RNNLayer. cbn [mbind result_bind].
  case_bool_decide; [done|].
  rewrite nn_bound. cbn [mbind result_bind].
  rewrite lookup_unbound by done. done.
Qed.

(** The recurrence of [forward] stops at its first free name, whatever the
    caller's environment makes of calls. *)
Lemma RNNLayer_forward_raises
    (call : value A → list (value A) → result (value A))
    (run_layer : RNNLayer.recurrent → value A → value A → result (value A))
    (self : RNNLayer.instance A) (input_x : tensor A) (x_len : list Z) :
  RNNLayer.forward call run_layer module_globals self input_x x_len
  = Raise (NameError "pack_padded_sequence").
Proof.
  unfold RNNLayer.forward, RNNLayer.recurrent_pass.
  rewrite lookup_unbound by done. done.
Qed.

(** C9.  For every argument combination whose style is ["drop"] or
    ["concat"], constructing an [RNNLayer] raises [NameError] on [rnn_cell];
    hence no call of the constructor returns an instance, and [forward], had
    it an instance, raises [NameError] on its first statement. *)
Theorem RNNLayer_init_NameError (input_dim : Z) (module : string) (dim : Z)
    (bidirection : bool) (dropout : A) (layer_norm : bool) (sample_rate : Z)
    (sample_style : string) :
  sample_style = "drop" ∨ sample_style = "concat" →
  RNNLayer.new module_globals input_dim module dim bidirection dropout
               layer_norm sample_rate sample_style
  = Raise (NameError "rnn_cell")
  ∧ (∀ input_dim' module' dim' bidirection' (dropout' : A) layer_norm'
       sample_rate' sample_style',
       raises (RNNLayer.new module_globals input_dim' module' dim' bidirection'
                            dropout' layer_norm' sample_rate' sample_style'))
  ∧ (∀ call run_layer (self : RNNLayer.instance A) input_x x_len,
       raises (RNNLayer.forward call run_layer module_globals self input_x x_len)).
Proof.
  intros Hstyle. split; [|split].
  - rewrite RNNLayer_new_raises. rewrite bool_decide_eq_false_2; [done|].
    intros Hnot. apply Hnot. destruct Hstyle as [-> | ->]; set_solver.
  - intros. rewrite RNNLayer_new_raises. case_bool_decide; eexists; done.
  - intros. rewrite RNNLayer_forward_raises. eexists; done.
Qed.


End RNNLayerFacts.

Lemma RNNLayer_init_NameError_witness :
  RNNLayer.new (A:=Z) module_globals 40 "LSTM" 320 true 0 false 3 "concat"
  = Raise (NameError "rnn_cell")
  ∧ (∀ input_dim' module' dim' bidirection' (dropout' : Z) layer_norm'
       sample_rate' sample_style',
       raises (RNNLayer.new module_globals input_dim' module' dim' bidirection'
                            dropout' layer_norm' sample_rate' sample_style'))
  ∧ (∀ call run_layer (self : RNNLayer.instance Z) input_x x_len,
       raises (RNNLayer.forward call run_layer module_globals self input_x x_len)).
Proof.
  apply (RNNLayer_init_NameError 40 "LSTM" 320 true 0 false 3 "concat").
  right. reflexivity.
Defined.


(** ** The class statements of the attention modules *)

Section ClassStatements.

Context {A : Type} `{Numerics A}.

Lemma class_def_ok (G : gmap string (value A)) (names : gset string)
    (name attr : string) :
  G !! "nn" = Some (VModule "torch.nn" names) → attr ∈ names →
  class_def name "nn" attr G = Return (<[name := VClass name]> G).
Proof.
  intros Hnn Hin. unfold class_def, global_attr, lookup_name. rewrite Hnn.
  cbn [mbind result_bind getattr_module].
  by rewrite bool_decide_eq_true_2.
Qed.

Lemma class_def_fails (G : gmap string (value A)) (names : gset string)
    (name attr : string) :
  G !! "nn" = Some (VModule "torch.nn" names) → attr ∉ names →
  class_def name "nn" attr G = Raise (AttributeError "torch.nn" attr).
Proof.
  intros Hnn Hin. unfold class_def, global_attr, lookup_name. rewrite Hnn.
  cbn [mbind result_bind getattr_module].
  by rewrite bool_decide_eq_false_2.
Qed.

(** The execution of the module, for any library in which [torch.nn] has
    [Module] and has no [module]. *)
Lemma exec_module_stops (lib : libraries) :
  "Module" ∈ torch_nn_names lib → "module" ∉ torch_nn_names lib →
  exec_module (A:=A) lib
  = (<["RNNLayer" := VClass "RNNLayer"]>
       (<["VGGExtractor" := VClass "VGGExtractor"]>
          (<["nn" := VModule "torch.nn" (torch_nn_names lib)]>
             (<["np" := VModule "numpy" (numpy_names lib)]>
                (<["torch" := VModule "torch" (torch_names lib)]> ∅)))),
     Some (AttributeError "torch.nn" "module")).
Proof.
  intros HModule Hmodule. unfold exec_module, module_body.
  cbn [exec import_as].
  rewrite (class_def_ok _ (torch_nn_names lib)); [|by rewrite lookup_insert_eq|done].
  cbn [exec].
  rewrite (class_def_ok _ (torch_nn_names lib));
    [|by rewrite lookup_insert_ne, lookup_insert_eq|done].
  cbn [exec].
  rewrite (class_def_fails _ (torch_nn_names lib));
    [|by rewrite !lookup_insert_ne, lookup_insert_eq by done|done].
  done.
Qed.

(** C8.  When [torch.nn] defines [Module] and no [module], the execution of
    the module raises [AttributeError] at [class ScaleDotAttention(nn.module)]:
    neither attention class is ever bound, each of the two class statements
    raises on its own wherever [nn] is that library, and a call of either
    class raises [NameError] before any constructor runs. *)
Theorem attention_classes_are_never_defined (lib : libraries) :
  "Module" ∈ torch_nn_names lib →
  "module" ∉ torch_nn_names lib →
  (exec_module (A:=A) lib).2 = Some (AttributeError "torch.nn" "module")
  ∧ (exec_module (A:=A) lib).1 !! "ScaleDotAttention" = None
  ∧ (exec_module (A:=A) lib).1 !! "LocationAwareAttention" = None
  ∧ (∀ G : gmap string (value A),
       G !! "nn" = Some (VModule "torch.nn" (torch_nn_names lib)) →
       class_def "ScaleDotAttention" "nn" "module" G
       = Raise (AttributeError "torch.nn" "module")
       ∧ class_def "LocationAwareAttention" "nn" "module" G
         = Raise (AttributeError "torch.nn" "module"))
  ∧ (∀ temperature : A,
       ScaleDotAttention.new (exec_module lib).1 temperature
       = Raise (NameError "ScaleDotAttention"))
  ∧ (∀ (kernel_size kernel_num dim num_head : Z) (temperature : A),
       LocationAwareAttention.new (exec_module lib).1 kernel_size kernel_num dim
                                  num_head temperature
       = Raise (NameError "LocationAwareAttention")).
Proof.
  intros HModule Hmodule. rewrite (exec_module_stops lib HModule Hmodule).
  cbn [fst snd].
  assert (∀ x : string,
    x ≠ "torch" → x ≠ "np" → x ≠ "nn" → x ≠ "VGGExtractor" → x ≠ "RNNLayer" →
    (<["RNNLayer" := VClass "RNNLayer"]>
       (<["VGGExtractor" := VClass "VGGExtractor"]>
          (<["nn" := VModule "torch.nn" (torch_nn_names lib)]>
             (<["np" := VModule "numpy" (numpy_names lib)]>
                (<["torch" := VModule "torch" (torch_names lib)]>
                   (∅ : gmap string (value A))))))) !! x = None) as Hfree.
  { intros x ? ? ? ? ?. rewrite !lookup_insert_ne by done. apply lookup_empty. }
  split; [done|]. split; [by apply Hfree|]. split; [by apply Hfree|].
  split; [|split].
  - intros G HG. split; by apply (class_def_fails G (torch_nn_names lib)).
  - intros temperature. unfold ScaleDotAttention.new, instantiate, lookup_name.
    by rewrite Hfree.
  - intros. unfold LocationAwareAttention.new, instantiate, lookup_name.
    by rewrite Hfree.
Qed.

End ClassStatements.

Lemma attention_classes_are_never_defined_witness :
  (exec_module (A:=Z) installed).2 = Some (AttributeError "torch.nn" "module")
  ∧ (exec_module (A:=Z) installed).1 !! "ScaleDotAttention" = None
  ∧ (exec_module (A:=Z) installed).1 !! "LocationAwareAttention" = None
  ∧ (∀ G : gmap string (value Z),
       G !! "nn" = Some (VModule "torch.nn" (torch_nn_names installed)) →
       class_def "ScaleDotAttention" "nn" "module" G
       = Raise (AttributeError "torch.nn" "module")
       ∧ class_def "LocationAwareAttention" "nn" "module" G
         = Raise (AttributeError "torch.nn" "module"))
  ∧ (∀ temperature : Z,
       ScaleDotAttention.new (exec_module installed).1 temperature
       = Raise (NameError "ScaleDotAttention"))
  ∧ (∀ (kernel_size kernel_num dim num_head : Z) (temperature : Z),
       LocationAwareAttention.new (exec_module installed).1 kernel_size kernel_num dim
                                  num_head temperature
       = Raise (NameError "LocationAwareAttention")).
Proof.
  apply (attention_classes_are_never_defined installed).
  - apply (bool_decide_unpack _). vm_compute. exact I.
  - apply (bool_decide_unpack _). vm_compute. exact I.
Defined.

(** ** [LocationAwareAttention] *)

Section LocationAwareAttentionFacts.

Context {A : Type} `{Numerics A}.

Lemma st_bind_raises_later {S T U : Type} (m : stateful S T)
    (k : T → stateful S U) (s : S) :
  (∀ x s', raises (k x s').2) → raises (st_bind m k s).2.
Proof.
  intros Hk. unfold st_bind. destruct (m s) as [s' [x|e]]; cbn [snd].
  - apply Hk.
  - by eexists.
Qed.

Lemma torch_attr_module_globals (name : string) :
  name ∈ torch_names installed →
  global_attr (module_globals (A:=A)) "torch" name = Return (VAttr "torch" name).
Proof.
  intros Hin. unfold global_attr, module_globals.
  rewrite exec_module_installed. cbn [fst].
  unfold lookup_name. rewrite !lookup_insert_ne by done.
  rewrite lookup_insert_eq. cbn [mbind result_bind getattr_module].
  by rewrite bool_decide_eq_true_2.
Qed.

(** For every binding of the global names and every state of the instance,
    [forward] raises: at the latest, line 173 reads the local name [attn]
    before anything was assigned to it. *)
Lemma forward_raises_everywhere (G : gmap string (value A))
    (self : LocationAwareAttention.instance A) (q k v : tensor A)
    (mask : option (tensor bool)) :
  raises (LocationAwareAttention.forward G q k v mask self).2.
Proof.
  unfold LocationAwareAttention.forward.
  repeat lazymatch goal with
  | |- raises (st_bind (st_lift (read_local _ None)) _ _).2 =>
      by eexists
  | |- raises (st_bind _ _ _).2 =>
      apply st_bind_raises_later; intros ? ?; cbv zeta
  end.
Qed.

(** First call after a reset, in the globals of the module: the lazy
    initialisation stops at the free name [bs], before [prev_att] is
    assigned. *)
Lemma forward_uninitialized (self : LocationAwareAttention.instance A)
    (q k v : tensor A) (mask : option (tensor bool)) (ts : Z) :
  LocationAwareAttention.prev_att self = None →
  size k 1 = Return ts →
  LocationAwareAttention.forward module_globals q k v mask self
  = (self, Raise (NameError "bs")).
Proof.
  intros Hprev Hsize. unfold LocationAwareAttention.forward.
  unfold st_bind at 1. unfold st_lift at 1. rewrite Hsize.
  unfold st_bind at 1. unfold st_get at 1.
  unfold st_bind at 1. rewrite Hprev.
  unfold LocationAwareAttention.init_prev_att.
  unfold st_bind at 1. unfold st_lift at 1.
  rewrite torch_attr_module_globals by set_solver.
  unfold st_bind at 1. unfold st_lift at 1.
  rewrite lookup_unbound by done. done.
Qed.

(** A call on an initialised state, in the globals of the module: the state
    is left as it was and the call raises, at the latest at the free name
    [dim]. *)
Lemma forward_initialized (self : LocationAwareAttention.instance A)
    (q k v : tensor A) (mask : option (tensor bool)) (ts : Z) (p : tensor A) :
  LocationAwareAttention.prev_att self = Some p →
  size k 1 = Return ts →
  ∃ e, LocationAwareAttention.forward module_globals q k v mask self
       = (self, Raise e).
Proof.
  intros Hprev Hsize. unfold LocationAwareAttention.forward.
  unfold st_bind at 1. unfold st_lift at 1. rewrite Hsize.
  unfold st_bind at 1. unfold st_get at 1.
  unfold st_bind at 1. rewrite Hprev. unfold st_ret at 1.
  unfold st_bind at 1. unfold st_get at 1.
  unfold st_bind at 1. unfold st_lift at 1.
  rewrite torch_attr_module_globals by set_solver.
  cbn [mbind result_bind]. rewrite Hprev. cbn [mbind result_bind].
  destruct (apply (LocationAwareAttention.loc_conv self) p) as [c|e];
    cbn [mbind result_bind]; [|by eexists].
  destruct (transpose c 1 2) as [c'|e]; cbn [mbind result_bind]; [|by eexists].
  destruct (apply (LocationAwareAttention.loc_proj self) c') as [c''|e];
    cbn [mbind result_bind]; [|by eexists].
  unfold st_bind at 1. unfold st_lift at 1.
  destruct (unsqueeze (pointwise ftanh c'') 1) as [u|e];
    cbn [mbind result_bind]; [|by eexists].
  destruct (repeat_ u [1; LocationAwareAttention.num_head self; 1; 1]) as [r|e];
    cbn [mbind result_bind]; [|by eexists].
  rewrite lookup_unbound by done. by eexists.
Qed.

(** C10.  Every call of [forward] raises: for every binding of the global
    names, every state of the instance (the attribute [k] assigned or not,
    [prev_att] initialised or not) and all inputs.  In the globals of the
    module the state is left as it was, so the update of [prev_att] by the
    attention weights never happens; the constructor leaves [k]
    unassigned. *)
Theorem LocationAwareAttention_forward_always_raises :
  (∀ (G : gmap string (value A)) (self : LocationAwareAttention.instance A)
     (q k v : tensor A) (mask : option (tensor bool)),
     raises (LocationAwareAttention.forward G q k v mask self).2)
  ∧ (∀ (self : LocationAwareAttention.instance A) (q k v : tensor A)
       (mask : option (tensor bool)),
       ∃ e, LocationAwareAttention.forward module_globals q k v mask self
            = (self, Raise e))
  ∧ (∀ (G : gmap string (value A)) (kernel_size kernel_num dim num_head : Z)
       (temperature : A),
       match LocationAwareAttention.__init__ G kernel_size kernel_num dim
                                             num_head temperature with
       | Return self => LocationAwareAttention.k_attr self = None
                        ∧ LocationAwareAttention.prev_att self = None
       | Raise _ => True
       end)
  ∧ (∀ self : LocationAwareAttention.instance A,
       LocationAwareAttention.k_attr (LocationAwareAttention.reset_mem self).1
       = LocationAwareAttention.k_attr self).
Proof.
  split; [exact forward_raises_everywhere|]. split; [|split; [|done]].
  - intros self q k v mask.
    destruct (size k 1) as [ts|e] eqn:Hsize.
    + destruct (LocationAwareAttention.prev_att self) as [p|] eqn:Hprev.
      * by apply (forward_initialized self q k v mask ts p).
      * exists (NameError "bs"). by apply (forward_uninitialized self q k v mask ts).
    + exists e. unfold LocationAwareAttention.forward.
      unfold st_bind at 1. unfold st_lift at 1. by rewrite Hsize.
  - intros G kernel_size kernel_num dim num_head temperature.
    unfold LocationAwareAttention.__init__, nn_layer.
    destruct (global_attr G "nn" "Softmax"); cbn [mbind result_bind]; [|done].
    destruct (global_attr G "nn" "Conv1d"); cbn [mbind result_bind]; [|done].
    destruct (global_attr G "nn" "Linear"); cbn [mbind result_bind]; done.
Qed.

End LocationAwareAttentionFacts.

Section LazyInitFacts.

Context {A : Type} `{Numerics A}.

(** What lines 159-161 do once [bs] and [enc_len] are bound (here to [1] and
    [[3]], with one head and five key positions): the row is [1.0/3] on the
    first three positions and [0] on the last two. *)
Lemma init_prev_att_with_names_bound (temperature : A)
    (softmax loc_conv loc_proj gen_energy : layer A) :
  let self := LocationAwareAttention.Instance temperature 1 softmax None
                loc_conv loc_proj gen_energy None in
  let G := <["bs" := VInt 1]> (<["enc_len" := VList [VInt 3]]> module_globals) in
  LocationAwareAttention.init_prev_att G 5 self
  = (LocationAwareAttention.set_prev_att
       (Some (Tensor [1; 1; 5]%nat [frecip 3; frecip 3; frecip 3; fzero; fzero]))
       self,
     Return tt).
Proof. vm_compute. reflexivity. Qed.

(** C4, evaluated on the code.  After [reset_mem], a call of [forward] with
    five key positions raises [NameError] on [bs] before [prev_att] is
    assigned: the state is still the uninitialised one, and no uniform
    distribution was built. *)
Theorem LocationAwareAttention_lazy_init_NameError
    (self : LocationAwareAttention.instance A) (q k v : tensor A)
    (mask : option (tensor bool)) (b d : nat) :
  shape k = [b; 5%nat; d] →
  LocationAwareAttention.prev_att (LocationAwareAttention.reset_mem self).1 = None
  ∧ LocationAwareAttention.forward module_globals q k v mask
      (LocationAwareAttention.reset_mem self).1
    = ((LocationAwareAttention.reset_mem self).1, Raise (NameError "bs")).
Proof.
  intros Hk. split; [done|].
  apply (forward_uninitialized _ q k v mask 5); [done|].
  unfold size. by rewrite Hk.
Qed.

(** C7, evaluated on the code.  A call with batch size 4 followed, without
    [reset_mem], by a call with batch size 2: both raise [NameError] on
    [bs], the first before any state is stored; no shape is ever compared. *)
Theorem LocationAwareAttention_batch_change_NameError
    (self : LocationAwareAttention.instance A)
    (q4 k4 v4 q2 k2 v2 : tensor A) (m4 m2 : option (tensor bool)) (t d : nat) :
  LocationAwareAttention.prev_att self = None →
  shape k4 = [4%nat; t; d] →
  shape k2 = [2%nat; t; d] →
  LocationAwareAttention.forward module_globals q4 k4 v4 m4 self
  = (self, Raise (NameError "bs"))
  ∧ LocationAwareAttention.forward module_globals q2 k2 v2 m2
      (LocationAwareAttention.forward module_globals q4 k4 v4 m4 self).1
    = (self, Raise (NameError "bs")).
Proof.
  intros Hprev Hk4 Hk2.
  assert (LocationAwareAttention.forward module_globals q4 k4 v4 m4 self
          = (self, Raise (NameError "bs"))) as H4.
  { apply (forward_uninitialized self q4 k4 v4 m4 (Z.of_nat t)); [done|].
    unfold size. by rewrite Hk4. }
  split; [exact H4|]. rewrite H4. cbn [fst].
  apply (forward_uninitialized self q2 k2 v2 m2 (Z.of_nat t)); [done|].
  unfold size. by rewrite Hk2.
Qed.

End LazyInitFacts.

Lemma LocationAwareAttention_lazy_init_NameError_witness :
  let self := LocationAwareAttention.Instance 2 1 (Softmax 1) None
                (Conv1d 1 10 3 1) (Linear 10 4 false) (Linear 4 1 true) None in
  let k := StandIn.iota [1; 5; 4]%nat in
  LocationAwareAttention.prev_att (LocationAwareAttention.reset_mem self).1 = None
  ∧ LocationAwareAttention.forward module_globals (StandIn.iota [1; 4]%nat) k k None
      (LocationAwareAttention.reset_mem self).1
    = ((LocationAwareAttention.reset_mem self).1, Raise (NameError "bs")).
Proof.
  intros self k.
  apply (LocationAwareAttention_lazy_init_NameError self
           (StandIn.iota [1; 4]%nat) k k None 1 4).
  reflexivity.
Defined.

Lemma LocationAwareAttention_batch_change_NameError_witness :
  let self := LocationAwareAttention.Instance 2 1 (Softmax 1) None
                (Conv1d 1 10 3 1) (Linear 10 4 false) (Linear 4 1 true) None in
  let q4 := StandIn.iota [4; 3]%nat in
  let k4 := StandIn.iota [4; 5; 3]%nat in
  let q2 := StandIn.iota [2; 3]%nat in
  let k2 := StandIn.iota [2; 5; 3]%nat in
  LocationAwareAttention.forward module_globals q4 k4 k4 None self
  = (self, Raise (NameError "bs"))
  ∧ LocationAwareAttention.forward module_globals q2 k2 k2 None
      (LocationAwareAttention.forward module_globals q4 k4 k4 None self).1
    = (self, Raise (NameError "bs")).
Proof.
  intros self q4 k4 q2 k2.
  apply (LocationAwareAttention_batch_change_NameError self q4 k4 k4 q2 k2 k2
           None None 5 3).
  - reflexivity.
  - reflexivity.
  - reflexivity.
Defined.

(** ** [ScaleDotAttention] *)

Section ScaleDotAttentionFacts.

Context {A : Type} `{Numerics A}.

(** In the globals of the module, [forward] never returns: what is left
    after the weights are computed stops at the free name [bs]. *)
Lemma ScaleDotAttention_forward_raises (self : ScaleDotAttention.instance A)
    (q k v : tensor A) (mask : option (tensor bool)) :
  raises (ScaleDotAttention.forward module_globals self q k v mask).
Proof.
  unfold ScaleDotAttention.forward.
  destruct (ScaleDotAttention.weights module_globals self q k mask) as [attn|e];
    cbn [mbind result_bind]; [|by eexists].
  rewrite torch_attr_module_globals by set_solver. cbn [mbind result_bind].
  destruct (bmm attn v) as [output|e]; cbn [mbind result_bind]; [|by eexists].
  rewrite lookup_unbound by done. by eexists.
Qed.

(** C2, evaluated on the code.  One query, five keys, every key masked but
    the one at index 2.  The scores have shape [[1; 1; 5]] and
    [Softmax(dim=1)] normalises along the axis of length 1: every weight is
    the softmax of its own score alone, the masked ones that of [-inf] alone;
    no normalisation runs over the keys.  [forward] then raises [NameError]
    on [bs] and returns no weights; it raises for all inputs. *)
Theorem ScaleDotAttention_masked_weights :
  (∀ (self : ScaleDotAttention.instance A) (q k v : tensor A)
     (mask : option (tensor bool)),
     raises (ScaleDotAttention.forward module_globals self q k v mask))
  ∧ (∀ temperature : A,
       ScaleDotAttention.__init__ module_globals temperature
       = Return (ScaleDotAttention.Instance temperature (Softmax 1) None))
  ∧ (∀ (temperature x k0 k1 k2 k3 k4 v0 v1 v2 v3 v4 : A),
       let self := ScaleDotAttention.Instance temperature (Softmax 1) None in
       let q := Tensor [1; 1; 1]%nat [x] in
       let k := Tensor [1; 5; 1]%nat [k0; k1; k2; k3; k4] in
       let v := Tensor [1; 5; 1]%nat [v0; v1; v2; v3; v4] in
       let mask := Some (Tensor [1; 1; 5]%nat [true; true; false; true; true]) in
       ScaleDotAttention.weights module_globals self q k mask
       = Return (Tensor [1; 1; 5]%nat
                   (omap (λ score, softmax1 [score] !! 0%nat)
                         [fneg_inf; fneg_inf; fdiv (fdot [x] [k2]) temperature;
                          fneg_inf; fneg_inf]))
       ∧ ScaleDotAttention.forward module_globals self q k v mask
         = Raise (NameError "bs")).
Proof.
  split; [exact ScaleDotAttention_forward_raises|]. split.
  - intros temperature. vm_compute. reflexivity.
  - intros. split; vm_compute; reflexivity.
Qed.

End ScaleDotAttentionFacts.

(** ** Runs on concrete tensors *)

Example transpose_2x3 :
  transpose (StandIn.iota [2; 3]%nat) 0 1 = Return (Tensor [3; 2]%nat [0; 3; 1; 4; 2; 5]).
Proof. reflexivity. Qed.

Example slice_drops_the_tail :
  slice1_stop (StandIn.iota [2; 3; 1]%nat) (-1) = Return (Tensor [2; 2; 1]%nat [0; 1; 3; 4]).
Proof. reflexivity. Qed.

Example slice_every_second :
  slice1_step (StandIn.iota [1; 5; 2]%nat) 2
  = Return (Tensor [1; 3; 2]%nat [0; 1; 4; 5; 8; 9]).
Proof. reflexivity. Qed.

Example view_infers_an_axis :
  view (StandIn.iota [2; 3]%nat) [-1; 2] = Return (Tensor [3; 2]%nat [0; 1; 2; 3; 4; 5]).
Proof. reflexivity. Qed.

Example int_of_quotients :
  PyNum.int_truediv 39 13 = Return 3
  ∧ PyNum.int_truediv 10 3 = Return 3
  ∧ PyNum.int_truediv (-7) 2 = Return (-3)
  ∧ PyNum.int_truediv 1 0 = Raise ZeroDivisionError.
Proof. repeat split; vm_compute; reflexivity. Qed.

Example one_third_as_a_float :
  PyNum.truediv 1 3 = Return (PyNum.Float 6004799503160661 (-54)).
Proof. vm_compute. reflexivity. Qed.

Example drop_keeps_even_steps :
  RNNLayer.downsampling
    (RNNLayer.Instance 4 0 false 2 "drop" (RNNLayer.Recurrent "LSTM" 40 4 false)
                       None None)
    (StandIn.iota [1; 10; 1]%nat) [10]
  = Return (Tensor [1; 5; 1]%nat [0; 2; 4; 6; 8], [5]).
Proof. vm_compute. reflexivity. Qed.

(** With the names [bs], [enc_len] and [dim] bound by hand,
    [LocationAwareAttention.forward] gets as far as the read of [self.k]; with
    [k] assigned by hand as well, as far as the read of [attn]. *)
Example forward_stops_at_k :
  let G := <["dim" := VInt 4]> (<["bs" := VInt 1]>
             (<["enc_len" := VList [VInt 3]]> module_globals)) in
  let self := LocationAwareAttention.Instance 2 1 (Softmax 1) None
                (Conv1d 1 2 3 1) (Linear 2 4 false) (Linear 4 1 true) None in
  (LocationAwareAttention.forward G (StandIn.iota [1; 4]%nat)
     (StandIn.iota [1; 5; 4]%nat) (StandIn.iota [1; 5; 4]%nat) None self).2
  = Raise (AttributeError "LocationAwareAttention" "k").
Proof. vm_compute. reflexivity. Qed.

Example forward_stops_at_attn :
  let G := <["dim" := VInt 4]> (<["bs" := VInt 1]>
             (<["enc_len" := VList [VInt 3]]> module_globals)) in
  let self := LocationAwareAttention.Instance 2 1 (Softmax 1) None
                (Conv1d 1 2 3 1) (Linear 2 4 false) (Linear 4 1 true)
                (Some (StandIn.iota [1; 5; 4]%nat)) in
  (LocationAwareAttention.forward G (StandIn.iota [1; 4]%nat)
     (StandIn.iota [1; 5; 4]%nat) (StandIn.iota [1; 5; 4]%nat) None self).2
  = Raise (UnboundLocalError "attn").
Proof. vm_compute. reflexivity. Qed.

(** In such an environment a state left by a batch of 4 does make a call
    with a batch of 2 fail on the shapes, at the sum of line 169. *)
Example stale_state_meets_other_batch :
  let G := <["dim" := VInt 4]> (<["bs" := VInt 2]>
             (<["enc_len" := VList [VInt 3; VInt 5]]> module_globals)) in
  let stale := Tensor [4; 1; 5]%nat (replicate 20 0) in
  let self := LocationAwareAttention.Instance 2 1 (Softmax 1) (Some stale)
                (Conv1d 1 2 3 1) (Linear 2 4 false) (Linear 4 1 true)
                (Some (StandIn.iota [2; 5; 4]%nat)) in
  (LocationAwareAttention.forward G (StandIn.iota [2; 4]%nat)
     (StandIn.iota [2; 5; 4]%nat) (StandIn.iota [2; 5; 4]%nat) None self).2
  = Raise (RuntimeError "The size of tensor a must match the size of tensor b").
Proof. vm_compute. reflexivity. Qed.

(** * Further properties *)

(** ** Quotients of integers below [2^53] *)

Section FloorFacts.

Lemma round_half_even_bounds (n d : Z) :
  0 ≤ n → 0 < d →
  n / d ≤ PyNum.round_half_even n d ≤ n / d + 1
  ∧ (2 * (n mod d) < d → PyNum.round_half_even n d = n / d).
Proof.
  intros Hn Hd. unfold PyNum.round_half_even.
  destruct (Z.compare_spec (2 * (n mod d)) d); repeat split; try lia;
    destruct (Z.even (n / d)); lia.
Qed.

(** For operands below [2^53] the significand is normal: the exponent of
    its last place is not positive and [2^52 ≤ (a / b) / 2^e]. *)
Lemma ulp_exponent_normal (a b : Z) :
  0 < a < 2 ^ 53 → 0 < b < 2 ^ 53 →
  let e := PyNum.ulp_exponent a b in
  -105 ≤ e ≤ 0 ∧ 2 ^ 52 * b ≤ a * 2 ^ (- e).
Proof.
  intros Ha Hb. unfold PyNum.ulp_exponent.
  assert (0 ≤ Z.log2 a < 53) as Hla
    by (split; [apply Z.log2_nonneg|apply Z.log2_lt_pow2; lia]).
  assert (0 ≤ Z.log2 b < 53) as Hlb
    by (split; [apply Z.log2_nonneg|apply Z.log2_lt_pow2; lia]).
  destruct (Z.log2_spec a ltac:(lia)) as [Ha1 Ha2].
  destruct (Z.log2_spec b ltac:(lia)) as [Hb1 Hb2].
  set (la := Z.log2 a) in *. set (lb := Z.log2 b) in *.
  set (k := la - lb).
  destruct (Z.ltb_spec (a * 2 ^ Z.max 0 (- k)) (b * 2 ^ Z.max 0 k)) as [Hc|Hc].
  - rewrite Z.max_l by lia. split; [lia|].
    replace (- (k - 53)) with (53 - la + lb) by lia.
    assert (2 ^ la * 2 ^ (53 - la + lb) = 2 ^ 52 * 2 ^ (lb + 1)) as Hp.
    { rewrite <- !Z.pow_add_r by lia. f_equal. lia. }
    assert (0 < 2 ^ (53 - la + lb)) by (apply Z.pow_pos_nonneg; lia).
    assert (2 ^ la * 2 ^ (53 - la + lb) ≤ a * 2 ^ (53 - la + lb))
      by (apply Z.mul_le_mono_nonneg_r; lia).
    assert (2 ^ 52 * b ≤ 2 ^ 52 * 2 ^ (lb + 1))
      by (apply Z.mul_le_mono_nonneg_l; lia).
    replace (Z.succ lb) with (lb + 1) in * by lia. lia.
  - rewrite Z.max_l by lia. split; [lia|].
    replace (- (k - 52)) with (52 - k) by lia.
    destruct (Z.le_gt_cases 0 k) as [Hk|Hk].
    + rewrite (Z.max_r 0 k), (Z.max_l 0 (- k)), Z.pow_0_r, Z.mul_1_r in Hc by lia.
      assert (2 ^ 52 = 2 ^ k * 2 ^ (52 - k)) as ->
        by (rewrite <- Z.pow_add_r by lia; f_equal; lia).
      assert (0 < 2 ^ (52 - k)) by (apply Z.pow_pos_nonneg; lia).
      assert (b * 2 ^ k * 2 ^ (52 - k) ≤ a * 2 ^ (52 - k))
        by (apply Z.mul_le_mono_nonneg_r; lia).
      lia.
    + rewrite (Z.max_l 0 k), (Z.max_r 0 (- k)), Z.pow_0_r, Z.mul_1_r in Hc by lia.
      assert (2 ^ (52 - k) = 2 ^ (- k) * 2 ^ 52) as ->
        by (rewrite <- Z.pow_add_r by lia; f_equal; lia).
      assert (b * 2 ^ 52 ≤ a * 2 ^ (- k) * 2 ^ 52)
        by (apply Z.mul_le_mono_nonneg_r; lia).
      lia.
Qed.

(** [int(a / b)] is the floor of the quotient when both operands are below
    [2^53]: the rounding of the float never reaches the next integer. *)
Lemma int_truediv_floor (a b : Z) :
  0 ≤ a < 2 ^ 53 → 0 < b < 2 ^ 53 →
  PyNum.int_truediv a b = Return (a / b).
Proof.
  intros Ha Hb. unfold PyNum.int_truediv, PyNum.truediv. cbv zeta.
  destruct (Z.eqb_spec b 0); [lia|].
  rewrite (Z.abs_eq a), (Z.abs_eq b) by lia.
  destruct (Z.eqb_spec a 0) as [->|Ha0]; [done|].
  destruct (ulp_exponent_normal a b ltac:(lia) Hb) as [He Hnorm].
  set (e := PyNum.ulp_exponent a b) in *.
  set (P := 2 ^ (- e)) in *.
  assert (0 < P) as HP by (apply Z.pow_pos_nonneg; lia).
  assert (b < 2 * P) as HbP.
  { assert (a * P < 2 ^ 53 * P) by (apply Z.mul_lt_mono_pos_r; lia).
    change (2 ^ 53) with (2 ^ 52 * 2) in H.
    apply (Z.mul_lt_mono_pos_l (2 ^ 52)); lia. }
  (* the significand *)
  set (m := if 0 <=? e then PyNum.round_half_even a (b * 2 ^ e)
            else PyNum.round_half_even (a * P) b).
  assert (m = PyNum.round_half_even (a * P) b) as Hm.
  { unfold m. destruct (Z.leb_spec 0 e); [|done].
    assert (P = 1) as -> by (unfold P; replace (- e) with 0 by lia; done).
    replace (2 ^ e) with 1 by (replace e with 0 by lia; done).
    by rewrite !Z.mul_1_r. }
  assert (a / b * P ≤ m < (a / b + 1) * P) as Hbounds.
  { pose proof (Z.div_mod a b ltac:(lia)) as Hab.
    pose proof (Z.mod_pos_bound a b ltac:(lia)) as Hr.
    set (q := a / b) in *. set (r := a mod b) in *.
    pose proof (Z.div_mod (r * P) b ltac:(lia)) as HrP.
    pose proof (Z.mod_pos_bound (r * P) b ltac:(lia)) as Hu.
    set (t := r * P / b) in *. set (u := (r * P) mod b) in *.
    assert (0 ≤ t) as Ht0 by (apply Z.div_pos; nia).
    assert (t < P) as HtP by nia.
    assert (a * P = b * (q * P + t) + u) as Hn by nia.
    assert (a * P / b = q * P + t) as Hdiv
      by (symmetry; apply (Z.div_unique _ _ _ u); [lia|exact Hn]).
    assert ((a * P) mod b = u) as Hmod
      by (symmetry; apply (Z.mod_unique _ _ (q * P + t)); [lia|exact Hn]).
    destruct (round_half_even_bounds (a * P) b ltac:(nia) ltac:(lia))
      as [Hrange Hdown].
    rewrite <- Hm, Hdiv, Hmod in *.
    destruct (Z.eq_dec t (P - 1)) as [HtE|HtN]; [|nia].
    rewrite Hdown by nia. nia. }
  set (q := a / b) in *.
  assert (0 ≤ q) as Hq0 by (apply Z.div_pos; lia).
  assert (q < 2 ^ 53) as Hq53.
  { apply (Z.le_lt_trans _ a); [|lia]. apply Z.div_le_upper_bound; nia. }
  assert (Z.sgn a = 1) as -> by (apply Z.sgn_pos; lia).
  assert (Z.sgn b = 1) as -> by (apply Z.sgn_pos; lia).
  assert (Z.log2 m + e < 1024) as Hlog.
  { destruct (Z.eq_dec m 0) as [->|Hm0]; [cbn; lia|].
    assert (m < 2 ^ (53 - e)).
    { replace (53 - e) with (53 + - e) by lia.
      rewrite Z.pow_add_r by lia. fold P. nia. }
    assert (Z.log2 m < 53 - e) by (apply Z.log2_lt_pow2; lia). lia. }
  destruct (Z.leb_spec 1024 (Z.log2 m + e)); [lia|].
  cbn [mbind result_bind]. unfold PyNum.int.
  cbn [PyNum.exponent PyNum.significand]. f_equal.
  replace (1 * 1 * m) with m by lia.
  destruct (Z.leb_spec 0 e).
  - assert (P = 1) as HP1 by (unfold P; replace (- e) with 0 by lia; done).
    replace (2 ^ e) with 1 by (replace e with 0 by lia; done).
    rewrite HP1 in Hbounds. lia.
  - fold P. rewrite Z.quot_div_nonneg by lia.
    symmetry. apply (Z.div_unique _ _ _ (m - q * P)); lia.
Qed.

End FloorFacts.

(** ** More on [VGGExtractor] *)

Section VGGExtractorMore.

Context {A : Type} `{Numerics A}.

(** X1.  The Fbank family: when the feature dimension that [check_dim]
    examines is the one the constructor is called with, is divisible by 40
    and not by 13, and its quotient by 40 is below [2^53], the constructor
    derives [n / 40] channels, a frequency dimension of 40 and the output
    dimension [(40 div 4) * 128 = 1280]. *)
Theorem VGGExtractor_fbank_dims (t : tensor A) (m : nat) :
  last (shape t) = Some m →
  Z.of_nat m mod 13 ≠ 0 →
  Z.of_nat m mod 40 = 0 →
  Z.of_nat m / 40 < 2 ^ 53 →
  let G := <["example_input" := VTensor t]> module_globals in
  VGGExtractor.check_dim G (Z.of_nat m) = Return (Z.of_nat m / 40, 40, (40 / 4) * 128)
  ∧ (40 / 4) * 128 = 1280
  ∧ VGGExtractor.new G (Z.of_nat m)
    = Return (VGGExtractor.Instance (Z.of_nat m / 40) 40 1280
                (VGGExtractor.extractor_layers (Z.of_nat m / 40))).
Proof.
  intros Hlast H13 H40 Hbound G.
  assert (VGGExtractor.check_dim G (Z.of_nat m) = Return (Z.of_nat m / 40, 40, 1280))
    as Hcheck.
  { pose proof (check_dim_example_input t (Z.of_nat m) m Hlast) as E.
    cbv zeta in E. unfold G. rewrite E.
    rewrite bool_decide_eq_false_2 by done.
    rewrite bool_decide_eq_true_2 by done.
    assert (Z.of_nat m = Z.of_nat m / 40 * 40) as Hq.
    { rewrite Z.mul_comm. apply Z.div_exact; [lia|done]. }
    rewrite Hq at 1. rewrite int_truediv_exact.
    - done.
    - lia.
    - split; [apply Z.div_pos; lia|done]. }
  split; [exact Hcheck|]. split; [reflexivity|].
  unfold G. by apply new_from_check_dim.
Qed.

(** The whole of [forward] on an instance whose fields follow the rule of
    [check_dim]. *)
Lemma forward_shape (self : VGGExtractor.instance A) (feature : tensor A)
    (feat_len : list Z) (bs ts ds : nat) :
  VGGExtractor.extractor self
    = VGGExtractor.extractor_layers (VGGExtractor.in_channel self) →
  0 ≤ VGGExtractor.in_channel self →
  4 ≤ VGGExtractor.freq_dim self →
  0 ≤ VGGExtractor.out_dim self →
  shape feature = [bs; ts; ds] →
  Z.of_nat ds = VGGExtractor.in_channel self * VGGExtractor.freq_dim self →
  wf feature →
  (4 ≤ ts)%nat →
  ∃ y,
    shape y = [bs; (ts / 4)%nat; 128%nat;
               Z.to_nat (VGGExtractor.freq_dim self / 4)]
    ∧ VGGExtractor.forward self feature feat_len
      = (feature ← view y [Z.of_nat bs; Z.of_nat (ts / 4); VGGExtractor.out_dim self];
         Return (feature, (λ n, n / 4) <$> feat_len)).
Proof.
  intros Hext Hic Hfd Hod Hsh Hds Hwf Hts.
  destruct (view_input_spec self feature feat_len bs ts ds Hic ltac:(lia) Hsh Hds Hwf)
    as (cropped & x0 & Hcrop & Hcsh & Hget & Hsame & Hview & Hx0).
  set (ic := VGGExtractor.in_channel self) in *.
  set (fd := VGGExtractor.freq_dim self) in *.
  set (ts' := (4 * (ts / 4))%nat) in *.
  assert (4 ≤ ts')%nat as Hts'.
  { unfold ts'. pose proof (Nat.div_le_lower_bound ts 4 1 ltac:(lia) ltac:(lia)). lia. }
  destruct (extractor_shape x0 bs (Z.to_nat ic) ts' (Z.to_nat fd) Hx0 Hts' ltac:(lia))
    as (y & Hy & Hysh).
  rewrite Z2Nat.id in Hy by done.
  assert (ts' / 2 / 2 = ts / 4)%nat as Hquarter.
  { rewrite Nat.Div0.div_div. change (2 * 2)%nat with 4%nat.
    unfold ts'. rewrite Nat.mul_comm. by rewrite Nat.div_mul. }
  assert (Z.to_nat fd / 2 / 2 = Z.to_nat (fd / 4))%nat as Hq.
  { rewrite Nat.Div0.div_div. change (2 * 2)%nat with 4%nat.
    apply Nat2Z.inj. rewrite Nat2Z.inj_div, !Z2Nat.id; [done|apply Z.div_pos; lia|lia]. }
  rewrite Hquarter, Hq in Hysh.
  exists (gather [bs; (ts / 4)%nat; 128%nat; Z.to_nat (fd / 4)] (swap_at 1 2) y).
  split; [done|].
  unfold VGGExtractor.forward. rewrite Hview. cbn [mbind result_bind].
  rewrite Hext. fold ic. rewrite Hy. cbn [mbind result_bind].
  rewrite (transpose_12 _ bs 128%nat (ts / 4)%nat (Z.to_nat (fd / 4))) by done.
  cbn [mbind result_bind]. unfold size. cbn [shape gather].
  cbn [lookup list_lookup mbind result_bind]. done.
Qed.


End VGGExtractorMore.

Section VGGExtractorLayout.

Context {A : Type} `{Numerics A}.

Lemma view_shape_mismatch (n : nat) (args : list Z) :
  Forall (λ a, 0 ≤ a) args →
  foldr Z.mul 1 args ≠ Z.of_nat n →
  view_shape n args = Raise (RuntimeError "shape is invalid for input size").
Proof.
  intros Hpos Hprod. unfold view_shape.
  rewrite bool_decide_eq_false_2.
  2:{ rewrite Exists_exists. intros (a & Ha & Hlt).
      rewrite Forall_forall in Hpos. specialize (Hpos a Ha). lia. }
  assert (filter (λ a, a ≠ -1) args = args) as ->.
  { clear Hprod. induction Hpos as [|a l Ha Hl IH]; [done|].
    rewrite filter_cons_True by lia. f_equal. apply IH. }
  assert (filter (λ a, a = -1) args = []) as ->.
  { clear Hprod. induction Hpos as [|a l Ha Hl IH]; [done|].
    rewrite filter_cons_False by lia. apply IH. }
  simpl. by rewrite bool_decide_eq_false_2.
Qed.

(** X3.  The layout that [view_input] produces: feature [c * freq_dim + f]
    of frame [t] becomes element [f] of channel [c] at time [t]; the stacked
    delta features are cut into channels in order, and only frames below the
    largest multiple of 4 appear. *)
Theorem VGGExtractor_view_input_layout (self : VGGExtractor.instance A)
    (feature : tensor A) (feat_len : list Z) (bs ts ic fd : nat) :
  VGGExtractor.in_channel self = Z.of_nat ic →
  VGGExtractor.freq_dim self = Z.of_nat fd →
  shape feature = [bs; ts; (ic * fd)%nat] →
  wf feature →
  ∃ x,
    VGGExtractor.view_input self feature feat_len
    = Return (x, (λ n, n / 4) <$> feat_len)
    ∧ shape x = [bs; ic; (4 * (ts / 4))%nat; fd]
    ∧ ∀ b c t f, (b < bs)%nat → (c < ic)%nat → (t < 4 * (ts / 4))%nat →
        (f < fd)%nat →
        get x [b; c; t; f] = get feature [b; t; (c * fd + f)%nat].
Proof.
  intros Hic Hfd Hsh Hwf.
  destruct (crop_spec feature bs ts (ic * fd) Hsh Hwf)
    as (cropped & Hcrop & Hcsh & Hcwf & Hget & Hsame).
  set (ts' := (4 * (ts / 4))%nat) in *.
  set (v := Tensor [bs; ts'; ic; fd] (data cropped)).
  assert (wf v) as Hv.
  { unfold wf, v. cbn [shape data]. rewrite Hcwf, Hcsh. cbn [numel foldr]. lia. }
  exists (gather [bs; ic; ts'; fd] (swap_at 1 2) v).
  split; [|split; [done|]].
  - unfold VGGExtractor.view_input, floordiv.
    cbn [Z.eqb mbind result_bind]. rewrite Hcrop. cbn [mbind result_bind].
    rewrite Hcsh, Hic, Hfd. rewrite view_nonneg.
    + cbn [fmap list_fmap mbind result_bind]. rewrite !Nat2Z.id. fold v.
      by rewrite (transpose_12 v bs ts' ic fd).
    + repeat (apply Forall_cons; split; [lia|]). apply Forall_nil_2.
    + rewrite Hcsh. cbn [foldr numel]. lia.
  - intros b c t f Hb Hc Ht Hf.
    rewrite gather_get; [|done| |by apply in_range4].
    + rewrite <- Hget by (try done; nia).
      unfold get, v. cbn [shape data swap_at lookup list_lookup insert list_insert].
      rewrite Hcsh.
      rewrite !bool_decide_eq_true_2
        by (apply in_range4 || apply in_range3; repeat split; try done; nia).
      f_equal. cbn [offset numel foldr]. lia.
    + intros i (i0 & i1 & i2 & i3 & -> & ?)%in_range4_inv.
      change (in_range [bs; ts'; ic; fd] [i0; i2; i1; i3]).
      apply in_range4. lia.
Qed.

(** X4.  [view_input] accepts tensors of exactly three axes: for any other
    number of axes it raises (an [IndexError] from the indexing or the
    slice, or the [ValueError] of the unpacking [bs,ts,ds = feature.shape]). *)
Theorem VGGExtractor_view_input_needs_three_axes (self : VGGExtractor.instance A)
    (feature : tensor A) (feat_len : list Z) :
  length (shape feature) ≠ 3%nat →
  raises (VGGExtractor.view_input self feature feat_len).
Proof.
  intros Hrank. unfold VGGExtractor.view_input, floordiv.
  cbn [Z.eqb mbind result_bind]. unfold VGGExtractor.crop, size.
  destruct (shape feature) as [|a [|b [|c [|d sh]]]] eqn:Hsh;
    try (exfalso; apply Hrank; reflexivity);
    cbn [lookup list_lookup mbind result_bind]; try (by eexists).
  - case_bool_decide.
    + unfold slice1_stop. rewrite Hsh. by eexists.
    + cbn [mbind result_bind]. rewrite Hsh. by eexists.
  - case_bool_decide.
    + unfold slice1_stop. rewrite Hsh. cbn [mbind result_bind gather shape].
      by eexists.
    + cbn [mbind result_bind]. rewrite Hsh. by eexists.
Qed.

(** X5.  A feature width that is not [in_channel * freq_dim] is rejected:
    on a non-empty batch of at least 4 frames, [view_input] raises the
    [RuntimeError] of [view]. *)
Theorem VGGExtractor_view_input_width_mismatch (self : VGGExtractor.instance A)
    (feature : tensor A) (feat_len : list Z) (bs ts ds : nat) :
  0 ≤ VGGExtractor.in_channel self →
  0 ≤ VGGExtractor.freq_dim self →
  shape feature = [bs; ts; ds] →
  wf feature →
  Z.of_nat ds ≠ VGGExtractor.in_channel self * VGGExtractor.freq_dim self →
  (0 < bs)%nat →
  (4 ≤ ts)%nat →
  VGGExtractor.view_input self feature feat_len
  = Raise (RuntimeError "shape is invalid for input size").
Proof.
  intros Hic Hfd Hsh Hwf Hds Hbs Hts.
  destruct (crop_spec feature bs ts ds Hsh Hwf)
    as (cropped & Hcrop & Hcsh & _).
  unfold VGGExtractor.view_input, floordiv.
  cbn [Z.eqb mbind result_bind]. rewrite Hcrop. cbn [mbind result_bind].
  rewrite Hcsh. unfold view. rewrite view_shape_mismatch; [done| |].
  - repeat (apply Forall_cons; split; [lia|]). apply Forall_nil_2.
  - rewrite Hcsh. cbn [foldr numel].
    pose proof (Nat.div_le_lower_bound ts 4 1 ltac:(lia) ltac:(lia)).
    intros Heq. apply Hds. rewrite !Nat2Z.inj_mul in Heq.
    apply (Z.mul_reg_l _ _ (Z.of_nat bs * Z.of_nat (4 * (ts / 4)))); lia.
Qed.

(** X6.  The output dimension must be [(freq_dim div 4) * 128]: with any
    other non-negative [out_dim] (416 for 13 coefficients, say), [forward]
    raises the [RuntimeError] of its last [view] on every non-empty batch of
    at least 4 frames. *)
Theorem VGGExtractor_forward_out_dim_mismatch (self : VGGExtractor.instance A)
    (feature : tensor A) (feat_len : list Z) (bs ts ds : nat) :
  VGGExtractor.extractor self
    = VGGExtractor.extractor_layers (VGGExtractor.in_channel self) →
  0 ≤ VGGExtractor.in_channel self →
  4 ≤ VGGExtractor.freq_dim self →
  0 ≤ VGGExtractor.out_dim self →
  VGGExtractor.out_dim self ≠ (VGGExtractor.freq_dim self / 4) * 128 →
  shape feature = [bs; ts; ds] →
  Z.of_nat ds = VGGExtractor.in_channel self * VGGExtractor.freq_dim self →
  wf feature →
  (0 < bs)%nat →
  (4 ≤ ts)%nat →
  VGGExtractor.forward self feature feat_len
  = Raise (RuntimeError "shape is invalid for input size").
Proof.
  intros Hext Hic Hfd Hod Hneq Hsh Hds Hwf Hbs Hts.
  destruct (forward_shape self feature feat_len bs ts ds) as (y & Hy & Hfwd);
    [done..|].
  rewrite Hfwd. unfold view. rewrite view_shape_mismatch; [done| |].
  - repeat (apply Forall_cons; split; [lia|]). apply Forall_nil_2.
  - rewrite Hy. cbn [foldr numel]. rewrite !Nat2Z.inj_mul.
    rewrite Z2Nat.id by (apply Z.div_pos; lia).
    pose proof (Nat.div_le_lower_bound ts 4 1 ltac:(lia) ltac:(lia)).
    change (Z.of_nat 128) with 128. change (Z.of_nat 1) with 1.
    intros Heq. apply Hneq.
    apply (Z.mul_reg_l _ _ (Z.of_nat bs * Z.of_nat (ts / 4))); lia.
Qed.

End VGGExtractorLayout.

(** ** More on [RNNLayer] *)

Section RNNLayerMore.

Context {A : Type} `{Numerics A}.

(** The downsampling of style ["drop"] for any rate above 1. *)
Lemma RNNLayer_drop_downsampling_aux (self : RNNLayer.instance A)
    (output : tensor A) (x_len : list Z) (bs ts f s : nat) :
  RNNLayer.sample_rate self = Z.of_nat s →
  (1 < s)%nat →
  RNNLayer.sample_style self = "drop" →
  shape output = [bs; ts; f] →
  wf output →
  ∃ out,
    RNNLayer.downsampling self output x_len
    = Return (out, (λ n, n / Z.of_nat s) <$> x_len)
    ∧ shape out = [bs; ((ts + s - 1) / s)%nat; f]
    ∧ (∀ b j d, (b < bs)%nat → (j < (ts + s - 1) / s)%nat → (d < f)%nat →
         get out [b; j; d] = get output [b; (j * s)%nat; d])
    ∧ ((ts mod s ≠ 0)%nat → ((ts + s - 1) / s = ts / s + 1)%nat).
Proof.
  intros Hrate Hs Hstyle Hsh Hwf.
  set (g := λ idx : list nat, match idx with
                              | i :: j :: r => i :: (j * s)%nat :: r
                              | _ => idx
                              end).
  assert (∀ j, (j < (ts + s - 1) / s)%nat → (j * s < ts)%nat) as Hstep.
  { intros j Hj. pose proof (Nat.Div0.mul_div_le (ts + s - 1) s). nia. }
  exists (gather [bs; ((ts + s - 1) / s)%nat; f] g output).
  split; [|split; [done|split]].
  - unfold RNNLayer.downsampling. rewrite Hrate, Hstyle, Hsh.
    rewrite bool_decide_eq_true_2 by lia.
    unfold floordiv. destruct (Z.eqb_spec (Z.of_nat s) 0); [lia|].
    cbn [mbind result_bind]. rewrite bool_decide_eq_true_2 by done.
    unfold slice1_step. rewrite Hsh.
    destruct (Z.leb_spec (Z.of_nat s) 0); [lia|].
    cbn [mbind result_bind]. by rewrite Nat2Z.id.
  - intros b j d Hb Hj Hd.
    rewrite gather_get; [done|done| |apply in_range3; lia].
    intros i (i0 & i1 & i2 & -> & ?)%in_range3_inv.
    rewrite Hsh. apply in_range3. specialize (Hstep i1). lia.
  - intros Hrem.
    pose proof (Nat.div_mod_eq ts s) as Hdm.
    pose proof (Nat.mod_upper_bound ts s ltac:(lia)) as Hmod.
    symmetry. apply (Nat.div_unique _ _ _ (ts mod s - 1)); lia.
Qed.

(** X7.  Style ["drop"] with rate [s > 1] keeps the time steps [0, s, 2s,
    ...]: the output has [⌈ts / s⌉] steps, step [j] being step [j * s] of
    the input, while every length is divided by [s] rounding down.  No
    trailing step is cut off, so when [s] does not divide [ts] the output
    has one step more than [ts div s]. *)
Theorem RNNLayer_drop_downsampling (self : RNNLayer.instance A)
    (output : tensor A) (x_len : list Z) (bs ts f s : nat) :
  RNNLayer.sample_rate self = Z.of_nat s →
  (1 < s)%nat →
  RNNLayer.sample_style self = "drop" →
  shape output = [bs; ts; f] →
  wf output →
  ∃ out,
    RNNLayer.downsampling self output x_len
    = Return (out, (λ n, n / Z.of_nat s) <$> x_len)
    ∧ shape out = [bs; ((ts + s - 1) / s)%nat; f]
    ∧ (∀ b j d, (b < bs)%nat → (j < (ts + s - 1) / s)%nat → (d < f)%nat →
         get out [b; j; d] = get output [b; (j * s)%nat; d])
    ∧ ((ts mod s ≠ 0)%nat → ((ts + s - 1) / s = ts / s + 1)%nat).
Proof. exact (RNNLayer_drop_downsampling_aux self output x_len bs ts f s). Qed.

(** The downsampling of style ["concat"], or of any style other than
    ["drop"], for any rate above 1. *)
Lemma downsampling_concat (self : RNNLayer.instance A)
    (output : tensor A) (x_len : list Z) (bs ts f s : nat) :
  RNNLayer.sample_rate self = Z.of_nat s →
  (1 < s)%nat →
  RNNLayer.sample_style self ≠ "drop" →
  shape output = [bs; ts; f] →
  wf output →
  Z.of_nat ts < 2 ^ 53 →
  Z.of_nat s < 2 ^ 53 →
  ∃ out,
    RNNLayer.downsampling self output x_len
    = Return (out, (λ n, n / Z.of_nat s) <$> x_len)
    ∧ shape out = [bs; (ts / s)%nat; (f * s)%nat]
    ∧ (∀ b j c, (b < bs)%nat → (j < ts / s)%nat → (c < f * s)%nat →
         get out [b; j; c]
         = get output [b; (j * s + c / f)%nat; (c mod f)%nat]).
Proof.
  intros Hrate Hs Hstyle Hsh Hwf Hts53 Hs53.
  pose proof (Nat.div_mod_eq ts s) as Hdm.
  pose proof (Nat.mod_upper_bound ts s ltac:(lia)) as Hmod.
  set (k := (s * (ts / s))%nat) in *.
  assert (Z.of_nat ts mod Z.of_nat s = Z.of_nat (ts mod s)) as HZ
    by (by rewrite Nat2Z.inj_mod).
  (* the truncated tensor *)
  assert (∃ truncated,
    (if bool_decide (Z.of_nat ts mod Z.of_nat s ≠ 0)
     then slice1_stop output (- (Z.of_nat ts mod Z.of_nat s))
     else Return output) = Return truncated
    ∧ shape truncated = [bs; k; f] ∧ wf truncated
    ∧ ∀ b t d, (b < bs)%nat → (t < k)%nat → (d < f)%nat →
        get truncated [b; t; d] = get output [b; t; d])
    as (truncated & Htr & Htsh & Htwf & Htget).
  { case_bool_decide as Hrem.
    - unfold slice1_stop. rewrite Hsh.
      rewrite slice_stop_remainder by lia.
      assert (Z.to_nat (Z.of_nat ts - Z.of_nat ts mod Z.of_nat s) = k) as -> by lia.
      eexists. split; [done|]. split; [done|].
      split; [apply (slice_prefix_wf _ bs ts f); [done|done|lia]|].
      intros b t d Hb Ht Hd.
      apply (slice_prefix_get output bs ts f); [done|done|lia|done|done|done].
    - exists output. split; [done|]. assert (k = ts) as -> by lia. done. }
  exists (Tensor [bs; (ts / s)%nat; (f * s)%nat] (data truncated)).
  split; [|split; [done|]].
  - unfold RNNLayer.downsampling. rewrite Hrate, Hsh.
    rewrite bool_decide_eq_true_2 by lia.
    unfold floordiv. destruct (Z.eqb_spec (Z.of_nat s) 0); [lia|].
    cbn [mbind result_bind]. rewrite bool_decide_eq_false_2 by done.
    rewrite Htr. cbn [mbind result_bind].
    rewrite int_truediv_floor by lia. cbn [mbind result_bind].
    rewrite view_nonneg.
    + cbn [fmap list_fmap mbind result_bind]. rewrite Nat2Z.id.
      rewrite <- Nat2Z.inj_div, <- Nat2Z.inj_mul, !Nat2Z.id. done.
    + assert (0 ≤ Z.of_nat ts / Z.of_nat s) by (apply Z.div_pos; lia).
      repeat (apply Forall_cons; split; [lia|]). apply Forall_nil_2.
    + rewrite Htsh. cbn [foldr numel].
      rewrite <- Nat2Z.inj_div, <- !Nat2Z.inj_mul. f_equal. unfold k. lia.
  - intros b j c Hb Hj Hc.
    assert (0 < f)%nat as Hf by nia.
    pose proof (Nat.div_mod_eq c f) as Hcdm.
    pose proof (Nat.mod_upper_bound c f ltac:(lia)) as Hcmod.
    assert (c / f < s)%nat as Hq
      by (apply Nat.Div0.div_lt_upper_bound; lia).
    assert (j * s + c / f < k)%nat as Hjk by (unfold k; nia).
    rewrite <- Htget by lia.
    unfold get. cbn [shape data]. rewrite Htsh.
    rewrite !bool_decide_eq_true_2 by (apply in_range3; lia).
    f_equal. cbn [offset numel foldr]. nia.
Qed.

(** X8.  Style ["concat"] for any rate [s > 1] and any number of steps
    (both below [2^53]): the trailing [ts mod s] steps are cut off, output
    step [j] is steps [j*s, ..., j*s + s - 1] of the input side by side, in
    order, the width is multiplied by [s], and every length is divided by
    [s] rounding down. *)
Theorem RNNLayer_concat_downsampling_general (self : RNNLayer.instance A)
    (output : tensor A) (x_len : list Z) (bs ts f s : nat) :
  RNNLayer.sample_rate self = Z.of_nat s →
  (1 < s)%nat →
  RNNLayer.sample_style self = "concat" →
  shape output = [bs; ts; f] →
  wf output →
  Z.of_nat ts < 2 ^ 53 →
  Z.of_nat s < 2 ^ 53 →
  ∃ out,
    RNNLayer.downsampling self output x_len
    = Return (out, (λ n, n / Z.of_nat s) <$> x_len)
    ∧ shape out = [bs; (ts / s)%nat; (f * s)%nat]
    ∧ (∀ b j c, (b < bs)%nat → (j < ts / s)%nat → (c < f * s)%nat →
         get out [b; j; c]
         = get output [b; (j * s + c / f)%nat; (c mod f)%nat]).
Proof.
  intros Hrate Hs Hstyle. apply downsampling_concat; [done|done|].
  by rewrite Hstyle.
Qed.

End RNNLayerMore.

Section RNNLayerConstruction.

Context {A : Type} `{Numerics A}.

(** X9.  The style is validated before any free name is read: in any globals
    in which the class is bound, a style other than ["drop"] and ["concat"]
    makes the constructor raise [ValueError] with the message
    ["Unsupported Sample Style: "] followed by the style. *)
Theorem RNNLayer_unsupported_style (G : gmap string (value A))
    (input_dim : Z) (module : string) (dim : Z) (bidirection : bool)
    (dropout : A) (layer_norm : bool) (sample_rate : Z) (sample_style : string) :
  G !! "RNNLayer" = Some (VClass "RNNLayer") →
  sample_style ≠ "drop" →
  sample_style ≠ "concat" →
  RNNLayer.new G input_dim module dim bidirection dropout layer_norm
               sample_rate sample_style
  = Raise (ValueError ("Unsupported Sample Style: " +:+ sample_style)).
Proof.
  intros Hcls Hdrop Hconcat.
  unfold RNNLayer.new, instantiate, RNNLayer.__init__, lookup_name.
  rewrite Hcls. cbn [mbind result_bind].
  rewrite bool_decide_eq_true_2; [done|].
  intros Hin. apply elem_of_cons in Hin as [?|Hin]; [done|].
  apply elem_of_cons in Hin as [?|Hin]; [done|].
  by apply elem_of_nil in Hin.
Qed.

(** The constructor in globals that bind [rnn_cell] and [in_dim]: what is
    left are the checks that the constructors of the library make. *)
Lemma new_with_cell_bound (cell : string) (in_dim : Z)
    (input_dim : Z) (module : string) (dim : Z) (bidirection : bool)
    (dropout : A) (layer_norm : bool) (sample_rate : Z) (sample_style : string) :
  upper cell ∈ ["RNN"; "LSTM"; "GRU"] →
  sample_style = "drop" ∨ sample_style = "concat" →
  RNNLayer.new
    (<["in_dim" := VInt in_dim]> (<["rnn_cell" := VStr cell]> module_globals))
    input_dim module dim bidirection dropout layer_norm sample_rate sample_style
  = (if bool_decide (dim ≤ 0)
     then Raise (ValueError "hidden_size must be greater than zero")
     else if bool_decide (in_dim ≤ 0)
     then Raise (ValueError "input_size must be greater than zero")
     else if fpositive dropout && negb (fprobability dropout)
     then Raise (ValueError "dropout probability has to be between 0 and 1, but got ")
     else
       Return
         (RNNLayer.Instance
            (RNNLayer.exposed_dim dim bidirection sample_rate sample_style)
            dropout layer_norm sample_rate sample_style
            (RNNLayer.Recurrent (upper cell) in_dim dim bidirection)
            (if layer_norm
             then Some (LayerNorm (RNNLayer.rnn_out_dim dim bidirection))
             else None)
            (if fpositive dropout then Some (Dropout dropout) else None))).
Proof.
  intros Hcell Hstyle.
  assert (upper cell ∈ torch_nn_names installed) as Hnn.
  { apply elem_of_cons in Hcell as [->|Hcell]; [set_solver|].
    apply elem_of_cons in Hcell as [->|Hcell]; [set_solver|].
    apply elem_of_cons in Hcell as [->|Hcell]; [set_solver|].
    by apply elem_of_nil in Hcell. }
  unfold RNNLayer.new, instantiate, RNNLayer.__init__.
  rewrite !(lookup_name_insert_ne _ _ "RNNLayer") by done.
  rewrite class_bound_RNNLayer. cbn [mbind result_bind].
  rewrite bool_decide_eq_false_2.
  2:{ intros Hnot. apply Hnot. destruct Hstyle as [-> | ->]; set_solver. }
  rewrite !(lookup_name_insert_ne _ _ "nn") by done.
  rewrite nn_bound. cbn [mbind result_bind].
  rewrite (lookup_name_insert_ne _ "in_dim" "rnn_cell") by done.
  rewrite !lookup_name_insert_eq. cbn [mbind result_bind str_upper getattr_module].
  rewrite bool_decide_eq_true_2 by done. cbn [mbind result_bind].
  unfold RNNLayer.make_recurrent.
  rewrite bool_decide_eq_true_2 by done.
  case_bool_decide; [done|]. cbn [mbind result_bind].
  case_bool_decide; [done|]. cbn [mbind result_bind].
  unfold nn_layer, RNNLayer.make_dropout.
  rewrite !global_attr_insert_ne by done.
  rewrite !nn_attr_module_globals by set_solver.
  destruct layer_norm, (fpositive dropout), (fprobability dropout); done.
Qed.


(** X11.  The attribute [out_dim] that the constructor stores is the width
    that the downsampling of [forward] produces: for the instance built in
    globals binding [rnn_cell] and [in_dim] (sizes accepted by the library),
    and an output of the recurrence of width [rnn_out_dim], the last axis of
    the downsampled tensor is [out_dim], for both styles; the number of steps
    and the rate are below [2^53]. *)
Theorem RNNLayer_out_dim_is_the_output_width (cell : string) (in_dim : Z)
    (input_dim : Z) (module : string) (dim : Z) (bidirection : bool)
    (dropout : A) (layer_norm : bool) (sample_rate : Z) (sample_style : string)
    (output : tensor A) (x_len : list Z) (bs ts w : nat) :
  upper cell ∈ ["RNN"; "LSTM"; "GRU"] →
  sample_style = "drop" ∨ sample_style = "concat" →
  0 < in_dim →
  0 < dim →
  (fpositive dropout = true → fprobability dropout = true) →
  Z.of_nat w = RNNLayer.rnn_out_dim dim bidirection →
  shape output = [bs; ts; w] →
  wf output →
  Z.of_nat ts < 2 ^ 53 →
  sample_rate < 2 ^ 53 →
  let G := <["in_dim" := VInt in_dim]> (<["rnn_cell" := VStr cell]> module_globals) in
  ∃ self out lens,
    RNNLayer.new G input_dim module dim bidirection dropout layer_norm
                 sample_rate sample_style
    = Return self
    ∧ RNNLayer.downsampling self output x_len = Return (out, lens)
    ∧ length lens = length x_len
    ∧ last (shape out) = Some (Z.to_nat (RNNLayer.out_dim self)).
Proof.
  intros Hcell Hstyle Hin Hdim Hdp Hw Hsh Hwf Hts Hrate G. unfold G.
  rewrite (new_with_cell_bound cell in_dim input_dim module dim bidirection dropout
             layer_norm sample_rate sample_style Hcell Hstyle).
  rewrite !bool_decide_eq_false_2 by lia.
  assert (fpositive dropout && negb (fprobability dropout) = false) as ->.
  { destruct (fpositive dropout); [|done]. by rewrite Hdp. }
  set (self := RNNLayer.Instance _ _ _ _ _ _ _ _).
  assert (RNNLayer.sample_rate self = sample_rate) as Hrate_self by done.
  assert (RNNLayer.sample_style self = sample_style) as Hstyle_self by done.
  assert (RNNLayer.out_dim self
          = RNNLayer.exposed_dim dim bidirection sample_rate sample_style)
    as Hout_self by done.
  clearbody self.
  exists self. rewrite Hout_self.
  unfold RNNLayer.exposed_dim. rewrite <- Hw.
  destruct (decide (1 < sample_rate)) as [Hgt|Hle].
  - assert (sample_rate = Z.of_nat (Z.to_nat sample_rate)) as Hs
      by (rewrite Z2Nat.id; lia).
    set (s := Z.to_nat sample_rate) in *.
    rewrite (bool_decide_eq_true_2 (1 < _)) by lia.
    destruct Hstyle as [Hdrop|Hconcat].
    + destruct (RNNLayer_drop_downsampling_aux self output x_len bs ts w s)
        as (out & Hout & Hosh & _);
        [by rewrite Hrate_self|lia|by rewrite Hstyle_self|done|done|].
      exists out, ((λ n, n / Z.of_nat s) <$> x_len).
      split; [done|]. split; [done|]. split; [by rewrite length_fmap|].
      rewrite Hosh, Hdrop. rewrite bool_decide_eq_false_2 by done.
      cbn. by rewrite Nat2Z.id.
    + destruct (downsampling_concat self output x_len bs ts w s)
        as (out & Hout & Hosh & _);
        [by rewrite Hrate_self|lia|by rewrite Hstyle_self, Hconcat|done|done|done|lia|].
      exists out, ((λ n, n / Z.of_nat s) <$> x_len).
      split; [done|]. split; [done|]. split; [by rewrite length_fmap|].
      rewrite Hosh, Hconcat. rewrite bool_decide_eq_true_2 by done.
      cbn. f_equal. lia.
  - exists output, x_len. split; [done|]. split; [|split; [done|]].
    + unfold RNNLayer.downsampling. rewrite Hrate_self.
      by rewrite bool_decide_eq_false_2.
    + rewrite Hsh. rewrite bool_decide_eq_false_2 by done.
      cbn. by rewrite Nat2Z.id.
Qed.

End RNNLayerConstruction.

(** ** More on [LocationAwareAttention] *)

Section LazyInitMore.

Context {A : Type} `{Numerics A}.

Lemma slice_stop_positive (n j : nat) (stop : Z) :
  0 < stop → (j < n)%nat → (j < slice_stop n stop)%nat ↔ Z.of_nat j < stop.
Proof.
  intros Hstop Hj. unfold slice_stop.
  destruct (Z.ltb_spec stop 0); lia.
Qed.

(** The assignment [t[i, :, :stop] = c]. *)
Lemma fill_row_prefix_spec (t : tensor A) (b n w i : nat) (stop : Z) (c : A) :
  shape t = [b; n; w] → wf t → (i < b)%nat →
  ∃ t',
    fill_row_prefix t (Z.of_nat i) stop c = Return t'
    ∧ shape t' = [b; n; w] ∧ wf t'
    ∧ ∀ i0 h j, (i0 < b)%nat → (h < n)%nat → (j < w)%nat →
        get t' [i0; h; j]
        = if bool_decide (i0 = i ∧ j < slice_stop w stop)%nat
          then Some c else get t [i0; h; j].
Proof.
  intros Hsh Hwf Hi. unfold fill_row_prefix. rewrite Hsh.
  rewrite bool_decide_eq_true_2 by lia.
  destruct (Z.ltb_spec (Z.of_nat i) 0); [lia|]. rewrite Nat2Z.id.
  eexists. split; [done|]. split; [done|]. split.
  - unfold wf. cbn [shape data]. rewrite length_zip_with, length_indices.
    unfold wf in Hwf. rewrite Hsh in Hwf. lia.
  - intros i0 h j Hi0 Hh Hj. unfold get. cbn [shape data]. rewrite Hsh.
    assert (in_range [b; n; w] [i0; h; j]) as Hr by (apply in_range3; lia).
    rewrite !bool_decide_eq_true_2 by done.
    rewrite lookup_zip_with, indices_lookup by done. cbn [mbind option_bind].
    destruct (lookup_lt_is_Some_2 (data t) (offset [b; n; w] [i0; h; j]))
      as [y Hy].
    { unfold wf in Hwf. rewrite Hwf, Hsh. by apply offset_lt. }
    rewrite Hy. cbn [mbind option_bind]. by case_bool_decide.
Qed.

(** The loop of line 160-161 over positive lengths, from row [idx] on. *)
Lemma init_rows_spec (s0 : LocationAwareAttention.instance A) (b n w : nat)
    (items : list Z) :
  Forall (λ sl, 0 < sl) items →
  ∀ (idx : nat) (p : tensor A),
    shape p = [b; n; w] → wf p → (idx + length items ≤ b)%nat →
    ∃ p',
      LocationAwareAttention.init_rows idx (VInt <$> items)
        (LocationAwareAttention.set_prev_att (Some p) s0)
      = (LocationAwareAttention.set_prev_att (Some p') s0, Return tt)
      ∧ shape p' = [b; n; w] ∧ wf p'
      ∧ ∀ i h j, (i < b)%nat → (h < n)%nat → (j < w)%nat →
          get p' [i; h; j]
          = match (if bool_decide (idx ≤ i)%nat then items !! (i - idx)%nat
                   else None) with
            | Some sl => if bool_decide (Z.of_nat j < sl)
                         then Some (frecip sl) else get p [i; h; j]
            | None => get p [i; h; j]
            end.
Proof.
  induction 1 as [|sl items Hsl Hitems IH]; intros idx p Hsh Hwf Hlen.
  - exists p. split; [done|]. split; [done|]. split; [done|].
    intros i h j _ _ _. case_bool_decide; [|done]. by rewrite lookup_nil.
  - cbn [length] in Hlen.
    destruct (fill_row_prefix_spec p b n w idx sl (frecip sl) Hsh Hwf ltac:(lia))
      as (p1 & Hfill & Hsh1 & Hwf1 & Hget1).
    destruct (IH (S idx) p1 Hsh1 Hwf1 ltac:(lia))
      as (p' & Hrun & Hsh' & Hwf' & Hget').
    exists p'. split; [|split; [done|split; [done|]]].
    + cbn [fmap list_fmap LocationAwareAttention.init_rows].
      unfold st_bind at 1. unfold LocationAwareAttention.init_row.
      unfold st_bind at 1. unfold st_lift at 1. cbn [as_int].
      unfold st_bind at 1. unfold st_lift at 1.
      destruct (Z.eqb_spec sl 0); [lia|].
      unfold st_bind at 1. unfold st_get at 1.
      unfold st_bind at 1. unfold st_lift at 1.
      cbn [LocationAwareAttention.prev_att LocationAwareAttention.set_prev_att].
      rewrite Hfill. unfold st_put. exact Hrun.
    + intros i h j Hi Hh Hj. rewrite Hget' by done. rewrite Hget1 by done.
      pose proof (slice_stop_positive w j sl Hsl Hj) as Hstop.
      destruct (decide (i = idx)) as [->|Hne].
      * rewrite (bool_decide_eq_false_2 (S idx ≤ idx)%nat) by lia.
        rewrite (bool_decide_eq_true_2 (idx ≤ idx)%nat) by lia.
        rewrite Nat.sub_diag. cbn [lookup list_lookup].
        repeat case_bool_decide; try done; lia.
      * rewrite (bool_decide_eq_false_2 (i = idx ∧ _)) by lia.
        destruct (decide (idx ≤ i)%nat) as [Hle|Hgt].
        -- rewrite !bool_decide_eq_true_2 by lia.
           replace (i - idx)%nat with (S (i - S idx)) by lia. done.
        -- by rewrite !bool_decide_eq_false_2 by lia.
Qed.

(** X12.  Lines 159-161 with [bs] and [enc_len] bound: for positive
    lengths, no more of them than [bs], [prev_att] becomes a tensor of shape
    [(bs, num_head, ts)] in which row [i], for every head, holds [1.0 / sl]
    on the positions below [sl = enc_len[i]] and [0] from there on; batch
    items without a length keep a row of zeros. *)
Theorem LocationAwareAttention_uniform_init
    (self : LocationAwareAttention.instance A) (b n w : nat) (lens : list Z) :
  LocationAwareAttention.num_head self = Z.of_nat n →
  Forall (λ sl, 0 < sl) lens →
  (length lens ≤ b)%nat →
  let G := <["bs" := VInt (Z.of_nat b)]>
             (<["enc_len" := VList (VInt <$> lens)]> module_globals) in
  ∃ p,
    LocationAwareAttention.init_prev_att G (Z.of_nat w) self
    = (LocationAwareAttention.set_prev_att (Some p) self, Return tt)
    ∧ shape p = [b; n; w]
    ∧ ∀ i h j, (i < b)%nat → (h < n)%nat → (j < w)%nat →
        get p [i; h; j]
        = Some (match lens !! i with
                | Some sl => if bool_decide (Z.of_nat j < sl)
                             then frecip sl else fzero
                | None => fzero
                end).
Proof.
  intros Hn Hpos Hlen G.
  set (z := Tensor [b; n; w] (replicate (numel [b; n; w]) fzero)).
  assert (wf z) as Hzwf by (unfold wf, z; cbn [shape data]; apply length_replicate).
  assert (∀ i h j, (i < b)%nat → (h < n)%nat → (j < w)%nat →
            get z [i; h; j] = Some fzero) as Hzget.
  { intros i h j Hi Hh Hj. unfold get, z. cbn [shape data].
    rewrite bool_decide_eq_true_2 by (apply in_range3; lia).
    apply lookup_replicate_2. apply offset_lt. apply in_range3. lia. }
  destruct (init_rows_spec self b n w lens Hpos 0 z eq_refl Hzwf ltac:(lia))
    as (p & Hrun & Hsh & Hwf & Hget).
  exists p. split; [|split; [done|]].
  - unfold LocationAwareAttention.init_prev_att, G.
    unfold st_bind at 1. unfold st_lift at 1.
    rewrite !global_attr_insert_ne by done.
    rewrite torch_attr_module_globals by set_solver.
    unfold st_bind at 1. unfold st_lift at 1.
    rewrite lookup_name_insert_eq.
    unfold st_bind at 1. unfold st_get at 1.
    unfold st_bind at 1. unfold st_lift at 1.
    cbn [mbind result_bind as_int]. rewrite Hn. unfold zeros.
    rewrite bool_decide_eq_false_2.
    2:{ rewrite Exists_exists. intros (x & Hx & Hlt).
        repeat (apply elem_of_cons in Hx as [->|Hx]; [lia|]).
        by apply elem_of_nil in Hx. }
    cbn [fmap list_fmap]. rewrite !Nat2Z.id. fold z.
    unfold st_bind at 1. unfold st_put at 1.
    unfold st_bind at 1. unfold st_lift at 1.
    rewrite lookup_name_insert_ne by done. rewrite lookup_name_insert_eq.
    unfold st_bind at 1. unfold st_lift at 1.
    cbn [LocationAwareAttention.iterate]. exact Hrun.
  - intros i h j Hi Hh Hj. rewrite Hget by done.
    rewrite bool_decide_eq_true_2 by lia. rewrite Nat.sub_0_r.
    rewrite Hzget by done.
    destruct (lens !! i) as [sl|]; [|done]. by case_bool_decide.
Qed.

End LazyInitMore.

Section AttentionStateMore.

Context {A : Type} `{Numerics A}.

Lemma init_rows_app (l1 l2 : list (value A)) :
  ∀ (idx : nat) (s : LocationAwareAttention.instance A),
    LocationAwareAttention.init_rows idx (l1 ++ l2) s
    = match LocationAwareAttention.init_rows idx l1 s with
      | (s', Return _) => LocationAwareAttention.init_rows (idx + length l1) l2 s'
      | (s', Raise e) => (s', Raise e)
      end.
Proof.
  induction l1 as [|x l1 IH]; intros idx s.
  - cbn. by rewrite Nat.add_0_r.
  - cbn [app LocationAwareAttention.init_rows length]. unfold st_bind.
    destruct (LocationAwareAttention.init_row idx x s) as [s1 [u|e]]; [|done].
    rewrite IH. by replace (idx + S (length l1))%nat with (S idx + length l1)%nat by lia.
Qed.

(** X13.  With [enc_len] bound to a Python list of integers, a length of
    zero stops the lazy initialisation half-way: [1.0/sl] raises
    [ZeroDivisionError] when the rows of the lengths before it are already
    written and [prev_att] is no longer [None], so a later call of [forward]
    does not initialise again. *)
Theorem LocationAwareAttention_zero_length_leaves_partial_state
    (self : LocationAwareAttention.instance A) (b n w : nat)
    (before after : list Z) :
  LocationAwareAttention.num_head self = Z.of_nat n →
  Forall (λ sl, 0 < sl) before →
  (length before < b)%nat →
  let G := <["bs" := VInt (Z.of_nat b)]>
             (<["enc_len" := VList (VInt <$> (before ++ 0 :: after))]> module_globals) in
  ∃ p,
    LocationAwareAttention.init_prev_att G (Z.of_nat w) self
    = (LocationAwareAttention.set_prev_att (Some p) self, Raise ZeroDivisionError)
    ∧ LocationAwareAttention.prev_att
        (LocationAwareAttention.init_prev_att G (Z.of_nat w) self).1 ≠ None
    ∧ shape p = [b; n; w]
    ∧ ∀ i h j, (i < b)%nat → (h < n)%nat → (j < w)%nat →
        get p [i; h; j]
        = Some (match before !! i with
                | Some sl => if bool_decide (Z.of_nat j < sl)
                             then frecip sl else fzero
                | None => fzero
                end).
Proof.
  intros Hn Hpos Hlen G.
  set (z := Tensor [b; n; w] (replicate (numel [b; n; w]) fzero)).
  assert (wf z) as Hzwf by (unfold wf, z; cbn [shape data]; apply length_replicate).
  assert (∀ i h j, (i < b)%nat → (h < n)%nat → (j < w)%nat →
            get z [i; h; j] = Some fzero) as Hzget.
  { intros i h j Hi Hh Hj. unfold get, z. cbn [shape data].
    rewrite bool_decide_eq_true_2 by (apply in_range3; lia).
    apply lookup_replicate_2. apply offset_lt. apply in_range3. lia. }
  destruct (init_rows_spec self b n w before Hpos 0 z eq_refl Hzwf ltac:(lia))
    as (p & Hrun & Hsh & Hwf & Hget).
  assert (LocationAwareAttention.init_prev_att G (Z.of_nat w) self
          = (LocationAwareAttention.set_prev_att (Some p) self,
             Raise ZeroDivisionError)) as Hinit.
  { unfold LocationAwareAttention.init_prev_att, G.
    unfold st_bind at 1. unfold st_lift at 1.
    rewrite !global_attr_insert_ne by done.
    rewrite torch_attr_module_globals by set_solver.
    unfold st_bind at 1. unfold st_lift at 1.
    rewrite lookup_name_insert_eq.
    unfold st_bind at 1. unfold st_get at 1.
    unfold st_bind at 1. unfold st_lift at 1.
    cbn [mbind result_bind as_int]. rewrite Hn. unfold zeros.
    rewrite bool_decide_eq_false_2.
    2:{ rewrite Exists_exists. intros (x & Hx & Hlt).
        repeat (apply elem_of_cons in Hx as [->|Hx]; [lia|]).
        by apply elem_of_nil in Hx. }
    cbn [fmap list_fmap]. rewrite !Nat2Z.id. fold z.
    unfold st_bind at 1. unfold st_put at 1.
    unfold st_bind at 1. unfold st_lift at 1.
    rewrite lookup_name_insert_ne by done. rewrite lookup_name_insert_eq.
    unfold st_bind at 1. unfold st_lift at 1.
    cbn [LocationAwareAttention.iterate].
    rewrite fmap_app, init_rows_app, Hrun.
    cbn [fmap list_fmap LocationAwareAttention.init_rows].
    unfold st_bind at 1. unfold LocationAwareAttention.init_row.
    unfold st_bind at 1. unfold st_lift at 1. cbn [as_int].
    unfold st_bind at 1. unfold st_lift at 1. done. }
  exists p. split; [exact Hinit|]. split; [by rewrite Hinit|]. split; [done|].
  intros i h j Hi Hh Hj. rewrite Hget by done.
  rewrite bool_decide_eq_true_2 by lia. rewrite Nat.sub_0_r.
  rewrite Hzget by done.
  destruct (before !! i) as [sl|]; [|done]. by case_bool_decide.
Qed.

Lemma slice_stop_nonneg (n j : nat) (stop : Z) :
  0 ≤ stop → (j < n)%nat → (j < slice_stop n stop)%nat ↔ Z.of_nat j < stop.
Proof.
  intros Hstop Hj. unfold slice_stop.
  destruct (Z.ltb_spec stop 0); lia.
Qed.

(** The loop of line 160-161 over the items of an integer tensor, from row
    [idx] on. *)
Lemma init_rows_tensor_spec (s0 : LocationAwareAttention.instance A) (b n w : nat)
    (items : list Z) :
  Forall (λ sl, 0 ≤ sl) items →
  ∀ (idx : nat) (p : tensor A),
    shape p = [b; n; w] → wf p → (idx + length items ≤ b)%nat →
    ∃ p',
      LocationAwareAttention.init_rows idx (VLong <$> items)
        (LocationAwareAttention.set_prev_att (Some p) s0)
      = (LocationAwareAttention.set_prev_att (Some p') s0, Return tt)
      ∧ shape p' = [b; n; w] ∧ wf p'
      ∧ ∀ i h j, (i < b)%nat → (h < n)%nat → (j < w)%nat →
          get p' [i; h; j]
          = match (if bool_decide (idx ≤ i)%nat then items !! (i - idx)%nat
                   else None) with
            | Some sl => if bool_decide (Z.of_nat j < sl)
                         then Some (ftensor_recip sl) else get p [i; h; j]
            | None => get p [i; h; j]
            end.
Proof.
  induction 1 as [|sl items Hsl Hitems IH]; intros idx p Hsh Hwf Hlen.
  - exists p. split; [done|]. split; [done|]. split; [done|].
    intros i h j _ _ _. case_bool_decide; [|done]. by rewrite lookup_nil.
  - cbn [length] in Hlen.
    destruct (fill_row_prefix_spec p b n w idx sl (ftensor_recip sl) Hsh Hwf ltac:(lia))
      as (p1 & Hfill & Hsh1 & Hwf1 & Hget1).
    destruct (IH (S idx) p1 Hsh1 Hwf1 ltac:(lia))
      as (p' & Hrun & Hsh' & Hwf' & Hget').
    exists p'. split; [|split; [done|split; [done|]]].
    + cbn [fmap list_fmap LocationAwareAttention.init_rows].
      unfold st_bind at 1. unfold LocationAwareAttention.init_row.
      unfold st_bind at 1. unfold st_lift at 1. cbn [as_int].
      unfold st_bind at 1. unfold st_lift at 1.
      unfold st_bind at 1. unfold st_get at 1.
      unfold st_bind at 1. unfold st_lift at 1.
      cbn [LocationAwareAttention.prev_att LocationAwareAttention.set_prev_att].
      rewrite Hfill. unfold st_put. exact Hrun.
    + intros i h j Hi Hh Hj. rewrite Hget' by done. rewrite Hget1 by done.
      pose proof (slice_stop_nonneg w j sl Hsl Hj) as Hstop.
      destruct (decide (i = idx)) as [->|Hne].
      * rewrite (bool_decide_eq_false_2 (S idx ≤ idx)%nat) by lia.
        rewrite (bool_decide_eq_true_2 (idx ≤ idx)%nat) by lia.
        rewrite Nat.sub_diag. cbn [lookup list_lookup].
        repeat case_bool_decide; try done; lia.
      * rewrite (bool_decide_eq_false_2 (i = idx ∧ _)) by lia.
        destruct (decide (idx ≤ i)%nat) as [Hle|Hgt].
        -- rewrite !bool_decide_eq_true_2 by lia.
           replace (i - idx)%nat with (S (i - S idx)) by lia. done.
        -- by rewrite !bool_decide_eq_false_2 by lia.
Qed.

(** X16.  With [enc_len] bound to an integer tensor of one axis the loop
    divides by tensors, not by Python integers: for non-negative lengths, no
    more of them than [bs], the lazy initialisation raises nothing, a length
    of 0 included.  Row [i] holds the quotient [1.0 / enc_len[i]] on the
    positions below [enc_len[i]] and [0] from there on, so the row of a
    zero length stays all zeros. *)
Theorem LocationAwareAttention_tensor_lengths_init
    (self : LocationAwareAttention.instance A) (b n w : nat) (lens : list Z) :
  LocationAwareAttention.num_head self = Z.of_nat n →
  Forall (λ sl, 0 ≤ sl) lens →
  (length lens ≤ b)%nat →
  let G := <["bs" := VInt (Z.of_nat b)]>
             (<["enc_len" := VLongs lens]> module_globals) in
  ∃ p,
    LocationAwareAttention.init_prev_att G (Z.of_nat w) self
    = (LocationAwareAttention.set_prev_att (Some p) self, Return tt)
    ∧ shape p = [b; n; w]
    ∧ ∀ i h j, (i < b)%nat → (h < n)%nat → (j < w)%nat →
        get p [i; h; j]
        = Some (match lens !! i with
                | Some sl => if bool_decide (Z.of_nat j < sl)
                             then ftensor_recip sl else fzero
                | None => fzero
                end).
Proof.
  intros Hn Hpos Hlen G.
  set (z := Tensor [b; n; w] (replicate (numel [b; n; w]) fzero)).
  assert (wf z) as Hzwf by (unfold wf, z; cbn [shape data]; apply length_replicate).
  assert (∀ i h j, (i < b)%nat → (h < n)%nat → (j < w)%nat →
            get z [i; h; j] = Some fzero) as Hzget.
  { intros i h j Hi Hh Hj. unfold get, z. cbn [shape data].
    rewrite bool_decide_eq_true_2 by (apply in_range3; lia).
    apply lookup_replicate_2. apply offset_lt. apply in_range3. lia. }
  destruct (init_rows_tensor_spec self b n w lens Hpos 0 z eq_refl Hzwf ltac:(lia))
    as (p & Hrun & Hsh & Hwf & Hget).
  exists p. split; [|split; [done|]].
  - unfold LocationAwareAttention.init_prev_att, G.
    unfold st_bind at 1. unfold st_lift at 1.
    rewrite !global_attr_insert_ne by done.
    rewrite torch_attr_module_globals by set_solver.
    unfold st_bind at 1. unfold st_lift at 1.
    rewrite lookup_name_insert_eq.
    unfold st_bind at 1. unfold st_get at 1.
    unfold st_bind at 1. unfold st_lift at 1.
    cbn [mbind result_bind as_int]. rewrite Hn. unfold zeros.
    rewrite bool_decide_eq_false_2.
    2:{ rewrite Exists_exists. intros (x & Hx & Hlt).
        repeat (apply elem_of_cons in Hx as [->|Hx]; [lia|]).
        by apply elem_of_nil in Hx. }
    cbn [fmap list_fmap]. rewrite !Nat2Z.id. fold z.
    unfold st_bind at 1. unfold st_put at 1.
    unfold st_bind at 1. unfold st_lift at 1.
    rewrite lookup_name_insert_ne by done. rewrite lookup_name_insert_eq.
    unfold st_bind at 1. unfold st_lift at 1.
    cbn [LocationAwareAttention.iterate]. exact Hrun.
  - intros i h j Hi Hh Hj. rewrite Hget by done.
    rewrite bool_decide_eq_true_2 by lia. rewrite Nat.sub_0_r.
    rewrite Hzget by done.
    destruct (lens !! i) as [sl|]; [|done]. by case_bool_decide.
Qed.

(** What follows the lazy initialisation in [forward] leaves the instance as
    it finds it. *)
Ltac forward_tail_step :=
  lazymatch goal with
  | |- (st_bind (st_lift (read_local _ None)) _ ?s).1 = ?s => reflexivity
  | |- (st_bind st_get _ ?s).1 = ?s =>
      unfold st_bind at 1; unfold st_get at 1; cbv zeta
  | |- (st_bind (st_lift ?r) _ ?s).1 = ?s =>
      unfold st_bind at 1; unfold st_lift at 1;
      destruct r; [cbv zeta|reflexivity]
  end.

(** X14.  The only change a call of [forward] can make to the instance is
    the lazy initialisation of [prev_att]: the state after the call is the
    state after lines 158-161, in every environment.  The attention weights
    are never stored. *)
Theorem LocationAwareAttention_forward_only_initialises
    (G : gmap string (value A)) (self : LocationAwareAttention.instance A)
    (q k v : tensor A) (mask : option (tensor bool)) (ts : Z) :
  size k 1 = Return ts →
  (LocationAwareAttention.forward G q k v mask self).1
  = match LocationAwareAttention.prev_att self with
    | None => (LocationAwareAttention.init_prev_att G ts self).1
    | Some _ => self
    end.
Proof.
  intros Hsize. unfold LocationAwareAttention.forward.
  unfold st_bind at 1. unfold st_lift at 1. rewrite Hsize.
  unfold st_bind at 1. unfold st_get at 1.
  destruct (LocationAwareAttention.prev_att self) as [p|].
  - unfold st_bind at 1. unfold st_ret at 1.
    repeat forward_tail_step.
  - unfold st_bind at 1.
    destruct (LocationAwareAttention.init_prev_att G ts self) as [s' [u|e]];
      [|done]. cbn [fst].
    repeat forward_tail_step.
Qed.

(** X15.  [ScaleDotAttention.forward] raises in every environment on an
    instance as the constructor leaves it: whatever the globals bind, line
    135 reads [self.num_head], which no method assigns. *)
Theorem ScaleDotAttention_forward_raises_everywhere
    (G : gmap string (value A)) (self : ScaleDotAttention.instance A)
    (q k v : tensor A) (mask : option (tensor bool)) :
  ScaleDotAttention.num_head self = None →
  raises (ScaleDotAttention.forward G self q k v mask).
Proof.
  intros Hnh. unfold ScaleDotAttention.forward.
  destruct (ScaleDotAttention.weights G self q k mask) as [attn|e];
    cbn [mbind result_bind]; [|by eexists].
  destruct (global_attr G "torch" "bmm") as [f|e];
    cbn [mbind result_bind]; [|by eexists].
  destruct (bmm attn v) as [output|e]; cbn [mbind result_bind]; [|by eexists].
  destruct (lookup_name G "bs") as [bs|e]; cbn [mbind result_bind]; [|by eexists].
  rewrite Hnh. by eexists.
Qed.

End AttentionStateMore.

(** ** The further properties at concrete inputs *)

Lemma VGGExtractor_fbank_dims_witness :
  let t := StandIn.iota [1; 8; 120]%nat in
  let G := <["example_input" := VTensor t]> module_globals in
  VGGExtractor.check_dim G (Z.of_nat 120)
  = Return (Z.of_nat 120 / 40, 40, (40 / 4) * 128)
  ∧ (40 / 4) * 128 = 1280
  ∧ VGGExtractor.new G (Z.of_nat 120)
    = Return (VGGExtractor.Instance (Z.of_nat 120 / 40) 40 1280
                (VGGExtractor.extractor_layers (Z.of_nat 120 / 40))).
Proof.
  intros t.
  apply (VGGExtractor_fbank_dims t 120).
  - reflexivity.
  - vm_compute. lia.
  - reflexivity.
  - reflexivity.
Defined.


Lemma VGGExtractor_view_input_layout_witness :
  let self := VGGExtractor.Instance 3 13 384 (VGGExtractor.extractor_layers 3) in
  let feature := StandIn.iota [1; 17; 39]%nat in
  ∃ x,
    VGGExtractor.view_input self feature [17]
    = Return (x, (λ n, n / 4) <$> [17])
    ∧ shape x = [1; 3; 4 * (17 / 4); 13]%nat
    ∧ ∀ b c t f, (b < 1)%nat → (c < 3)%nat → (t < 4 * (17 / 4))%nat →
        (f < 13)%nat →
        get x [b; c; t; f] = get feature [b; t; (c * 13 + f)%nat].
Proof.
  intros self feature.
  apply (VGGExtractor_view_input_layout self feature [17] 1 17 3 13).
  - reflexivity.
  - reflexivity.
  - reflexivity.
  - reflexivity.
Defined.

Lemma VGGExtractor_view_input_needs_three_axes_witness :
  let self := VGGExtractor.Instance 3 13 384 (VGGExtractor.extractor_layers 3) in
  raises (VGGExtractor.view_input self (StandIn.iota [17; 39]%nat) [17]).
Proof.
  intros self.
  apply (VGGExtractor_view_input_needs_three_axes self (StandIn.iota [17; 39]%nat) [17]).
  simpl. lia.
Defined.

Lemma VGGExtractor_view_input_width_mismatch_witness :
  let self := VGGExtractor.Instance 3 13 384 (VGGExtractor.extractor_layers 3) in
  VGGExtractor.view_input self (StandIn.iota [1; 17; 40]%nat) [17]
  = Raise (RuntimeError "shape is invalid for input size").
Proof.
  intros self.
  apply (VGGExtractor_view_input_width_mismatch self (StandIn.iota [1; 17; 40]%nat)
           [17] 1 17 40).
  - simpl. lia.
  - simpl. lia.
  - reflexivity.
  - reflexivity.
  - simpl. lia.
  - lia.
  - lia.
Defined.

Lemma VGGExtractor_forward_out_dim_mismatch_witness :
  let self := VGGExtractor.Instance 3 13 416 (VGGExtractor.extractor_layers 3) in
  VGGExtractor.forward self (StandIn.iota [1; 17; 39]%nat) [17]
  = Raise (RuntimeError "shape is invalid for input size").
Proof.
  intros self.
  apply (VGGExtractor_forward_out_dim_mismatch self (StandIn.iota [1; 17; 39]%nat)
           [17] 1 17 39).
  - reflexivity.
  - simpl. lia.
  - simpl. lia.
  - simpl. lia.
  - vm_compute. lia.
  - reflexivity.
  - reflexivity.
  - reflexivity.
  - lia.
  - lia.
Defined.

Lemma RNNLayer_drop_downsampling_witness :
  let self := RNNLayer.Instance 2 0 false 2 "drop"
                (RNNLayer.Recurrent "LSTM" 40 2 false) None None in
  let output := StandIn.iota [1; 11; 2]%nat in
  ∃ out,
    RNNLayer.downsampling self output [11]
    = Return (out, (λ n, n / Z.of_nat 2) <$> [11])
    ∧ shape out = [1; (11 + 2 - 1) / 2; 2]%nat
    ∧ (∀ b j d, (b < 1)%nat → (j < (11 + 2 - 1) / 2)%nat → (d < 2)%nat →
         get out [b; j; d] = get output [b; (j * 2)%nat; d])
    ∧ ((11 mod 2 ≠ 0)%nat → ((11 + 2 - 1) / 2 = 11 / 2 + 1)%nat).
Proof.
  intros self output.
  apply (RNNLayer_drop_downsampling self output [11] 1 11 2 2).
  - reflexivity.
  - lia.
  - reflexivity.
  - reflexivity.
  - reflexivity.
Defined.

Lemma RNNLayer_concat_downsampling_general_witness :
  let self := RNNLayer.Instance 8 0 false 4 "concat"
                (RNNLayer.Recurrent "GRU" 40 2 false) None None in
  let output := StandIn.iota [2; 10; 2]%nat in
  ∃ out,
    RNNLayer.downsampling self output [10; 7]
    = Return (out, (λ n, n / Z.of_nat 4) <$> [10; 7])
    ∧ shape out = [2; 10 / 4; 2 * 4]%nat
    ∧ (∀ b j c, (b < 2)%nat → (j < 10 / 4)%nat → (c < 2 * 4)%nat →
         get out [b; j; c]
         = get output [b; (j * 4 + c / 2)%nat; (c mod 2)%nat]).
Proof.
  intros self output.
  apply (RNNLayer_concat_downsampling_general self output [10; 7] 2 10 2 4).
  - reflexivity.
  - lia.
  - reflexivity.
  - reflexivity.
  - reflexivity.
  - reflexivity.
  - reflexivity.
Defined.

Lemma RNNLayer_unsupported_style_witness :
  RNNLayer.new (A:=Z) module_globals 40 "LSTM" 320 true 0 false 2 "mean"
  = Raise (ValueError ("Unsupported Sample Style: " +:+ "mean")).
Proof.
  apply (RNNLayer_unsupported_style module_globals 40 "LSTM" 320 true 0 false 2 "mean").
  - vm_compute. reflexivity.
  - intros E. discriminate E.
  - intros E. discriminate E.
Defined.


Lemma RNNLayer_out_dim_is_the_output_width_witness :
  let output := StandIn.iota [1; 10; 4]%nat in
  let G := <["in_dim" := VInt 40]> (<["rnn_cell" := VStr "lstm"]> module_globals) in
  ∃ self out lens,
    RNNLayer.new (A:=Z) G 83 "GRU" 2 true 1 true 3 "concat" = Return self
    ∧ RNNLayer.downsampling self output [10] = Return (out, lens)
    ∧ length lens = length [10]
    ∧ last (shape out) = Some (Z.to_nat (RNNLayer.out_dim self)).
Proof.
  intros output.
  apply (RNNLayer_out_dim_is_the_output_width "lstm" 40 83 "GRU" 2 true 1 true 3
           "concat" output [10] 1 10 4).
  - apply (bool_decide_unpack _). vm_compute. exact I.
  - right. reflexivity.
  - lia.
  - lia.
  - reflexivity.
  - reflexivity.
  - reflexivity.
  - reflexivity.
  - reflexivity.
  - reflexivity.
Defined.

Lemma LocationAwareAttention_uniform_init_witness :
  let self := LocationAwareAttention.Instance 2 1 (Softmax 1) None
                (Conv1d 1 10 3 1) (Linear 10 4 false) (Linear 4 1 true) None in
  let G := <["bs" := VInt (Z.of_nat 2)]>
             (<["enc_len" := VList (VInt <$> [3])]> module_globals) in
  ∃ p,
    LocationAwareAttention.init_prev_att G (Z.of_nat 5) self
    = (LocationAwareAttention.set_prev_att (Some p) self, Return tt)
    ∧ shape p = [2; 1; 5]%nat
    ∧ ∀ i h j, (i < 2)%nat → (h < 1)%nat → (j < 5)%nat →
        get p [i; h; j]
        = Some (match [3] !! i with
                | Some sl => if bool_decide (Z.of_nat j < sl)
                             then frecip sl else fzero
                | None => fzero
                end).
Proof.
  intros self.
  apply (LocationAwareAttention_uniform_init self 2 1 5 [3]).
  - reflexivity.
  - apply (bool_decide_unpack _). vm_compute. exact I.
  - simpl. lia.
Defined.

Lemma LocationAwareAttention_zero_length_leaves_partial_state_witness :
  let self := LocationAwareAttention.Instance 2 1 (Softmax 1) None
                (Conv1d 1 10 3 1) (Linear 10 4 false) (Linear 4 1 true) None in
  let G := <["bs" := VInt (Z.of_nat 3)]>
             (<["enc_len" := VList (VInt <$> ([3] ++ 0 :: [2]))]> module_globals) in
  ∃ p,
    LocationAwareAttention.init_prev_att G (Z.of_nat 5) self
    = (LocationAwareAttention.set_prev_att (Some p) self, Raise ZeroDivisionError)
    ∧ LocationAwareAttention.prev_att
        (LocationAwareAttention.init_prev_att G (Z.of_nat 5) self).1 ≠ None
    ∧ shape p = [3; 1; 5]%nat
    ∧ ∀ i h j, (i < 3)%nat → (h < 1)%nat → (j < 5)%nat →
        get p [i; h; j]
        = Some (match [3] !! i with
                | Some sl => if bool_decide (Z.of_nat j < sl)
                             then frecip sl else fzero
                | None => fzero
                end).
Proof.
  intros self.
  apply (LocationAwareAttention_zero_length_leaves_partial_state self 3 1 5 [3] [2]).
  - reflexivity.
  - apply (bool_decide_unpack _). vm_compute. exact I.
  - simpl. lia.
Defined.

Lemma LocationAwareAttention_forward_only_initialises_witness :
  let self := LocationAwareAttention.Instance 2 1 (Softmax 1) None
                (Conv1d 1 10 3 1) (Linear 10 4 false) (Linear 4 1 true) None in
  let q := StandIn.iota [1; 4]%nat in
  let k := StandIn.iota [1; 5; 4]%nat in
  let G := <["bs" := VInt 1]> (<["enc_len" := VList [VInt 3]]> module_globals) in
  (LocationAwareAttention.forward G q k k None self).1
  = match LocationAwareAttention.prev_att self with
    | None => (LocationAwareAttention.init_prev_att G 5 self).1
    | Some _ => self
    end.
Proof.
  intros self q k G.
  apply (LocationAwareAttention_forward_only_initialises G self q k k None 5).
  reflexivity.
Defined.

Lemma ScaleDotAttention_forward_raises_everywhere_witness :
  let self := ScaleDotAttention.Instance 2 (Softmax 1) None in
  let q := StandIn.iota [1; 1; 4]%nat in
  let k := StandIn.iota [1; 5; 4]%nat in
  let G := <["bs" := VInt 1]> module_globals in
  raises (ScaleDotAttention.forward G self q k k None).
Proof.
  intros self q k G.
  apply (ScaleDotAttention_forward_raises_everywhere G self q k k None).
  reflexivity.
Defined.

Lemma LocationAwareAttention_tensor_lengths_init_witness :
  let self := LocationAwareAttention.Instance 2 1 (Softmax 1) None
                (Conv1d 1 10 3 1) (Linear 10 4 false) (Linear 4 1 true) None in
  let G := <["bs" := VInt (Z.of_nat 2)]>
             (<["enc_len" := VLongs [3; 0]]> module_globals) in
  ∃ p,
    LocationAwareAttention.init_prev_att G (Z.of_nat 5) self
    = (LocationAwareAttention.set_prev_att (Some p) self, Return tt)
    ∧ shape p = [2; 1; 5]%nat
    ∧ ∀ i h j, (i < 2)%nat → (h < 1)%nat → (j < 5)%nat →
        get p [i; h; j]
        = Some (match [3; 0] !! i with
                | Some sl => if bool_decide (Z.of_nat j < sl)
                             then ftensor_recip sl else fzero
                | None => fzero
                end).
Proof.
  intros self.
  apply (LocationAwareAttention_tensor_lengths_init self 2 1 5 [3; 0]).
  - reflexivity.
  - apply (bool_decide_unpack _). vm_compute. exact I.
  - simpl. lia.
Defined.
